(** * KinopoiskRatingScraper: a shallow embedding of [kinopoisk_scraper.py]

    The development follows the source file top-down:
    - Python strings, the character classes of [re] and [str.strip];
    - a small backtracking matcher for the regular expressions of the source;
    - exceptions and a state-and-exception monad;
    - the part of the BeautifulSoup interface the scraper calls, as a type
      class, with the parsed tree as its instance;
    - [get_total_pages], [fetch_ratings_page], [parse_rating_item],
      [extract_from_html] and [export_to_csv];
    - the definitions the statements use: the fields read off the parsed
      tree, sample pages and fragments;
    - the properties of the specification: first those that hold on every
      soup, whatever its calls raise, then those of the parsed tree;
    - further properties of the run, of the fields of a record and of the
      requests. *)

From Stdlib Require Import ZArith List Bool Lia.
From stdpp Require Import base option list strings gmap fin_maps.

Set Warnings "-clear-no-such-hyp".

Local Open Scope Z_scope.

(** ** Python strings *)

(** A Python [str] is a sequence of Unicode code points. *)
Abbreviation pystr := (list N).

(** An ASCII literal of the source as a Python string. *)
Definition lit (s : string) : pystr :=
  List.map (fun a => N.of_nat (Ascii.nat_of_ascii a)) (String.list_ascii_of_string s).

(** Cyrillic literals of the source, by code point. *)
Definition cyr_iz : pystr := [1080; 1079]%N.          (* "из" *)
Definition cyr_min : pystr := [1084; 1080; 1085]%N.   (* "мин" *)

Definition in_ranges (rs : list (N * N)) (c : N) : bool :=
  existsb (fun r => (fst r <=? c)%N && (c <=? snd r)%N) rs.

(** [str.isspace] on one character; the class [\s] of a [str] pattern and
    the characters removed by [str.strip()] are the same set. *)
Definition space_ranges : list (N * N) :=
  [(9, 13); (28, 32); (133, 133); (160, 160); (5760, 5760); (8192, 8202);
   (8232, 8233); (8239, 8239); (8287, 8287); (12288, 12288)]%N.

Definition is_space (c : N) : bool := in_ranges space_ranges c.

(** First code points of the runs of Unicode decimal digits (category Nd,
    Unicode 14); every run but the mathematical one holds the ten digits
    0..9 in order, the mathematical one (120782..120831) five such runs. *)
Definition decimal_ranges : list (N * N) :=
  [(48, 57); (1632, 1641); (1776, 1785); (1984, 1993); (2406, 2415);
   (2534, 2543); (2662, 2671); (2790, 2799); (2918, 2927); (3046, 3055);
   (3174, 3183); (3302, 3311); (3430, 3439); (3558, 3567); (3664, 3673);
   (3792, 3801); (3872, 3881); (4160, 4169); (4240, 4249); (6112, 6121);
   (6160, 6169); (6470, 6479); (6608, 6617); (6784, 6793); (6800, 6809);
   (6992, 7001); (7088, 7097); (7232, 7241); (7248, 7257); (42528, 42537);
   (43216, 43225); (43264, 43273); (43472, 43481); (43504, 43513);
   (43600, 43609); (44016, 44025); (65296, 65305); (66720, 66729);
   (68912, 68921); (69734, 69743); (69872, 69881); (69942, 69951);
   (70096, 70105); (70384, 70393); (70736, 70745); (70864, 70873);
   (71248, 71257); (71360, 71369); (71472, 71481); (71904, 71913);
   (72016, 72025); (72784, 72793); (73040, 73049); (73120, 73129);
   (92768, 92777); (92864, 92873); (93008, 93017); (120782, 120831);
   (123200, 123209); (123632, 123641); (125264, 125273); (130032, 130041)]%N.

(** [str.isdecimal] on one character: the class [\d] of a [str] pattern and
    the digits [int()] accepts. *)
Definition is_decimal (c : N) : bool := in_ranges decimal_ranges c.

(** The value of a decimal digit (0 for any other character). *)
Definition digit_value (c : N) : Z :=
  match List.find (fun r => (fst r <=? c)%N && (c <=? snd r)%N) decimal_ranges with
  | Some r => Z.of_N ((c - fst r) mod 10)
  | None => 0
  end.

(** [s.strip()] *)
Fixpoint lstrip (s : pystr) : pystr :=
  match s with
  | c :: s' => if is_space c then lstrip s' else s
  | [] => []
  end.

Definition rstrip (s : pystr) : pystr := rev (lstrip (rev s)).

Definition strip (s : pystr) : pystr := rstrip (lstrip s).

(** [s.startswith(p)], giving the rest of [s] *)
Fixpoint strip_prefix (p s : pystr) : option pystr :=
  match p, s with
  | [], _ => Some s
  | a :: p', b :: s' => if (a =? b)%N then strip_prefix p' s' else None
  | _ :: _, [] => None
  end.

(** [p in s] *)
Fixpoint contains (p s : pystr) : bool :=
  match strip_prefix p s with
  | Some _ => true
  | None => match s with
            | _ :: s' => contains p s'
            | [] => false
            end
  end.

(** [sep.join(l)] *)
Fixpoint join (sep : pystr) (l : list pystr) : pystr :=
  match l with
  | [] => []
  | [x] => x
  | x :: l' => x ++ sep ++ join sep l'
  end.

(** Truth value of a string: [bool(s)] *)
Definition truthy (s : pystr) : bool :=
  match s with [] => false | _ :: _ => true end.

(** [str(n)] for a natural number, most significant digit first. *)
Fixpoint digits_fuel (fuel : nat) (n : N) (acc : pystr) : pystr :=
  match fuel with
  | O => acc
  | S f =>
      let acc' := (48 + n mod 10)%N :: acc in
      if (n <? 10)%N then acc' else digits_fuel f (n / 10)%N acc'
  end.

Definition str_of_N (n : N) : pystr := digits_fuel (S (N.to_nat (N.log2 n))) n [].

(** [str(z)] for an integer, as an f-string prints it. *)
Definition str_of_Z (z : Z) : pystr :=
  if (z <? 0)%Z then [45%N] ++ str_of_N (Z.to_N (- z)) else str_of_N (Z.to_N z).

Arguments lit : simpl never.

(** [str(n).zfill(w)], as the [%m] and [%d] directives pad *)
Definition zfill (w : nat) (s : pystr) : pystr :=
  repeat 48%N (w - length s) ++ s.

(** ** Regular expressions

    The patterns of the source use literals, character classes, a star or a
    plus over one class, alternation, groups and the anchors [^] and [$].
    [rmatch] is the backtracking matcher of [re] on that fragment, in
    continuation-passing style: [pre] is the text before the current
    position, reversed, [s] the text after it, [caps] the groups closed so
    far, and the continuation [k] is the rest of the pattern.  A failing
    continuation makes the matcher try its next choice, in the order [re]
    tries them.  Groups are numbered as they close, which is the order of
    their opening parentheses when groups are not nested (none here is). *)

Inductive regex : Type :=
| Eps                                   (* the empty pattern *)
| Lit (c : N)                           (* one literal character *)
| Cls (p : N -> bool)                   (* one character of a class *)
| Cat (r1 r2 : regex)                   (* r1 r2 *)
| Alt (r1 r2 : regex)                   (* r1|r2 *)
| Star (greedy : bool) (p : N -> bool)  (* c* and c*? over a class c *)
| Grp (r : regex)                       (* (r) *)
| Bol                                   (* ^ *)
| Eol.                                  (* $ *)

Definition orelse {A} (x : option A) (y : option A) : option A :=
  match x with Some _ => x | None => y end.

Section Matcher.
Context {R : Type}.

Definition kont : Type := pystr -> pystr -> list pystr -> option R.

Fixpoint star_loop (greedy : bool) (p : N -> bool) (caps : list pystr)
    (k : kont) (pre s : pystr) : option R :=
  match s with
  | c :: s' =>
      if p c then
        if greedy
        then orelse (star_loop greedy p caps k (c :: pre) s') (k pre s caps)
        else orelse (k pre s caps) (star_loop greedy p caps k (c :: pre) s')
      else k pre s caps
  | [] => k pre s caps
  end.

Fixpoint rmatch (r : regex) (pre s : pystr) (caps : list pystr) (k : kont)
    : option R :=
  match r with
  | Eps => k pre s caps
  | Lit c =>
      match s with
      | c' :: s' => if (c =? c')%N then k (c' :: pre) s' caps else None
      | [] => None
      end
  | Cls p =>
      match s with
      | c' :: s' => if p c' then k (c' :: pre) s' caps else None
      | [] => None
      end
  | Cat r1 r2 =>
      rmatch r1 pre s caps (fun pre' s' caps' => rmatch r2 pre' s' caps' k)
  | Alt r1 r2 =>
      orelse (rmatch r1 pre s caps k) (rmatch r2 pre s caps k)
  | Star greedy p => star_loop greedy p caps k pre s
  | Grp r1 =>
      rmatch r1 pre s caps (fun pre' s' caps' =>
        k pre' s' (caps' ++ [rev (take (length pre' - length pre) pre')]))
  | Bol => match pre with [] => k pre s caps | _ :: _ => None end
  | Eol => match s with
           | [] => k pre s caps
           | [c] => if (c =? 10)%N then k pre s caps else None
           | _ => None
           end
  end.
End Matcher.

(** A match object: the groups and the text after the match. *)
Definition rx_match : Type := list pystr * pystr.

Definition accept : @kont rx_match := fun _ s caps => Some (caps, s).

(** [re.match(r, s)] *)
Definition re_match (r : regex) (s : pystr) : option rx_match :=
  rmatch r [] s [] accept.

(** [re.search(r, s)]: the first position, left to right, where [r] matches *)
Fixpoint search_from (r : regex) (pre s : pystr) : option rx_match :=
  match rmatch r pre s [] accept with
  | Some m => Some m
  | None => match s with
            | c :: s' => search_from r (c :: pre) s'
            | [] => None
            end
  end.

Definition re_search (r : regex) (s : pystr) : option rx_match :=
  search_from r [] s.

(** [m.group(1)] *)
Definition group1 (m : rx_match) : pystr := nth 0 (fst m) [].

Fixpoint lits (s : pystr) : regex :=
  match s with
  | [] => Eps
  | [c] => Lit c
  | c :: s' => Cat (Lit c) (lits s')
  end.

Fixpoint cats (rs : list regex) : regex :=
  match rs with
  | [] => Eps
  | [r] => r
  | r :: rs' => Cat r (cats rs')
  end.

Definition plus (p : N -> bool) : regex := Cat (Cls p) (Star true p).
Definition opt (r : regex) : regex := Alt r Eps.
Definition rng (a b : string) : N -> bool :=
  fun c => match lit a, lit b with
           | [x], [y] => (x <=? c)%N && (c <=? y)%N
           | _, _ => false
           end.
Definition dot : N -> bool := fun c => negb (c =? 10)%N.

(** The patterns of the source. *)

(* r'из\s*(\d+)' *)
Definition re_pages_from_to : regex :=
  cats [lits cyr_iz; Star true is_space; Grp (plus is_decimal)].

(* r'(\d+)' *)
Definition re_number : regex := Grp (plus is_decimal).

(* r"^(.*?)\s*\((\d{4})\)$" *)
Definition re_name_year : regex :=
  cats [Bol; Grp (Star false dot); Star true is_space; Lit 40;
        Grp (cats [Cls is_decimal; Cls is_decimal; Cls is_decimal; Cls is_decimal]);
        Lit 41; Eol].

(* r"rating:\s*'(\d+)'" *)
Definition re_rating : regex :=
  cats [lits (lit "rating:"); Star true is_space; Lit 39;
        Grp (plus is_decimal); Lit 39].

(* r'\d+\s*мин\.?' *)
Definition re_duration : regex :=
  cats [plus is_decimal; Star true is_space; lits cyr_min; opt (Lit 46)].

(** ** Exceptions and the monad of the scraper's methods *)

(** The exceptions of the model; each is a subclass of [Exception]. *)
Inductive exn : Type :=
| KeyError (key : string)     (* a missing dict key or tag attribute *)
| ValueError                  (* int(), datetime.strptime *)
| RequestException            (* requests.get, raise_for_status *)
| TypeError                   (* an operation on None *)
| OSError                     (* open() and the csv writer *)
| RuntimeError.               (* anything else a library call raises *)

(** The outcome of a Python expression: a value or a raised exception. *)
Abbreviation py A := (exn + A)%type.

(** A computation over a mutable state [S]: the state a raise leaves behind
    is the state at the raise, as for a Python object mutated in place. *)
Definition M (S A : Type) : Type := S -> S * py A.

Definition ret {S A} (a : A) : M S A := fun s => (s, inr a).

Definition bind {S A B} (m : M S A) (f : A -> M S B) : M S B :=
  fun s => match m s with
           | (s', inr a) => f a s'
           | (s', inl e) => (s', inl e)
           end.

Definition raise {S A} (e : exn) : M S A := fun s => (s, inl e).

(** A library call inside a method. *)
Definition call {S A} (x : py A) : M S A := fun s => (s, x).

Definition get {S} : M S S := fun s => (s, inr s).
Definition put {S} (s' : S) : M S unit := fun _ => (s', inr tt).

(** [try: body  except Exception as e: handler e] *)
Definition try_except {S A} (body : M S A) (handler : exn -> M S A) : M S A :=
  fun s => match body s with
           | (s', inr a) => (s', inr a)
           | (s', inl e) => handler e s'
           end.

#[global] Instance M_ret {S} : MRet (M S) := @ret S.
#[global] Instance M_bind {S} : MBind (M S) := fun A B f m => bind m f.

(** [int(s)] on the text of a pattern group: surrounding white space is
    dropped and the decimal digits are read in base ten; a text of more
    digits than [sys.get_int_max_str_digits()] (4300 unless the program
    or its environment changes it, which this one does not) is refused with
    a [ValueError].  (Signs and underscores, which [int] also reads, occur
    in no group of the source's patterns and are a [ValueError] here.) *)
Definition int_digits (s : pystr) : Z :=
  fold_left (fun acc c => 10 * acc + digit_value c) s 0.

Definition int_max_str_digits : Z := 4300.

Definition py_int (s : pystr) : py Z :=
  let t := strip s in
  if truthy t && forallb is_decimal t && (Z.of_nat (length t) <=? int_max_str_digits)
  then inr (int_digits t) else inl ValueError.

(** ** [datetime.strptime(s, "%d.%m.%Y, %H:%M")] and [strftime("%Y-%m-%d")]

    [_strptime] turns the format into a pattern, directive by directive,
    matches it at the start of the text, refuses text left over, converts
    the groups with [int] and builds the date, which checks the calendar. *)

Definition alts (rs : list regex) : regex :=
  fold_right (fun r acc => match acc with Eps => r | _ => Alt r acc end) Eps rs.

Definition chr (s : string) : regex := lits (lit s).

(* 'd': r"(?P<d>3[0-1]|[1-2]\d|0[1-9]|[1-9]| [1-9])" *)
Definition re_d : regex :=
  Grp (alts [Cat (chr "3") (Cls (rng "0" "1")); Cat (Cls (rng "1" "2")) (Cls is_decimal);
             Cat (chr "0") (Cls (rng "1" "9")); Cls (rng "1" "9");
             Cat (chr " ") (Cls (rng "1" "9"))]).
(* 'm': r"(?P<m>1[0-2]|0[1-9]|[1-9])" *)
Definition re_m : regex :=
  Grp (alts [Cat (chr "1") (Cls (rng "0" "2")); Cat (chr "0") (Cls (rng "1" "9"));
             Cls (rng "1" "9")]).
(* 'Y': r"(?P<Y>\d\d\d\d)" *)
Definition re_Y : regex :=
  Grp (cats [Cls is_decimal; Cls is_decimal; Cls is_decimal; Cls is_decimal]).
(* 'H': r"(?P<H>2[0-3]|[0-1]\d|\d)" *)
Definition re_H : regex :=
  Grp (alts [Cat (chr "2") (Cls (rng "0" "3")); Cat (Cls (rng "0" "1")) (Cls is_decimal);
             Cls is_decimal]).
(* 'M': r"(?P<M>[0-5]\d|\d)" *)
Definition re_M : regex :=
  Grp (alts [Cat (Cls (rng "0" "5")) (Cls is_decimal); Cls is_decimal]).

(** The pattern of "%d.%m.%Y, %H:%M": the dots are escaped and the blank
    becomes [\s+]. *)
Definition re_date_format : regex :=
  cats [re_d; chr "."; re_m; chr "."; re_Y; chr ","; plus is_space; re_H; chr ":"; re_M].

Record datetime : Type := mk_datetime
  { dt_year : Z; dt_month : Z; dt_day : Z; dt_hour : Z; dt_minute : Z }.

Definition is_leap (y : Z) : bool :=
  (y mod 4 =? 0) && (negb (y mod 100 =? 0) || (y mod 400 =? 0)).

Definition days_in_month (y m : Z) : Z :=
  if m =? 2 then (if is_leap y then 29 else 28)
  else if (m =? 4) || (m =? 6) || (m =? 9) || (m =? 11) then 30 else 31.

(** [datetime.date(y, m, d)]'s range check *)
Definition valid_date (y m d : Z) : bool :=
  (1 <=? y) && (y <=? 9999) && (1 <=? m) && (m <=? 12) &&
  (1 <=? d) && (d <=? days_in_month y m).

Definition strptime (s : pystr) : py datetime :=
  match re_match re_date_format s with
  | None => inl ValueError                       (* does not match format *)
  | Some (caps, rest) =>
      match rest with
      | _ :: _ => inl ValueError                 (* unconverted data remains *)
      | [] =>
          match py_int (nth 0 caps []), py_int (nth 1 caps []), py_int (nth 2 caps []),
                py_int (nth 3 caps []), py_int (nth 4 caps []) with
          | inr d, inr m, inr y, inr h, inr mi =>
              if valid_date y m d then inr (mk_datetime y m d h mi)
              else inl ValueError                (* out of range *)
          | _, _, _, _, _ => inl ValueError
          end
      end
  end.

(** [dt.strftime("%Y-%m-%d")]: [%m] and [%d] are two digits; [%Y] is the
    year in decimal as the C library prints it (no padding below 1000). *)
Definition strftime_ymd (dt : datetime) : pystr :=
  str_of_N (Z.to_N (dt_year dt)) ++ lit "-" ++
  zfill 2 (str_of_N (Z.to_N (dt_month dt))) ++ lit "-" ++
  zfill 2 (str_of_N (Z.to_N (dt_day dt))).

(** ** The BeautifulSoup interface

    What the scraper calls on a soup or a tag.  Every call is a library
    call and may raise; the methods of the class return [py] values. *)

(** A compound CSS selector: [name.class...[attr]...[attr*='text']...] *)
Record compound : Type := mk_compound
  { sel_name : pystr;
    sel_classes : list pystr;
    sel_has_attr : list pystr;
    sel_attr_contains : list (pystr * pystr) }.

(** Compound selectors joined by the descendant combinator, outermost first. *)
Abbreviation selector := (list compound).

Class Soup (tag : Type) : Type :=
  { (* t.find(name, class_=c, string=re.compile(r)) *)
    tag_find : tag -> pystr -> option pystr -> option regex -> py (option tag);
    (* t.find_all(name, class_=c) *)
    tag_find_all : tag -> pystr -> option pystr -> py (list tag);
    (* t.select_one(css) *)
    tag_select_one : tag -> selector -> py (option tag);
    (* t.has_attr(key) *)
    tag_has_attr : tag -> pystr -> py bool;
    (* t["class"], a list of class names *)
    tag_get_class : tag -> py (list pystr);
    (* t[key] for a single-valued attribute *)
    tag_get_attr : tag -> pystr -> py pystr;
    (* t.text *)
    tag_text : tag -> py pystr;
    (* t.string *)
    tag_string : tag -> py (option pystr) }.

(** *** The parsed tree

    What [html.parser] builds: strings and tags.  A string is character
    data, a CDATA section, or a comment (which stands here for the other
    strings that are not text as well: declarations, the doctype and
    processing instructions).  A tag has a name, a [class] attribute kept
    as the list of its names (when present), its other attributes as
    strings, and its children. *)
#[warnings="-register-all"]
Inductive node : Type :=
| Text (s : pystr)
| CData (s : pystr)
| Comment (s : pystr)
| Elem (name : pystr) (cls : option (list pystr)) (attrs : list (pystr * pystr))
       (kids : list node).

(** The opening tag of an enclosing element. *)
Record head : Type := mk_head
  { h_name : pystr; h_cls : option (list pystr); h_attrs : list (pystr * pystr) }.

(** A node in its document: the enclosing tags, innermost first, and the
    node itself. *)
Record located : Type := mk_located { l_ancestors : list head; l_node : node }.

Definition pystr_eqb (a b : pystr) : bool := bool_decide (a = b).

Definition assoc (k : pystr) (l : list (pystr * pystr)) : option pystr :=
  snd <$> List.find (fun kv => pystr_eqb (fst kv) k) l.

(** The value of an attribute as a selector sees it: the class names
    joined by blanks, any other attribute as it is. *)
Definition attr_value (c : option (list pystr)) (a : list (pystr * pystr)) (k : pystr)
    : option pystr :=
  if pystr_eqb k (lit "class") then join (lit " ") <$> c else assoc k a.

Definition node_head (n : node) : option head :=
  match n with
  | Elem nm c a _ => Some (mk_head nm c a)
  | _ => None
  end.

(** [t.descendants]: every node below [n], in document order. *)
Fixpoint descendants (anc : list head) (n : node) : list located :=
  match n with
  | Elem nm c a kids =>
      let anc' := mk_head nm c a :: anc in
      (fix go (ks : list node) : list located :=
         match ks with
         | [] => []
         | k :: ks' => mk_located anc' k :: descendants anc' k ++ go ks'
         end) kids
  | _ => []
  end.

Definition below (t : located) : list located :=
  descendants (l_ancestors t) (l_node t).

(** The class of a string object.  The tree builder makes character data
    inside a [rt], [rp], [style], [script] or [template] tag a string of
    the class of that tag (the innermost such tag, when they nest); other
    character data is a plain [NavigableString]; a CDATA section and a
    comment have their own classes wherever they stand. *)
Inductive string_class : Type :=
| NavigableString
| CDataString
| CommentString
| ContainerString (tag_name : pystr).   (* Script, Stylesheet, TemplateString, ... *)

(* HTMLTreeBuilder.DEFAULT_STRING_CONTAINERS *)
Definition string_containers : list pystr :=
  [lit "rt"; lit "rp"; lit "style"; lit "script"; lit "template"].

Definition is_container (nm : pystr) : bool := existsb (pystr_eqb nm) string_containers.

Definition container_class (anc : list head) : string_class :=
  match List.find (fun h => is_container (h_name h)) anc with
  | Some h => ContainerString (h_name h)
  | None => NavigableString
  end.

(** [tag.interesting_string_types]: the class of its own strings for a
    container tag, [(NavigableString, CData)] for any other tag; a string
    counts when its class is one of them, subclasses apart. *)
Definition interesting_string_types (nm : pystr) (c : string_class) : bool :=
  if is_container nm
  then match c with ContainerString nm' => pystr_eqb nm' nm | _ => false end
  else match c with NavigableString | CDataString => true | _ => false end.

(** What a descendant adds to the text of a tag. *)
Definition own_string (types : string_class -> bool) (d : located) : pystr :=
  match l_node d with
  | Text s => if types (container_class (l_ancestors d)) then s else []
  | CData s => if types CDataString then s else []
  | Comment s => if types CommentString then s else []
  | Elem _ _ _ _ => []
  end.

(** [t.text]: the strings below [t] of the classes [t] is interested in,
    concatenated.  The strings inside a nested [script] or [style], and
    comments, are no part of the text of a [div]. *)
Definition node_text (t : located) : pystr :=
  match l_node t with
  | Elem nm _ _ _ => concat (List.map (own_string (interesting_string_types nm)) (below t))
  | Text s | CData s | Comment s => s
  end.

(** [t.string]: the one string of a tag whose only child is a string (of
    any class), or a tag with such a [.string]. *)
Fixpoint node_string (n : node) : option pystr :=
  match n with
  | Text s | CData s | Comment s => Some s
  | Elem _ _ _ [k] => node_string k
  | Elem _ _ _ _ => None
  end.

(** [class_=c] of [find]: one of the class names is [c], or the whole
    attribute is. *)
Definition class_is (c : pystr) (cl : option (list pystr)) : bool :=
  match cl with
  | None => false
  | Some l => existsb (pystr_eqb c) l || pystr_eqb (join (lit " ") l) c
  end.

(** [string=re.compile(r)] of [find]: [r.search] succeeds on [.string]. *)
Definition string_matches (r : regex) (n : node) : bool :=
  match node_string n with
  | Some s => bool_decide (is_Some (re_search r s))
  | None => false
  end.

Definition find_filter (nm : pystr) (c : option pystr) (r : option regex)
    (t : located) : bool :=
  match l_node t with
  | Elem nm' cl _ _ =>
      pystr_eqb nm' nm
      && match c with Some c' => class_is c' cl | None => true end
      && match r with Some r' => string_matches r' (l_node t) | None => true end
  | _ => false
  end.

(** A compound selector on an opening tag. *)
Definition compound_ok (s : compound) (h : head) : bool :=
  pystr_eqb (h_name h) (sel_name s)
  && forallb (fun c => match h_cls h with
                       | Some l => existsb (pystr_eqb c) l
                       | None => false
                       end) (sel_classes s)
  && forallb (fun k => bool_decide (is_Some (attr_value (h_cls h) (h_attrs h) k)))
       (sel_has_attr s)
  && forallb (fun kv => match attr_value (h_cls h) (h_attrs h) (fst kv) with
                        | Some v => truthy (snd kv) && contains (snd kv) v
                        | None => false
                        end) (sel_attr_contains s).

(** The outer compounds of a selector (innermost first) against the
    enclosing tags (innermost first): each needs some enclosing tag, in
    order. *)
Fixpoint chain_ok (outer : list compound) (anc : list head) : bool :=
  match outer with
  | [] => true
  | s :: outer' =>
      (fix up (hs : list head) : bool :=
         match hs with
         | [] => false
         | h :: hs' => (compound_ok s h && chain_ok outer' hs') || up hs'
         end) anc
  end.

Definition select_filter (sel : selector) (t : located) : bool :=
  match rev sel, node_head (l_node t) with
  | s :: outer, Some h => compound_ok s h && chain_ok outer (l_ancestors t)
  | _, _ => false
  end.

Definition node_attr (n : node) (k : pystr) : option pystr :=
  match n with
  | Elem _ c a _ => if pystr_eqb k (lit "class") then None else assoc k a
  | _ => None
  end.

Definition node_class (n : node) : option (list pystr) :=
  match n with
  | Elem _ c _ _ => c
  | _ => None
  end.

Definition of_option {A} (e : exn) (o : option A) : py A :=
  match o with Some a => inr a | None => inl e end.

(** On a parsed tree no call raises, but a subscript for an attribute the
    tag does not have. *)
#[global] Instance tree_soup : Soup located :=
  {| tag_find t nm c r := inr (List.find (find_filter nm c r) (below t));
     tag_find_all t nm c := inr (List.filter (find_filter nm c None) (below t));
     tag_select_one t sel := inr (List.find (select_filter sel) (below t));
     tag_has_attr t k :=
       inr (if pystr_eqb k (lit "class") then bool_decide (is_Some (node_class (l_node t)))
            else bool_decide (is_Some (node_attr (l_node t) k)));
     tag_get_class t := of_option (KeyError "class") (node_class (l_node t));
     tag_get_attr t k := of_option (KeyError "attr") (node_attr (l_node t) k);
     tag_text t := inr (node_text t);
     tag_string t := inr (node_string (l_node t)) |}.

(** A soup: the document as a tag named [[document]] with no enclosing tag. *)
Definition soup_of (top : list node) : located :=
  mk_located [] (Elem (lit "[document]") None [] top).

(** ** The scraper *)

(** A rating record: the dict [parse_rating_item] builds. *)
Abbreviation dict := (gmap string pystr).

(** [d[k]] *)
Definition dict_get (d : dict) (k : string) : py pystr :=
  of_option (KeyError k) (d !! k).

(** [result[k]] and [result[k] = v] on the dict being built *)
Definition getitem (k : string) : M dict pystr := fun d => (d, dict_get d k).
Definition setitem (k : string) (v : pystr) : M dict unit :=
  fun d => (<[k := v]> d, inr tt).

(** What the run does to the outside: HTTP requests, pauses, the file.
    [Written f rows]: [f] was opened, every row written and the file
    closed.  [Interrupted f]: [open(f, 'w')] or a step after it raised; the
    file [f] is then as it was (when [open] raised) or left created or
    truncated, with the rows written before the raise. *)
Inductive event : Type :=
| Get (url : pystr)                                  (* requests.get(url, ...) *)
| Sleep                                              (* time.sleep(1.5) *)
| Written (filename : pystr) (rows : list (list pystr))   (* the CSV file *)
| Interrupted (filename : pystr).

Abbreviation io := (list event).

Definition is_get (e : event) : bool :=
  match e with Get _ => true | _ => false end.

(** The requests of a run, in order. *)
Definition gets (log : io) : list event := List.filter is_get log.

(** [range(lo, hi)] *)
Definition py_range (lo hi : Z) : list Z :=
  List.map (fun i => lo + Z.of_nat i) (seq 0 (Z.to_nat (hi - lo))).

Record KinopoiskScraper : Type := mk_scraper
  { user_id : pystr; cookies : pystr }.

Definition fieldnames : list string :=
  ["num"; "nameRus"; "nameEng"; "rating"; "year"; "type"; "duration"; "date_rated"]%string.

(* "div.nameRus a" *)
Definition css_name_rus : selector :=
  [mk_compound (lit "div") [lit "nameRus"] [] []; mk_compound (lit "a") [] [] []].
(* "div.rateNow[vote]" *)
Definition css_rate_now : selector :=
  [mk_compound (lit "div") [lit "rateNow"] [lit "vote"] []].
(* "div[class*='MyKP_Folder_Select_'][type]" *)
Definition css_type : selector :=
  [mk_compound (lit "div") [] [lit "type"] [(lit "class", lit "MyKP_Folder_Select_")]].

Section Scraper.
Context {tag : Type} `{!Soup tag}.

(** The outside world: [net n url] is the answer to the [n]-th request of
    the run, made to [url]: the soup of the page
    ([BeautifulSoup(response.text, "html.parser")]), or what
    [requests.get] or [raise_for_status] raises.  [disk_ok f] tells
    whether [open(f, 'w')] and every write to the file that follows
    succeed.  The console is no part of the world: every [print] of the
    source is taken to accept its line, and none is modelled. *)
Variable net : nat -> pystr -> py tag.
Variable disk_ok : pystr -> bool.

Definition http_get (url : pystr) : M io tag :=
  fun log => (log ++ [Get url], net (length (List.filter is_get log)) url).

Definition emit (e : event) : M io unit := fun log => (log ++ [e], inr tt).

Definition sleep : M io unit := emit Sleep.

Definition page_url (self : KinopoiskScraper) (page_num : Z) : pystr :=
  lit "https://www.kinopoisk.ru/user/" ++ user_id self ++
  lit "/votes/list/vs/vote/page/" ++ str_of_Z page_num ++ lit "/#list".

(** The two count indicators of [get_total_pages]: the text of the
    element and the pattern that reads the total from it; [None] when
    the code falls through to what follows. *)
Definition pages_of_indicator (found : option tag) (pattern : regex) : M io (option Z) :=
  match found with
  | Some el =>
      t ← call (tag_text el);
      match re_search pattern t with
      | Some m =>
          total_ratings ← call (py_int (group1 m));
          mret (Some ((total_ratings + 49) / 50))
      | None => mret None
      end
  | None => mret None
  end.

Definition get_total_pages (self : KinopoiskScraper) : M io Z :=
  let url := page_url self 1 in
  try_except
    (soup ← http_get url;
     pages_from_to_div ← call (tag_find soup (lit "div") (Some (lit "pagesFromTo")) None);
     r ← pages_of_indicator pages_from_to_div re_pages_from_to;
     match r with
     | Some pages => mret pages
     | None =>
         total_span ← call (tag_find soup (lit "span") (Some (lit "profile_V2_votes_total")) None);
         r' ← pages_of_indicator total_span re_number;
         match r' with
         | Some pages => mret pages
         | None => mret 1
         end
     end)
    (fun e => mret 0).

Definition fetch_ratings_page (self : KinopoiskScraper) (page_num : Z) : M io (list tag) :=
  let url := page_url self page_num in
  try_except
    (soup ← http_get url;
     items ← call (tag_find_all soup (lit "div") (Some (lit "item")));
     mret items)
    (fun e => mret []).

(** *** [parse_rating_item] *)

Definition empty_result : dict :=
  <["num" := []]> (<["nameRus" := []]> (<["nameEng" := []]> (<["rating" := []]>
  (<["year" := []]> (<["type" := []]> (<["duration" := []]>
  (<["date_rated" := []]> ∅))))))).

(* Extract item number *)
Definition extract_num (item : tag) : M dict unit :=
  num_div ← call (tag_find item (lit "div") (Some (lit "num")) None);
  match num_div with
  | Some d => t ← call (tag_text d); setitem "num" (strip t)
  | None => mret tt
  end.

(* Extract Russian name and year *)
Definition extract_name_rus (item : tag) : M dict unit :=
  name_rus_link ← call (tag_select_one item css_name_rus);
  match name_rus_link with
  | Some a =>
      t ← call (tag_text a);
      let full_name_text := strip t in
      match re_match re_name_year full_name_text with
      | Some m =>
          setitem "nameRus" (strip (nth 0 (fst m) []));;
          setitem "year" (nth 1 (fst m) [])
      | None => setitem "nameRus" full_name_text
      end
  | None => mret tt
  end.

(* Extract English name *)
Definition extract_name_eng (item : tag) : M dict unit :=
  name_eng_div ← call (tag_find item (lit "div") (Some (lit "nameEng")) None);
  match name_eng_div with
  | Some d =>
      t ← call (tag_text d);
      setitem "nameEng" (strip t);;
      v ← getitem "nameEng";
      if pystr_eqb v [160%N] then setitem "nameEng" [] else mret tt
  | None => mret tt
  end.

(* for div in my_vote_divs: ... break *)
Fixpoint my_vote_loop (my_vote_divs : list tag) : M dict unit :=
  match my_vote_divs with
  | [] => mret tt
  | div :: rest =>
      has ← call (tag_has_attr div (lit "class"));
      if (has : bool) then
        cl ← call (tag_get_class div);
        let class_str := join (lit " ") cl in
        if contains (lit "myVote") class_str && contains (lit "show_vote_") class_str
        then t ← call (tag_text div); setitem "rating" (strip t)
        else my_vote_loop rest
      else my_vote_loop rest
  end.

(** [s in script.string] and [re.search(r, script.string)] on a value
    that may be [None] *)
Definition not_none (o : option pystr) : py pystr := of_option TypeError o.

(* for script in script_tags: ... break *)
Fixpoint script_loop (script_tags : list tag) : M dict unit :=
  match script_tags with
  | [] => mret tt
  | script :: rest =>
      s1 ← call (tag_string script);
      if match s1 with Some s => truthy s | None => false end then
        s2 ← call (tag_string script);
        s2' ← call (not_none s2);
        if contains (lit "rating:") s2' then
          s3 ← call (tag_string script);
          s3' ← call (not_none s3);
          match re_search re_rating s3' with
          | Some rating_match => setitem "rating" (group1 rating_match)
          | None => script_loop rest
          end
        else script_loop rest
      else script_loop rest
  end.

(* Rating extraction - multiple approaches *)
Definition extract_rating (item : tag) : M dict unit :=
  vote_widget ← call (tag_find item (lit "div") (Some (lit "vote_widget")) None);
  match vote_widget with
  | Some w =>
      my_vote_divs ← call (tag_find_all w (lit "div") None);
      my_vote_loop my_vote_divs;;
      r ← getitem "rating";
      if negb (truthy r) then
        script_tags ← call (tag_find_all item (lit "script") None);
        script_loop script_tags
      else mret tt
  | None => mret tt
  end;;
  r ← getitem "rating";
  if negb (truthy r) then
    rate_now_div ← call (tag_select_one item css_rate_now);
    match rate_now_div with
    | Some d =>
        has ← call (tag_has_attr d (lit "vote"));
        if (has : bool) then v ← call (tag_get_attr d (lit "vote")); setitem "rating" v
        else mret tt
    | None => mret tt
    end
  else mret tt.

(* Extract duration *)
Definition extract_duration (item : tag) : M dict unit :=
  rating_div ← call (tag_find item (lit "div") (Some (lit "rating")) None);
  match rating_div with
  | Some rd =>
      duration_span ← call (tag_find rd (lit "span") (Some (lit "text-grey")) (Some re_duration));
      match duration_span with
      | Some sp =>
          t ← call (tag_text sp);
          match re_search re_number t with
          | Some m => setitem "duration" (group1 m)
          | None => mret tt
          end
      | None => mret tt
      end
  | None => mret tt
  end.

(* Extract content type (film/series) *)
Definition extract_type (item : tag) : M dict unit :=
  type_div ← call (tag_select_one item css_type);
  match type_div with
  | Some d =>
      has ← call (tag_has_attr d (lit "type"));
      if (has : bool) then v ← call (tag_get_attr d (lit "type")); setitem "type" v
      else setitem "type" (lit "film")
  | None => setitem "type" (lit "film")
  end.

(* Extract date rated *)
Definition extract_date (item : tag) : M dict unit :=
  date_div ← call (tag_find item (lit "div") (Some (lit "date")) None);
  match date_div with
  | Some d =>
      t ← call (tag_text d);
      let date_str := strip t in
      try_except
        (date_obj ← call (strptime date_str);
         setitem "date_rated" (strftime_ymd date_obj))
        (fun e => match e with
                  | ValueError => setitem "date_rated" date_str
                  | _ => raise e
                  end)
  | None => mret tt
  end.

(** The body of the [try]. *)
Definition extract_fields (item : tag) : M dict dict :=
  extract_num item;;
  extract_name_rus item;;
  extract_name_eng item;;
  extract_rating item;;
  extract_duration item;;
  extract_type item;;
  extract_date item;;
  get.

(** The handler prints [result['num']] and returns [result]. *)
Definition parse_rating_item (item : tag) : py dict :=
  snd (try_except (extract_fields item) (fun e => getitem "num";; get) empty_result).

(** *** [extract_from_html] and [export_to_csv] *)

(** [if rating_data["nameRus"] or rating_data["nameEng"]] *)
Definition has_name (rating_data : dict) : py bool :=
  match dict_get rating_data "nameRus" with
  | inl e => inl e
  | inr n => if truthy n then inr true
             else match dict_get rating_data "nameEng" with
                  | inl e => inl e
                  | inr n' => inr (truthy n')
                  end
  end.

(** [l.append(x)] on the list the loop fills *)
Definition append (x : dict) : M (list dict) unit := fun l => (l ++ [x], inr tt).

(** The loop of [extract_from_html] over the items; the state is the
    list [results]. *)
Fixpoint extract_loop (items : list tag) : M (list dict) unit :=
  match items with
  | [] => mret tt
  | item :: rest =>
      rating_data ← call (parse_rating_item item);
      keep ← call (has_name rating_data);
      (if (keep : bool) then append rating_data else mret tt);;
      extract_loop rest
  end.

(** [extract_from_html], from the soup of [html_content] on. *)
Definition extract_from_html (soup : tag) : py (list dict) :=
  match tag_find_all soup (lit "div") (Some (lit "item")) with
  | inl e => inl e
  | inr items =>
      match extract_loop items [] with
      | (results, inr _) => inr results
      | (_, inl e) => inl e
      end
  end.

(** The inner loop of [export_to_csv]; the state is [all_ratings].  The
    debug line reads three more keys of the record. *)
Fixpoint item_loop (items : list tag) : M (list dict) unit :=
  match items with
  | [] => mret tt
  | item :: rest =>
      rating_data ← call (parse_rating_item item);
      keep ← call (has_name rating_data);
      (if (keep : bool) then
         append rating_data;;
         call (dict_get rating_data "num");;
         call (dict_get rating_data "nameRus");;
         call (dict_get rating_data "rating");;
         mret tt
       else mret tt);;
      item_loop rest
  end.

(** The state of [export_to_csv]: the outside and the list [all_ratings]. *)
Record run : Type := mk_run { out : io; all_ratings : list dict }.

(** A method on the outside, inside the run. *)
Definition on_io {A} (m : M io A) : M run A :=
  fun r => let '(o, a) := m (out r) in (mk_run o (all_ratings r), a).

Definition on_ratings {A} (m : M (list dict) A) : M run A :=
  fun r => let '(l, a) := m (all_ratings r) in (mk_run (out r) l, a).

(* for page in range(1, total_pages + 1) *)
Fixpoint page_loop (self : KinopoiskScraper) (total_pages : Z) (pages : list Z)
    : M run unit :=
  match pages with
  | [] => mret tt
  | page :: rest =>
      items ← on_io (fetch_ratings_page self page);
      match items with
      | [] => page_loop self total_pages rest               (* continue *)
      | _ :: _ =>
          on_ratings (item_loop items);;
          (if page <? total_pages then on_io sleep else mret tt);;
          page_loop self total_pages rest
      end
  end.

(** A row of the file: the values of the columns; [DictWriter] refuses
    a record with a key that is no column. *)
Definition csv_row (rating : dict) : py (list pystr) :=
  if bool_decide (dom rating ⊆ list_to_set fieldnames)
  then inr (List.map (fun k => default [] (rating !! k)) fieldnames)
  else inl ValueError.

Fixpoint csv_rows (ratings : list dict) : py (list (list pystr)) :=
  match ratings with
  | [] => inr []
  | r :: rest =>
      match csv_row r, csv_rows rest with
      | inr row, inr rows => inr (row :: rows)
      | inl e, _ => inl e
      | _, inl e => inl e
      end
  end.

(** [open], the header, the rows.  A record [DictWriter] refuses is met
    after the file was opened and the rows before it written. *)
Definition write_csv (filename : pystr) (ratings : list dict) : M io unit :=
  if disk_ok filename then
    match csv_rows ratings with
    | inr rows => emit (Written filename (List.map lit fieldnames :: rows))
    | inl e => emit (Interrupted filename);; raise e
    end
  else emit (Interrupted filename);; raise OSError.

Definition export_to_csv (self : KinopoiskScraper) (filename : pystr) : M run bool :=
  total_pages ← on_io (get_total_pages self);
  if total_pages =? 0 then mret false
  else
    on_ratings (put []);;
    page_loop self total_pages (py_range 1 (total_pages + 1));;
    all ← on_ratings get;
    on_io (try_except (write_csv filename all;; mret true) (fun e => mret false)).

(** A run of [export_to_csv] from the start of the program. *)
Definition run_export (self : KinopoiskScraper) (filename : pystr) : run * py bool :=
  export_to_csv self filename (mk_run [] []).

End Scraper.

(** * Definitions for the statements *)

Section Records.
Context {tag : Type} `{!Soup tag}.

(** The dict [parse_rating_item] leaves behind: [result] when the [try]
    block and its handler are done. *)
Definition record_of (item : tag) : dict :=
  (try_except (extract_fields item) (fun e => getitem "num";; get) empty_result).1.

(** The blocks of the [try], in order, each with the keys it assigns. *)
Definition steps (item : tag) : list (list string * M dict unit) :=
  [ (["num"], extract_num item);
    (["nameRus"; "year"], extract_name_rus item);
    (["nameEng"], extract_name_eng item);
    (["rating"], extract_rating item);
    (["duration"], extract_duration item);
    (["type"], extract_type item);
    (["date_rated"], extract_date item) ]%string.

Fixpoint run_steps (ps : list (M dict unit)) : M dict unit :=
  match ps with
  | [] => mret tt
  | p :: ps' => p;; run_steps ps'
  end.

(** At least one of the two name fields is a non-empty string. *)
Definition named (d : dict) : bool :=
  truthy (default [] (d !! "nameRus")) || truthy (default [] (d !! "nameEng")).
End Records.

(** ** The fields, read off the parsed tree *)

(** [t.find(name, class_=c)] and [t.select_one(css)] on the tree *)
Definition find_in (t : located) (nm : pystr) (c : option pystr) : option located :=
  List.find (find_filter nm c None) (below t).

Definition find_all_in (t : located) (nm : pystr) : list located :=
  List.filter (find_filter nm None None) (below t).

Definition select_in (t : located) (sel : selector) : option located :=
  List.find (select_filter sel) (below t).

Definition text_of (t : located) : pystr := node_text t.

(** The first element of a list on which [f] gives something. *)
Fixpoint first_some {A B} (f : A -> option B) (l : list A) : option B :=
  match l with
  | [] => None
  | x :: l' => match f x with Some y => Some y | None => first_some f l' end
  end.

(** The vote-widget container of a fragment. *)
Definition vote_widget_of (item : located) : option located :=
  find_in item (lit "div") (Some (lit "vote_widget")).

(** Strategy 1: the text of the first [div] in the vote widget whose class
    names hold both "myVote" and "show_vote_". *)
Definition my_vote_text (d : located) : option pystr :=
  match node_class (l_node d) with
  | Some cl =>
      let class_str := join (lit " ") cl in
      if contains (lit "myVote") class_str && contains (lit "show_vote_") class_str
      then Some (strip (text_of d)) else None
  | None => None
  end.

Definition vote_display (item : located) : option pystr :=
  match vote_widget_of item with
  | Some w => first_some my_vote_text (find_all_in w (lit "div"))
  | None => None
  end.

(** Strategy 2: the digits of the first script payload of the fragment
    that holds "rating:" and matches [rating: '<digits>']. *)
Definition payload_rating (script : located) : option pystr :=
  match node_string (l_node script) with
  | Some s =>
      if truthy s && contains (lit "rating:") s
      then group1 <$> re_search re_rating s
      else None
  | None => None
  end.

Definition script_payload (item : located) : option pystr :=
  first_some payload_rating (find_all_in item (lit "script")).

(** Strategy 3: the [vote] attribute of the first [div.rateNow[vote]]. *)
Definition vote_attribute (item : located) : option pystr :=
  match select_in item css_rate_now with
  | Some d => node_attr (l_node d) (lit "vote")
  | None => None
  end.

(** The first strategy that gives a non-empty string; the empty string
    when none does. *)
Fixpoint first_success (l : list (option pystr)) : pystr :=
  match l with
  | [] => []
  | Some (c :: s) :: _ => c :: s
  | _ :: l' => first_success l'
  end.

(** The rating as the specification words it: the three strategies in
    order. *)
Definition rating_as_specified (item : located) : pystr :=
  first_success [vote_display item; script_payload item; vote_attribute item].

(** The rating as the code computes it: the script payload is looked at
    only inside the branch of the vote widget. *)
Definition rating_by_strategies (item : located) : pystr :=
  first_success
    [vote_display item;
     match vote_widget_of item with Some _ => script_payload item | None => None end;
     vote_attribute item].

(** The digits a count indicator shows: the group of its pattern in its
    text. *)
Definition indicator_digits (found : option located) (pattern : regex) : option pystr :=
  match found with
  | Some el => group1 <$> re_search pattern (text_of el)
  | None => None
  end.

(** The digits of the first count indicator of the first listing page
    whose pattern matches. *)
Definition count_digits (soup : located) : option pystr :=
  match indicator_digits (find_in soup (lit "div") (Some (lit "pagesFromTo")))
          re_pages_from_to with
  | Some g => Some g
  | None =>
      indicator_digits (find_in soup (lit "span") (Some (lit "profile_V2_votes_total")))
        re_number
  end.

(** The total that indicator shows, when [int] reads it: its digits are no
    more than [int] accepts. *)
Definition count_indicator (soup : located) : option Z :=
  match count_digits soup with
  | Some g =>
      if Z.of_nat (length g) <=? int_max_str_digits then Some (int_digits g) else None
  | None => None
  end.

(** ** Sample pages and fragments *)

Definition tag_ (name : string) (classes : list string) (attrs : list (string * string))
    (kids : list node) : node :=
  Elem (lit name)
       (match classes with [] => None | _ => Some (List.map lit classes) end)
       (List.map (fun kv => (lit kv.1, lit kv.2)) attrs) kids.

Definition fragment (kids : list node) : located :=
  mk_located [] (tag_ "div" ["item"] [] kids).

(** A fragment with every field and the three rating signals. *)
Definition fragment_full : located :=
  fragment
    [ tag_ "div" ["num"] [] [Text (lit " 1 ")];
      tag_ "div" ["nameRus"] [] [tag_ "a" [] [] [Text (lit "Movie Name (2021)")]];
      tag_ "div" ["nameEng"] [] [Text (lit "Movie Name")];
      tag_ "div" ["vote_widget"] []
        [tag_ "div" ["myVote"; "show_vote_935940"] [] [Text (lit "8")]];
      tag_ "script" [] [] [Text (lit "ur_data.push({film: 935940, rating: '7', obj: 1});")];
      tag_ "div" ["rateNow"] [("vote", "3")] [];
      tag_ "div" ["rating"] []
        [tag_ "span" ["text-grey"] [] [Text (lit "120 " ++ cyr_min ++ lit ".")]];
      tag_ "div" ["MyKP_Folder_Select_5"] [("type", "series")] [];
      tag_ "div" ["date"] [] [Text (lit "15.03.2021, 14:30")] ].

(** No vote widget; a script payload with rating '7' and a [vote]
    attribute 3. *)
Definition fragment_script_and_vote : located :=
  fragment
    [ tag_ "div" ["nameRus"] [] [tag_ "a" [] [] [Text (lit "Movie Name (2021)")]];
      tag_ "script" [] [] [Text (lit "ur_data.push({film: 935940, rating: '7', obj: 1});")];
      tag_ "div" ["rateNow"] [("vote", "3")] [] ].

(** A fragment with nothing in it. *)
Definition fragment_empty : located := fragment [].

(** A date element whose text is no date and has blanks around it. *)
Definition fragment_padded_date : located :=
  fragment
    [ tag_ "div" ["nameRus"] [] [tag_ "a" [] [] [Text (lit "Movie Name (2021)")]];
      tag_ "div" ["date"] [] [Text (lit " n/a ")] ].

(** A title broken over two lines: "Movie<LF>Name (1999)". *)
Definition two_line_title : pystr := lit "Movie" ++ [10%N] ++ lit "Name (1999)".

Definition fragment_two_line_title : located :=
  fragment [ tag_ "div" ["nameRus"] [] [tag_ "a" [] [] [Text two_line_title]] ].

(** First listing pages: "1-50 из 458", "1-50 из 450", "0-0 из 0", and a
    page with no count indicator. *)
Definition page_with_total (total : string) : located :=
  soup_of [tag_ "div" ["pagesFromTo"] [] [Text (lit "1-50 " ++ cyr_iz ++ lit " " ++ lit total)]].

Definition page_without_indicator : located := soup_of [l_node fragment_full].

(** A first listing page whose total has 4301 digits. *)
Definition page_with_long_total : located :=
  soup_of [tag_ "div" ["pagesFromTo"] []
             [Text (lit "1-50 " ++ cyr_iz ++ lit " " ++ repeat 57%N 4301)]].

(** A fragment with scripts and a comment nested in the elements the
    fields are read from. *)
Definition fragment_nested_scripts : located :=
  fragment
    [ tag_ "div" ["nameRus"] []
        [tag_ "a" [] [] [Text (lit "Movie "); tag_ "script" [] [] [Text (lit "(1999)")]]];
      tag_ "div" ["nameEng"] [] [Text (lit "Name"); tag_ "script" [] [] [Text (lit "x")]];
      tag_ "div" ["vote_widget"] []
        [tag_ "div" ["myVote"; "show_vote_1"] [] [tag_ "script" [] [] [Text (lit "x")]]];
      tag_ "div" ["rateNow"] [("vote", "3")] [];
      tag_ "div" ["rating"] []
        [tag_ "span" ["text-grey"] [] [tag_ "script" [] [] [Text (lit "5 " ++ cyr_min)]]];
      tag_ "div" ["date"] []
        [Text (lit "15.03.2021, 14:30"); tag_ "script" [] [] [Text (lit "var x = 1;")];
         Comment (lit " rated ")] ].

Definition scraper_42 : KinopoiskScraper := mk_scraper (lit "42") (lit "sid=1").

(** A site on which every request fails. *)
Definition net_down (n : nat) (url : pystr) : py located := inl RequestException.

(** A site that answers one page with [soup]. *)
Definition net_of (soup : located) (n : nat) (url : pystr) : py located := inr soup.

(** A soup on which looking for the vote widget raises. *)
Definition broken_soup : Soup located :=
  {| tag_find t nm c r :=
       if pystr_eqb (default [] c) (lit "vote_widget") then inl RuntimeError
       else tag_find (Soup := tree_soup) t nm c r;
     tag_find_all := tag_find_all (Soup := tree_soup);
     tag_select_one := tag_select_one (Soup := tree_soup);
     tag_has_attr := tag_has_attr (Soup := tree_soup);
     tag_get_class := tag_get_class (Soup := tree_soup);
     tag_get_attr := tag_get_attr (Soup := tree_soup);
     tag_text := tag_text (Soup := tree_soup);
     tag_string := tag_string (Soup := tree_soup) |}.

(** A site whose answer to the second request of the run (the first page
    request) fails; every other request is answered with one page holding
    [fragment_full]. *)
Definition net_first_page_fails (n : nat) (url : pystr) : py located :=
  match n with
  | 1%nat => inl RequestException
  | _ => inr (soup_of [l_node fragment_full])
  end.

(** The same title on one line. *)
Definition fragment_one_line_title : located :=
  fragment [ tag_ "div" ["nameRus"] [] [tag_ "a" [] [] [Text (lit "Movie Name (1999)")]] ].

(** ** Predicates of the proofs *)

(** [sets F d d']: [d'] is [d] after assignments to keys of [F]. *)
Inductive sets (F : list string) : dict -> dict -> Prop :=
| sets_refl d : sets F d d
| sets_step d d' k v : k ∈ F -> sets F d d' -> sets F d (<[k := v]> d').

(** A computation that assigns to keys of [F] only. *)
Definition only_sets {A} (F : list string) (m : M dict A) : Prop :=
  forall d, sets F d (m d).1.

(** The keys of a record. *)
Definition keys : gset string := list_to_set fieldnames.

(** The value of a method that ends in [return result] is its state. *)
Definition returns_state (m : M dict dict) : Prop :=
  forall d d' a, m d = (d', inr a) -> a = d'.

(** A block of the [try] that ends normally from every record. *)
Definition step_ok (s : list string * M dict unit) : Prop :=
  forall d, dom d = keys -> exists d', s.2 d = (d', inr tt).

(** A non-empty run of decimal digits. *)
Definition digits (g : pystr) : Prop := g <> [] /\ forallb is_decimal g = true.

(** Two ranges of code points with no code point in common. *)
Definition apart (r1 r2 : N * N) : bool :=
  (snd r1 <? fst r2)%N || (snd r2 <? fst r1)%N.

(** The record of [fragment_full] when the rating block is entered. *)
Definition record_before_rating : dict :=
  <["nameEng" := lit "Movie Name"]> (<["year" := lit "2021"]>
  (<["nameRus" := lit "Movie Name"]> (<["num" := lit "1"]>
  empty_result))).

(** ** The title pattern, in parts *)

(** The part of the title pattern after the name: [\s*\((\d{4})\)$]. *)
Definition re_year_tail : regex :=
  cats [Star true is_space; Lit 40;
        Grp (cats [Cls is_decimal; Cls is_decimal; Cls is_decimal; Cls is_decimal]);
        Lit 41; Eol].

(** White space and a year in parentheses. *)
Definition year_suffix (ws year : pystr) : pystr := ws ++ [40%N] ++ year ++ [41%N].

Definition four_digits (y : pystr) : Prop :=
  length y = 4%nat /\ forallb is_decimal y = true.

(** ** The run, page by page *)

Section RunSpec.
Context {tag : Type} `{!Soup tag}.
Variable net : nat -> pystr -> py tag.

(** The fragments the [n]-th request of the run yields when it asks for
    [page]: none when the request fails or the search in the soup raises. *)
Definition page_items (self : KinopoiskScraper) (n : nat) (page : Z) : list tag :=
  match net n (page_url self page) with
  | inr soup =>
      match tag_find_all soup (lit "div") (Some (lit "item")) with
      | inr items => items
      | inl _ => []
      end
  | inl _ => []
  end.

(** The records a page adds to [all_ratings]. *)
Definition page_records (self : KinopoiskScraper) (n : nat) (page : Z) : list dict :=
  List.filter named (List.map record_of (page_items self n page)).

(** The pause after a page: when it has fragments and is not the last. *)
Definition pause_after (self : KinopoiskScraper) (total : Z) (n : nat) (page : Z) : bool :=
  match page_items self n page with
  | [] => false
  | _ :: _ => page <? total
  end.

(** What the loop over the pages does outside, the first page being the
    [n]-th request of the run. *)
Fixpoint pages_events (self : KinopoiskScraper) (total : Z) (n : nat) (pages : list Z)
    : list event :=
  match pages with
  | [] => []
  | page :: rest =>
      Get (page_url self page)
      :: (if pause_after self total n page then [Sleep] else [])
      ++ pages_events self total (S n) rest
  end.

(** What it adds to [all_ratings]. *)
Fixpoint pages_records (self : KinopoiskScraper) (n : nat) (pages : list Z) : list dict :=
  match pages with
  | [] => []
  | page :: rest => page_records self n page ++ pages_records self (S n) rest
  end.
End RunSpec.

(** The row of a record in the file. *)
Definition row_of (d : dict) : list pystr :=
  List.map (fun k => default [] (d !! k)) fieldnames.

Definition is_sleep (e : event) : bool :=
  match e with Sleep => true | _ => false end.

(** The page numbers 1, ..., n. *)
Definition pages_upto (n : Z) : list Z := List.map Z.of_nat (seq 1 (Z.to_nat n)).

(** A string with no white space at either end. *)
Definition trimmed (s : pystr) : Prop :=
  (forall c, hd_error s = Some c -> is_space c = false)
  /\ (forall c, last s = Some c -> is_space c = false).

(** ** Definitions for the fields of a fragment *)

(** The longest run of characters of a class at the start of a string. *)
Fixpoint run_of (p : N -> bool) (s : pystr) : pystr :=
  match s with
  | c :: s' => if p c then c :: run_of p s' else []
  | [] => []
  end.

(** The first run of decimal digits of a string, when it has a digit. *)
Fixpoint first_digits (s : pystr) : option pystr :=
  match s with
  | [] => None
  | c :: s' => if is_decimal c then Some (run_of is_decimal s) else first_digits s'
  end.

(** The duration element: the first [span.text-grey] of the rating section
    whose string matches the pattern of a duration. *)
Definition duration_span (item : located) : option located :=
  match find_in item (lit "div") (Some (lit "rating")) with
  | Some rd =>
      List.find (find_filter (lit "span") (Some (lit "text-grey")) (Some re_duration))
        (below rd)
  | None => None
  end.

(** The value of a string of ASCII digits. *)
Definition value_of (s : pystr) : N :=
  fold_left (fun acc c => (10 * acc + (c - 48))%N) s 0%N.

(** A fragment whose English name is the placeholder, a no-break space. *)
Definition fragment_placeholder_name : located :=
  fragment
    [ tag_ "div" ["nameRus"] [] [tag_ "a" [] [] [Text (lit "Movie Name (2021)")]];
      tag_ "div" ["nameEng"] [] [Text [160%N]] ].

(** A vote widget that shows no vote but holds a [vote] attribute 3, and a
    script payload with rating '7'. *)
Definition fragment_widget_and_script : located :=
  fragment
    [ tag_ "div" ["vote_widget"] [] [tag_ "div" ["rateNow"] [("vote", "3")] []];
      tag_ "script" [] [] [Text (lit "ur_data.push({film: 935940, rating: '7', obj: 1});")] ].

(** What the run does to the file, the page count being [n]: nothing
    when it is 0; the whole file, or an interrupted write. *)
Definition file_events (disk_ok : pystr -> bool) (filename : pystr) (n : Z)
    (records : list dict) : list event :=
  if n =? 0 then []
  else if disk_ok filename
       then [Written filename (List.map lit fieldnames :: List.map row_of records)]
       else [Interrupted filename].

(** The events that create or change the file. *)
Definition is_disk (e : event) : bool :=
  match e with Written _ _ | Interrupted _ => true | _ => false end.

(** * Properties *)

(** ** The monad *)

Lemma bind_run {S A B} (m : M S A) (f : A -> M S B) (s : S) :
  (m ≫= f) s = match m s with
               | (s', inr a) => f a s'
               | (s', inl e) => (s', inl e)
               end.
Proof. reflexivity. Qed.

Lemma bind_ok {S A B} (m : M S A) (f : A -> M S B) (s s' : S) (a : A) :
  m s = (s', inr a) -> (m ≫= f) s = f a s'.
Proof. intros H. rewrite bind_run, H. reflexivity. Qed.

Lemma bind_raise {S A B} (m : M S A) (f : A -> M S B) (s s' : S) (e : exn) :
  m s = (s', inl e) -> (m ≫= f) s = (s', inl e).
Proof. intros H. rewrite bind_run, H. reflexivity. Qed.

Lemma call_run {S A} (x : py A) (s : S) : call x s = (s, x).
Proof. reflexivity. Qed.

Lemma ret_run {S A} (a : A) (s : S) : (mret a : M S A) s = (s, inr a).
Proof. reflexivity. Qed.

Lemma bind_assoc {S A B C} (m : M S A) (f : A -> M S B) (g : B -> M S C) (s : S) :
  ((m ≫= f) ≫= g) s = (m ≫= (fun a => f a ≫= g)) s.
Proof.
  rewrite !bind_run. destruct (m s) as [s' [e | a]]; [reflexivity |].
  rewrite bind_run. reflexivity.
Qed.

(** ** Which keys a computation writes *)

Lemma sets_trans F d1 d2 d3 : sets F d1 d2 -> sets F d2 d3 -> sets F d1 d3.
Proof.
  intros H12 H23. induction H23 as [| d2 d3 k v Hk _ IH]; [assumption |].
  apply sets_step; [assumption | apply IH; assumption].
Qed.

Lemma sets_mono F G d d' : F ⊆ G -> sets F d d' -> sets G d d'.
Proof.
  intros Hsub H. induction H as [| d d' k v Hk _ IH]; [apply sets_refl |].
  apply sets_step; [apply Hsub; assumption | assumption].
Qed.

(** A key outside [F] keeps its value. *)
Lemma sets_frame F d d' k : sets F d d' -> k ∉ F -> d' !! k = d !! k.
Proof.
  intros H Hk. induction H as [| d d' k' v Hk' _ IH]; [reflexivity |].
  rewrite lookup_insert_ne; [assumption |]. intros ->. contradiction.
Qed.

(** Assignments to keys the dict has do not change its set of keys. *)
Lemma sets_dom F d d' :
  sets F d d' -> (forall k, k ∈ F -> k ∈ dom d) -> dom d' = dom d.
Proof.
  intros H HF. induction H as [| d d' k v Hk _ IH]; [reflexivity |].
  rewrite dom_insert_L, IH by assumption.
  apply subseteq_union_1_L, singleton_subseteq_l, HF, Hk.
Qed.

Lemma only_sets_ret {A} F (a : A) : only_sets F (mret a).
Proof. intros d. apply sets_refl. Qed.

Lemma only_sets_call {A} F (x : py A) : only_sets F (call x).
Proof. intros d. apply sets_refl. Qed.

Lemma only_sets_raise {A} F (e : exn) : only_sets F (@raise dict A e).
Proof. intros d. apply sets_refl. Qed.

Lemma only_sets_get F : only_sets F (@get dict).
Proof. intros d. apply sets_refl. Qed.

Lemma only_sets_getitem F k : only_sets F (getitem k).
Proof. intros d. apply sets_refl. Qed.

Lemma only_sets_setitem F k v : k ∈ F -> only_sets F (setitem k v).
Proof. intros Hk d. simpl. apply sets_step; [assumption | apply sets_refl]. Qed.

Lemma only_sets_bind {A B} F (m : M dict A) (f : A -> M dict B) :
  only_sets F m -> (forall a, only_sets F (f a)) -> only_sets F (m ≫= f).
Proof.
  intros Hm Hf d. rewrite bind_run. specialize (Hm d).
  destruct (m d) as [d' [e | a]]; simpl in *; [assumption |].
  eapply sets_trans; [eassumption | apply Hf].
Qed.

Lemma only_sets_try {A} F (m : M dict A) (h : exn -> M dict A) :
  only_sets F m -> (forall e, only_sets F (h e)) -> only_sets F (try_except m h).
Proof.
  intros Hm Hh d. unfold try_except. specialize (Hm d).
  destruct (m d) as [d' [e | a]]; simpl in *; [| assumption].
  eapply sets_trans; [eassumption | apply Hh].
Qed.

Lemma only_sets_mono {A} F G (m : M dict A) :
  F ⊆ G -> only_sets F m -> only_sets G m.
Proof. intros Hsub Hm d. eapply sets_mono; [exact Hsub | apply Hm]. Qed.

(** One step of a proof that a method writes only the keys of [F]. *)
Ltac sets_step :=
  first
    [ apply only_sets_ret | apply only_sets_call | apply only_sets_raise
    | apply only_sets_get | apply only_sets_getitem
    | apply only_sets_setitem; solve [repeat constructor]
    | apply only_sets_bind; [| intros ?]
    | apply only_sets_try; [| intros ?]
    | assumption
    | match goal with
      | |- only_sets _ (match ?x with _ => _ end) => destruct x
      end ].

Ltac sets_auto := repeat sets_step.

Section Frames.
Context {tag : Type} `{!Soup tag}.

Lemma dom_empty_result : dom empty_result = keys.
Proof. unfold empty_result, keys, fieldnames. rewrite !dom_insert_L. set_solver. Qed.

Lemma extract_num_sets item : only_sets ["num"]%string (extract_num item).
Proof. unfold extract_num. sets_auto. Qed.

Lemma extract_name_rus_sets item :
  only_sets ["nameRus"; "year"]%string (extract_name_rus item).
Proof. unfold extract_name_rus. sets_auto. Qed.

Lemma extract_name_eng_sets item :
  only_sets ["nameEng"]%string (extract_name_eng item).
Proof. unfold extract_name_eng. sets_auto. Qed.

Lemma my_vote_loop_sets divs : only_sets ["rating"]%string (my_vote_loop divs).
Proof. induction divs as [| div rest IH]; simpl; sets_auto. Qed.

Lemma script_loop_sets scripts : only_sets ["rating"]%string (script_loop scripts).
Proof. induction scripts as [| script rest IH]; simpl; sets_auto. Qed.

Lemma extract_rating_sets item : only_sets ["rating"]%string (extract_rating item).
Proof.
  unfold extract_rating.
  pose proof my_vote_loop_sets. pose proof script_loop_sets.
  sets_auto; auto.
Qed.

Lemma extract_duration_sets item :
  only_sets ["duration"]%string (extract_duration item).
Proof. unfold extract_duration. sets_auto. Qed.

Lemma extract_type_sets item : only_sets ["type"]%string (extract_type item).
Proof. unfold extract_type. sets_auto. Qed.

Lemma extract_date_sets item : only_sets ["date_rated"]%string (extract_date item).
Proof. unfold extract_date. sets_auto. Qed.
End Frames.

(** ** [parse_rating_item] on any soup *)

Section Parse.
Context {tag : Type} `{!Soup tag}.

Lemma returns_state_get : returns_state get.
Proof. intros d d' a H. inversion H. reflexivity. Qed.

Lemma returns_state_bind {A} (m : M dict A) (f : A -> M dict dict) :
  (forall a, returns_state (f a)) -> returns_state (m ≫= f).
Proof.
  intros Hf d d' a. rewrite bind_run.
  destruct (m d) as [d1 [e | x]]; [discriminate | apply Hf].
Qed.

Lemma extract_fields_returns_state item : returns_state (extract_fields item).
Proof.
  unfold extract_fields.
  repeat (apply returns_state_bind; intros ?). apply returns_state_get.
Qed.

Lemma steps_sets item :
  Forall (fun s => only_sets s.1 s.2) (steps item).
Proof.
  unfold steps. repeat constructor; simpl.
  - apply extract_num_sets.
  - apply extract_name_rus_sets.
  - apply extract_name_eng_sets.
  - apply extract_rating_sets.
  - apply extract_duration_sets.
  - apply extract_type_sets.
  - apply extract_date_sets.
Qed.

Lemma run_steps_sets (ss : list (list string * M dict unit)) :
  Forall (fun s => only_sets s.1 s.2) ss ->
  only_sets (concat (List.map fst ss)) (run_steps (List.map snd ss)).
Proof.
  induction 1 as [| [fs p] ss Hp _ IH]; simpl.
  - apply only_sets_ret.
  - apply only_sets_bind.
    + eapply only_sets_mono; [| exact Hp]. simpl. set_solver.
    + intros _. eapply only_sets_mono; [| exact IH]. set_solver.
Qed.

Lemma run_steps_app (ps qs : list (M dict unit)) d :
  run_steps (ps ++ qs) d = (run_steps ps;; run_steps qs) d.
Proof.
  revert d. induction ps as [| p ps IH]; intros d; simpl.
  - reflexivity.
  - rewrite bind_assoc, !bind_run.
    destruct (p d) as [d' [e | []]]; [reflexivity |]. apply IH.
Qed.

(** The [try] block is its blocks in order, then [return result]. *)
Lemma extract_fields_steps item d :
  extract_fields item d = (run_steps (List.map snd (steps item));; get) d.
Proof.
  unfold extract_fields, steps. simpl.
  repeat (rewrite bind_assoc;
          rewrite (bind_run (_ item)); symmetry; rewrite (bind_run (_ item)); symmetry;
          match goal with
          | |- context [match ?p item ?x with _ => _ end] =>
              destruct (p item x) as [? [? | []]]; [reflexivity |]
          end).
  reflexivity.
Qed.

Lemma all_fields item : concat (List.map fst (steps item)) ≡ₚ fieldnames.
Proof.
  unfold steps, fieldnames. simpl.
  apply NoDup_Permutation.
  - repeat (constructor; [set_solver |]). constructor.
  - repeat (constructor; [set_solver |]). constructor.
  - intros k. set_solver.
Qed.

Lemma empty_result_lookup k : k ∈ fieldnames -> empty_result !! k = Some [].
Proof.
  unfold fieldnames. intros Hk.
  repeat (apply elem_of_cons in Hk; destruct Hk as [-> | Hk]; [reflexivity |]).
  inversion Hk.
Qed.

Lemma extract_fields_sets item : only_sets fieldnames (extract_fields item).
Proof.
  intros d. rewrite extract_fields_steps.
  apply only_sets_bind; [| intros; apply only_sets_get].
  eapply only_sets_mono; [| apply run_steps_sets, steps_sets].
  intros k Hk. rewrite <- (all_fields item). exact Hk.
Qed.

Lemma fieldnames_keys k : k ∈ fieldnames <-> k ∈ keys.
Proof. unfold keys. rewrite elem_of_list_to_set. reflexivity. Qed.

(** The dict left behind has the eight keys. *)
Lemma record_of_dom item : dom (record_of item) = keys.
Proof.
  unfold record_of.
  assert (Hs : only_sets fieldnames
                 (try_except (extract_fields item) (fun e => getitem "num";; get))).
  { apply only_sets_try; [apply extract_fields_sets |].
    intros e. apply only_sets_bind; [apply only_sets_getitem |].
    intros _. apply only_sets_get. }
  rewrite (sets_dom _ _ _ (Hs empty_result)); [apply dom_empty_result |].
  intros k Hk. rewrite dom_empty_result. apply fieldnames_keys, Hk.
Qed.

(** [parse_rating_item] returns, and what it returns is that dict. *)
Lemma parse_rating_item_returns item :
  parse_rating_item item = inr (record_of item).
Proof.
  pose proof (record_of_dom item) as Hdom.
  unfold parse_rating_item, record_of in *. unfold try_except in *.
  pose proof (extract_fields_returns_state item empty_result) as Hret.
  destruct (extract_fields item empty_result) as [d [e | a]]; simpl in *.
  - rewrite bind_run. unfold getitem, dict_get.
    assert (His : is_Some (d !! "num")).
    { rewrite bind_run in Hdom. unfold getitem, dict_get in Hdom.
      apply elem_of_dom.
      destruct (d !! "num") as [v |] eqn:Hnum; simpl in Hdom;
        rewrite Hdom; apply fieldnames_keys; unfold fieldnames; set_solver. }
    destruct His as [v ->]. reflexivity.
  - rewrite (Hret d a eq_refl). reflexivity.
Qed.
End Parse.

(** ** Which records are kept *)

Section Kept.
Context {tag : Type} `{!Soup tag}.

Lemma record_of_lookup item k : k ∈ fieldnames -> is_Some (record_of item !! k).
Proof.
  intros Hk. apply elem_of_dom. rewrite record_of_dom. apply fieldnames_keys, Hk.
Qed.

Lemma dict_get_record item k :
  k ∈ fieldnames -> dict_get (record_of item) k = inr (default [] (record_of item !! k)).
Proof.
  intros Hk. destruct (record_of_lookup item k Hk) as [v Hv].
  unfold dict_get. rewrite Hv. reflexivity.
Qed.

Lemma has_name_record item : has_name (record_of item) = inr (named (record_of item)).
Proof.
  unfold has_name, named.
  rewrite !dict_get_record by (unfold fieldnames; set_solver).
  destruct (truthy _); reflexivity.
Qed.

Lemma extract_loop_spec (items : list tag) (results : list dict) :
  extract_loop items results
  = (results ++ List.filter named (List.map record_of items), inr tt).
Proof.
  revert results. induction items as [| item rest IH]; intros results; simpl.
  - rewrite app_nil_r. reflexivity.
  - rewrite bind_run. unfold call at 1. rewrite parse_rating_item_returns.
    rewrite bind_run. unfold call at 1. rewrite has_name_record.
    rewrite bind_run. destruct (named (record_of item)); simpl.
    + rewrite IH, <- app_assoc. reflexivity.
    + apply IH.
Qed.

Lemma item_loop_spec (items : list tag) (all : list dict) :
  item_loop items all
  = (all ++ List.filter named (List.map record_of items), inr tt).
Proof.
  revert all. induction items as [| item rest IH]; intros all; simpl.
  - rewrite app_nil_r. reflexivity.
  - rewrite bind_run. unfold call at 1. rewrite parse_rating_item_returns.
    rewrite bind_run. unfold call at 1. rewrite has_name_record.
    destruct (named (record_of item)); simpl.
    + rewrite !bind_run. unfold append, call.
      rewrite !dict_get_record by (unfold fieldnames; set_solver).
      repeat (rewrite bind_run; cbn). rewrite IH, <- app_assoc. reflexivity.
    + rewrite bind_run. cbn. apply IH.
Qed.

Lemma named_iff item :
  named (record_of item) = false
  <-> record_of item !! "nameRus" = Some [] /\ record_of item !! "nameEng" = Some [].
Proof.
  unfold named.
  destruct (record_of_lookup item "nameRus") as [a Ha]; [unfold fieldnames; set_solver |].
  destruct (record_of_lookup item "nameEng") as [b Hb]; [unfold fieldnames; set_solver |].
  rewrite Ha, Hb. simpl. destruct a, b; simpl; split; intros H;
    try reflexivity; try discriminate; try (split; reflexivity);
    destruct H; discriminate.
Qed.

(** C2: on every list of record fragments, the loop of [extract_from_html]
    and the inner loop of [export_to_csv] append to their list exactly the
    parsed records that have a name, in order; [extract_from_html] returns
    that list for the fragments it finds; and a parsed record is left out
    exactly when both [nameRus] and [nameEng] are the empty string, whatever
    its other fields hold. *)
Theorem named_records_are_kept (items : list tag) (acc : list dict) (soup : tag) :
  extract_loop items acc
    = (acc ++ List.filter named (List.map record_of items), inr tt)
  /\ item_loop items acc
    = (acc ++ List.filter named (List.map record_of items), inr tt)
  /\ extract_from_html soup
    = match tag_find_all soup (lit "div") (Some (lit "item")) with
      | inl e => inl e
      | inr found => inr (List.filter named (List.map record_of found))
      end
  /\ Forall (fun item =>
       (In (record_of item) (List.filter named (List.map record_of items))
        <-> ~ (record_of item !! "nameRus" = Some []
               /\ record_of item !! "nameEng" = Some []))) items.
Proof.
  split; [apply extract_loop_spec |].
  split; [apply item_loop_spec |].
  split.
  - unfold extract_from_html.
    destruct (tag_find_all soup _ _) as [e | found]; [reflexivity |].
    rewrite extract_loop_spec. reflexivity.
  - apply List.Forall_forall. intros item Hin.
    rewrite List.filter_In, <- named_iff.
    split.
    + intros [_ Hn]. rewrite Hn. discriminate.
    + intros Hn. split.
      * apply List.in_map, Hin.
      * destruct (named (record_of item)); [reflexivity | contradiction Hn; reflexivity].
Qed.
End Kept.

(** ** The run: page count, page fetches, the loop over the pages *)

Section Run.
Context {tag : Type} `{!Soup tag}.
Variable net : nat -> pystr -> py tag.
Variable disk_ok : pystr -> bool.

Lemma gets_app (a b : io) : gets (a ++ b) = gets a ++ gets b.
Proof. apply List.filter_app. Qed.

Lemma http_get_run url log :
  http_get net url log = (log ++ [Get url], net (length (gets log)) url).
Proof. reflexivity. Qed.

(** Reading an indicator makes no request. *)
Lemma pages_of_indicator_run found pattern (log : io) :
  exists x, pages_of_indicator found pattern log = (log, x).
Proof.
  unfold pages_of_indicator. destruct found as [el |]; [| eexists; reflexivity].
  rewrite bind_run, call_run. destruct (tag_text el) as [e | t]; [eexists; reflexivity |].
  destruct (re_search pattern t) as [m |]; [| eexists; reflexivity].
  rewrite bind_run, call_run. destruct (py_int _); eexists; reflexivity.
Qed.

(** [get_total_pages] makes one request and returns a number. *)
Lemma get_total_pages_total self log :
  exists n, get_total_pages net self log = (log ++ [Get (page_url self 1)], inr n).
Proof.
  unfold get_total_pages, try_except.
  rewrite bind_run, http_get_run.
  destruct (net _ _) as [e | soup]; [eexists; reflexivity |].
  rewrite bind_run, call_run.
  destruct (tag_find soup _ _ _) as [e | found]; [eexists; reflexivity |].
  rewrite bind_run.
  destruct (pages_of_indicator_run found re_pages_from_to (log ++ [Get (page_url self 1)]))
    as [x ->].
  destruct x as [e | [pages |]]; [eexists; reflexivity | eexists; reflexivity |].
  rewrite bind_run, call_run.
  destruct (tag_find soup _ _ _) as [e | found']; [eexists; reflexivity |].
  rewrite bind_run.
  destruct (pages_of_indicator_run found' re_number (log ++ [Get (page_url self 1)]))
    as [x ->].
  destruct x as [e | [pages |]]; eexists; reflexivity.
Qed.

(** A page request that fails gives the empty list of fragments. *)
Lemma fetch_ratings_page_fails self page log e :
  net (length (gets log)) (page_url self page) = inl e ->
  fetch_ratings_page net self page log = (log ++ [Get (page_url self page)], inr []).
Proof.
  intros H. unfold fetch_ratings_page, try_except.
  rewrite bind_run, http_get_run, H. reflexivity.
Qed.

(** [fetch_ratings_page] makes one request and returns a list. *)
Lemma fetch_ratings_page_total self page log :
  exists items,
    fetch_ratings_page net self page log = (log ++ [Get (page_url self page)], inr items).
Proof.
  unfold fetch_ratings_page, try_except.
  rewrite bind_run, http_get_run.
  destruct (net _ _) as [e | soup]; [eexists; reflexivity |].
  rewrite bind_run. unfold call at 1.
  destruct (tag_find_all soup _ _) as [e | items]; eexists; reflexivity.
Qed.

(** The loop over the pages ends normally whatever the requests answer,
    and has made one request for each page, in order. *)
Lemma page_loop_gets self total pages r :
  exists r',
    page_loop net self total pages r = (r', inr tt)
    /\ gets (out r') = gets (out r) ++ List.map (fun p => Get (page_url self p)) pages.
Proof.
  revert r. induction pages as [| page rest IH]; intros r; simpl.
  - exists r. rewrite app_nil_r. split; reflexivity.
  - destruct (fetch_ratings_page_total self page (out r)) as [items Hf].
    rewrite bind_run. unfold on_io at 1. rewrite Hf.
    set (r1 := mk_run (out r ++ [Get (page_url self page)]) (all_ratings r)).
    assert (Hg : gets (out r1) ++ List.map (fun p => Get (page_url self p)) rest
                 = gets (out r) ++ Get (page_url self page)
                     :: List.map (fun p => Get (page_url self p)) rest).
    { unfold r1. simpl. rewrite gets_app, <- app_assoc. reflexivity. }
    destruct items as [| item items].
    + destruct (IH r1) as [r' [Hr' Hg']]. exists r'. split; [exact Hr' |].
      rewrite Hg', Hg. reflexivity.
    + rewrite bind_run. unfold on_ratings at 1. rewrite item_loop_spec.
      rewrite bind_run.
      destruct (page <? total); cbn.
      * match goal with |- context [page_loop net self total rest ?r2] =>
          destruct (IH r2) as [r' [Hr' Hg']] end.
        exists r'. split; [exact Hr' |].
        rewrite Hg'. simpl. rewrite gets_app. simpl.
        rewrite app_nil_r. exact Hg.
      * match goal with |- context [page_loop net self total rest ?r2] =>
          destruct (IH r2) as [r' [Hr' Hg']] end.
        exists r'. split; [exact Hr' |].
        rewrite Hg'. exact Hg.
Qed.

(** Writing the file makes no request and gives [True] or [False]. *)
Lemma write_step_run filename all (log : io) :
  exists log' b,
    try_except (write_csv disk_ok filename all;; mret true) (fun e => mret false) log
    = (log', inr b) /\ gets log' = gets log.
Proof.
  unfold try_except, write_csv.
  destruct (disk_ok filename); [destruct (csv_rows all) as [e | rows] |].
  - exists (log ++ [Interrupted filename]), false.
    split; [reflexivity |]. rewrite gets_app. simpl. apply app_nil_r.
  - exists (log ++ [Written filename (List.map lit fieldnames :: rows)]), true.
    split; [reflexivity |]. rewrite gets_app. simpl. apply app_nil_r.
  - exists (log ++ [Interrupted filename]), false.
    split; [reflexivity |]. rewrite gets_app. simpl. apply app_nil_r.
Qed.

(** A run whose page count is 1 requests page 1 after the count. *)
Lemma export_count_one self filename log :
  get_total_pages net self [] = (log, inr 1) ->
  exists r' b,
    run_export net disk_ok self filename = (r', inr b)
    /\ gets (out r') = [Get (page_url self 1); Get (page_url self 1)].
Proof.
  intros Hc. destruct (get_total_pages_total self []) as [n Hn].
  rewrite Hn in Hc. inversion Hc; subst. clear Hc.
  unfold run_export, export_to_csv.
  rewrite bind_run. unfold on_io at 1. simpl out. rewrite Hn.
  change (1 =? 0) with false. cbv iota.
  rewrite bind_run. unfold on_ratings at 1. unfold put at 1.
  cbv beta iota. simpl all_ratings. simpl out.
  change (py_range 1 (1 + 1)) with [1].
  destruct (page_loop_gets self 1 [1] (mk_run [Get (page_url self 1)] []))
    as [r1 [Hr1 Hg1]].
  rewrite bind_run, Hr1, bind_run. unfold on_ratings at 1. unfold get at 1.
  cbv beta iota. unfold on_io. simpl out. simpl all_ratings.
  destruct (write_step_run filename (all_ratings r1) (out r1)) as [log' [b [Hw Hg]]].
  rewrite Hw. eexists _, b. split; [reflexivity |].
  simpl out. rewrite Hg, Hg1. reflexivity.
Qed.
End Run.

(** C3: when the request for the page count fails, [get_total_pages]
    returns 0 and [export_to_csv] returns [False]: the only request of the
    run is the failed one, and nothing is written.  The count 1 is another
    outcome: a run whose count is 1 goes on to request page 1. *)
Theorem count_fetch_failure_aborts_run {tag : Type} `{!Soup tag}
    (net : nat -> pystr -> py tag) (disk_ok : pystr -> bool)
    (self : KinopoiskScraper) (filename : pystr) (e : exn) :
  net 0%nat (page_url self 1) = inl e ->
  get_total_pages net self [] = ([Get (page_url self 1)], inr 0)
  /\ run_export net disk_ok self filename
     = (mk_run [Get (page_url self 1)] [], inr false)
  /\ forall (net' : nat -> pystr -> py tag) (log : io),
       get_total_pages net' self [] = (log, inr 1) ->
       exists r' b,
         run_export net' disk_ok self filename = (r', inr b)
         /\ gets (out r') = [Get (page_url self 1); Get (page_url self 1)].
Proof.
  intros H.
  assert (Hc : get_total_pages net self [] = ([Get (page_url self 1)], inr 0)).
  { unfold get_total_pages, try_except.
    rewrite bind_run, http_get_run. simpl. rewrite H. reflexivity. }
  split; [exact Hc |]. split.
  - unfold run_export, export_to_csv.
    rewrite bind_run. unfold on_io at 1. simpl out. rewrite Hc. reflexivity.
  - intros net' log. apply export_count_one.
Qed.

Section Skip.
Context {tag : Type} `{!Soup tag}.
Variable net : nat -> pystr -> py tag.

(** C7: when the request for a page fails, [fetch_ratings_page] returns
    the empty list; the loop of [export_to_csv] then goes on with the
    pages that follow, from a state in which [all_ratings] is what it was
    (the page has added no record) and only the request is new; and the
    loop ends normally, having requested every page that follows. *)
Theorem failed_page_is_skipped (self : KinopoiskScraper) (total page : Z)
    (rest : list Z) (r : run) (e : exn) :
  net (length (gets (out r))) (page_url self page) = inl e ->
  fetch_ratings_page net self page (out r)
    = (out r ++ [Get (page_url self page)], inr [])
  /\ page_loop net self total (page :: rest) r
     = page_loop net self total rest
         (mk_run (out r ++ [Get (page_url self page)]) (all_ratings r))
  /\ exists r',
       page_loop net self total (page :: rest) r = (r', inr tt)
       /\ gets (out r')
          = gets (out r) ++ List.map (fun p => Get (page_url self p)) (page :: rest).
Proof.
  intros H. pose proof (fetch_ratings_page_fails net self page (out r) e H) as Hf.
  split; [exact Hf |]. split.
  - simpl. rewrite bind_run. unfold on_io at 1. rewrite Hf. reflexivity.
  - apply page_loop_gets.
Qed.
End Skip.

(** ** Exceptions inside [parse_rating_item] *)

Section Partial.
Context {tag : Type} `{!Soup tag}.

Lemma steps_nodup item : NoDup (concat (List.map fst (steps item))).
Proof.
  unfold steps. simpl. repeat (constructor; [set_solver |]). constructor.
Qed.

(** C8: [parse_rating_item] returns a dict on every fragment, whatever the
    library calls of the extraction do or raise.  When a block of the [try]
    raises (the blocks before it having run), what is returned is the dict
    as it was at the raise, and in it every field of the blocks not reached
    is the empty string.  The loop over the fragments of a page therefore
    always runs to its end. *)
Theorem parse_rating_item_never_raises (item : tag) :
  parse_rating_item item = inr (record_of item)
  /\ (forall (items : list tag) (all : list dict), (item_loop items all).2 = inr tt)
  /\ forall done fs p todo e d1 d2,
       steps item = done ++ (fs, p) :: todo ->
       run_steps (List.map snd done) empty_result = (d1, inr tt) ->
       p d1 = (d2, inl e) ->
       record_of item = d2
       /\ Forall (fun s => Forall (fun k => d2 !! k = Some []) s.1) todo.
Proof.
  split; [apply parse_rating_item_returns |].
  split; [intros items all; rewrite item_loop_spec; reflexivity |].
  intros done fs p todo e d1 d2 Hsteps Hdone Hp. split.
  - unfold record_of, try_except.
    rewrite extract_fields_steps, Hsteps, List.map_app, bind_run, run_steps_app.
    rewrite bind_run, Hdone. simpl. rewrite bind_run, Hp.
    rewrite bind_run. unfold getitem.
    destruct (dict_get d2 "num"); reflexivity.
  - pose proof (steps_sets item) as Hs. pose proof (steps_nodup item) as Hnd.
    pose proof (all_fields item) as Hall.
    rewrite Hsteps in Hs, Hnd, Hall.
    apply Forall_app in Hs as [Hs1 Hs2]. apply Forall_cons in Hs2 as [Hs2 _].
    assert (Hsets : sets (concat (List.map fst done) ++ fs) empty_result d2).
    { apply sets_trans with d1.
      - pose proof (run_steps_sets done Hs1 empty_result) as H1.
        rewrite Hdone in H1. eapply sets_mono; [| exact H1]. set_solver.
      - pose proof (Hs2 d1) as H2. simpl in H2. rewrite Hp in H2.
        eapply sets_mono; [| exact H2]. set_solver. }
    rewrite List.map_app, concat_app in Hnd, Hall. simpl in Hnd, Hall.
    apply NoDup_app in Hnd as (_ & Hdis1 & Hnd2).
    apply NoDup_app in Hnd2 as (_ & Hdis2 & _).
    apply Forall_forall. intros s Hin. apply Forall_forall. intros k Hk.
    assert (Hkt : k ∈ concat (List.map fst todo)).
    { apply list_elem_of_In, in_concat. exists s.1. split.
      - apply in_map, list_elem_of_In, Hin.
      - apply list_elem_of_In, Hk. }
    rewrite (sets_frame _ _ _ k Hsets).
    + apply empty_result_lookup. rewrite <- Hall. set_solver.
    + intros Hk'. apply elem_of_app in Hk' as [Hk' | Hk'].
      * apply (Hdis1 k Hk'). set_solver.
      * apply (Hdis2 k Hk'), Hkt.
Qed.
End Partial.

(** ** The methods on the parsed tree *)

Lemma tree_find t nm c : tag_find t nm c None = inr (find_in t nm c).
Proof. reflexivity. Qed.

Lemma tree_find_all t nm : tag_find_all t nm None = inr (find_all_in t nm).
Proof. reflexivity. Qed.

Lemma tree_select_one t sel : tag_select_one t sel = inr (select_in t sel).
Proof. reflexivity. Qed.

Lemma tree_text (t : located) : tag_text t = inr (text_of t).
Proof. reflexivity. Qed.

Lemma tree_string (t : located) : tag_string t = inr (node_string (l_node t)).
Proof. reflexivity. Qed.

Lemma tree_has_class (t : located) :
  tag_has_attr t (lit "class") = inr (bool_decide (is_Some (node_class (l_node t)))).
Proof. reflexivity. Qed.

Lemma tree_get_class (t : located) :
  tag_get_class t = of_option (KeyError "class") (node_class (l_node t)).
Proof. reflexivity. Qed.

Lemma setitem_run k v (d : dict) : setitem k v d = (<[k := v]> d, inr tt).
Proof. reflexivity. Qed.

Lemma getitem_run k (d : dict) : getitem k d = (d, dict_get d k).
Proof. reflexivity. Qed.

(** One step of running a method on the tree. *)
Ltac run_tree :=
  repeat (first [ rewrite bind_run | rewrite call_run | rewrite ret_run
                | rewrite setitem_run | rewrite getitem_run
                | rewrite tree_find | rewrite tree_find_all | rewrite tree_select_one
                | rewrite tree_text | rewrite tree_string
                | rewrite tree_has_class | rewrite tree_get_class ];
          cbv beta iota).

Lemma extract_num_tree (item : located) (d : dict) :
  extract_num item d
  = (match find_in item (lit "div") (Some (lit "num")) with
     | Some el => <["num" := strip (text_of el)]> d
     | None => d
     end, inr tt).
Proof.
  unfold extract_num. run_tree.
  destruct (find_in item _ _) as [el |]; run_tree; reflexivity.
Qed.

Lemma tree_find_re t nm c r :
  tag_find t nm c (Some r) = inr (List.find (find_filter nm c (Some r)) (below t)).
Proof. reflexivity. Qed.

Lemma tree_has_attr (t : located) (k : pystr) :
  pystr_eqb k (lit "class") = false ->
  tag_has_attr t k = inr (bool_decide (is_Some (node_attr (l_node t) k))).
Proof. intros H. simpl. rewrite H. reflexivity. Qed.

Lemma tree_get_attr (t : located) (k : pystr) :
  tag_get_attr t k = of_option (KeyError "attr") (node_attr (l_node t) k).
Proof. reflexivity. Qed.

(** The loop over the [div]s of the vote widget stops at the first one
    with both class marks and stores its text. *)
Lemma my_vote_loop_tree (divs : list located) (d : dict) :
  my_vote_loop divs d
  = (match first_some my_vote_text divs with
     | Some v => <["rating" := v]> d
     | None => d
     end, inr tt).
Proof.
  induction divs as [| div rest IH]; simpl; [reflexivity |].
  unfold my_vote_text at 1. run_tree.
  destruct (node_class (l_node div)) as [cl |]; simpl; [| exact IH].
  run_tree.
  destruct (contains _ _ && contains _ _); [| exact IH].
  run_tree. reflexivity.
Qed.

(** The loop over the scripts stops at the first payload that matches and
    stores its digits. *)
Lemma script_loop_tree (scripts : list located) (d : dict) :
  script_loop scripts d
  = (match first_some payload_rating scripts with
     | Some v => <["rating" := v]> d
     | None => d
     end, inr tt).
Proof.
  induction scripts as [| script rest IH]; simpl; [reflexivity |].
  unfold payload_rating at 1. run_tree.
  destruct (node_string (l_node script)) as [s |]; [| exact IH].
  destruct (truthy s); simpl; [| exact IH].
  run_tree. simpl.
  destruct (contains (lit "rating:") s); [| exact IH].
  run_tree. simpl.
  destruct (re_search re_rating s) as [m |]; simpl; [| exact IH].
  run_tree. reflexivity.
Qed.

(** The last strategy, from a dict whose rating is still empty. *)
Lemma vote_attribute_step (item : located) (d : dict) :
  (rate_now_div ← call (tag_select_one item css_rate_now);
   match rate_now_div with
   | Some el =>
       has ← call (tag_has_attr el (lit "vote"));
       if (has : bool) then v ← call (tag_get_attr el (lit "vote")); setitem "rating" v
       else mret tt
   | None => mret tt
   end) d
  = (match vote_attribute item with
     | Some v => <["rating" := v]> d
     | None => d
     end, inr tt).
Proof.
  unfold vote_attribute. run_tree.
  destruct (select_in item css_rate_now) as [el |]; [| reflexivity].
  run_tree. rewrite tree_has_attr by reflexivity. cbv beta iota.
  rewrite tree_get_attr.
  destruct (node_attr (l_node el) (lit "vote")) as [v |]; simpl; run_tree; reflexivity.
Qed.

Ltac calm := cbn [of_option truthy negb]; cbv beta iota.

(** On the tree: from a dict whose rating is the empty string,
    the rating block ends normally and leaves the rating the strategies
    give, in their order. *)
Lemma extract_rating_tree (item : located) (d : dict) :
  d !! "rating" = Some [] ->
  exists d',
    extract_rating item d = (d', inr tt)
    /\ d' !! "rating" = Some (rating_by_strategies item).
Proof.
  intros Hr. unfold extract_rating, rating_by_strategies, vote_display, script_payload.
  rewrite bind_run, call_run, tree_find. cbv beta iota.
  fold (vote_widget_of item).
  destruct (vote_widget_of item) as [w |].
  - rewrite bind_run, bind_run, call_run, tree_find_all. cbv beta iota.
    rewrite bind_run, my_vote_loop_tree.
    destruct (first_some my_vote_text (find_all_in w (lit "div"))) as [[| c v1] |];
      cbv beta iota.
    + (* the vote display is there and empty *)
      rewrite bind_run, getitem_run. unfold dict_get at 1. rewrite lookup_insert_eq. calm.
      rewrite bind_run, call_run, tree_find_all. cbv beta iota.
      rewrite script_loop_tree.
      destruct (first_some payload_rating (find_all_in item (lit "script")))
        as [[| c v2] |]; cbv beta iota.
      * rewrite bind_run, getitem_run. unfold dict_get. rewrite lookup_insert_eq. calm.
        rewrite vote_attribute_step.
        destruct (vote_attribute item) as [[| c v3] |]; eexists; (split; [reflexivity |]);
          simpl; rewrite lookup_insert_eq; reflexivity.
      * rewrite bind_run, getitem_run. unfold dict_get. rewrite lookup_insert_eq. calm.
        eexists. split; [reflexivity |]. apply lookup_insert_eq.
      * rewrite bind_run, getitem_run. unfold dict_get. rewrite lookup_insert_eq. calm.
        rewrite vote_attribute_step.
        destruct (vote_attribute item) as [[| c v3] |]; eexists; (split; [reflexivity |]);
          simpl; rewrite lookup_insert_eq; reflexivity.
    + (* the vote display gives the rating *)
      rewrite bind_run, getitem_run. unfold dict_get at 1. rewrite lookup_insert_eq. calm.
      rewrite ret_run. cbv beta iota.
      rewrite bind_run, getitem_run. unfold dict_get. rewrite lookup_insert_eq. calm.
      eexists. split; [reflexivity |]. apply lookup_insert_eq.
    + (* no vote display *)
      rewrite bind_run, getitem_run. unfold dict_get at 1. rewrite Hr. calm.
      rewrite bind_run, call_run, tree_find_all. cbv beta iota.
      rewrite script_loop_tree.
      destruct (first_some payload_rating (find_all_in item (lit "script")))
        as [[| c v2] |]; cbv beta iota.
      * rewrite bind_run, getitem_run. unfold dict_get. rewrite lookup_insert_eq. calm.
        rewrite vote_attribute_step.
        destruct (vote_attribute item) as [[| c v3] |]; eexists; (split; [reflexivity |]);
          simpl; rewrite lookup_insert_eq; reflexivity.
      * rewrite bind_run, getitem_run. unfold dict_get. rewrite lookup_insert_eq. calm.
        eexists. split; [reflexivity |]. apply lookup_insert_eq.
      * rewrite bind_run, getitem_run. unfold dict_get. rewrite Hr. calm.
        rewrite vote_attribute_step.
        destruct (vote_attribute item) as [[| c v3] |]; eexists; (split; [reflexivity |]);
          simpl; rewrite ?lookup_insert_eq; try reflexivity; exact Hr.
  - rewrite bind_run, ret_run. cbv beta iota.
    rewrite bind_run, getitem_run. unfold dict_get. rewrite Hr. calm.
    rewrite vote_attribute_step.
    destruct (vote_attribute item) as [[| c v3] |]; eexists; (split; [reflexivity |]);
      simpl; rewrite ?lookup_insert_eq; try reflexivity; exact Hr.
Qed.

Lemma extract_name_rus_tree (item : located) (d : dict) :
  extract_name_rus item d
  = (match select_in item css_name_rus with
     | Some a =>
         let full_name_text := strip (text_of a) in
         match re_match re_name_year full_name_text with
         | Some m =>
             <["year" := nth 1 (fst m) []]>
               (<["nameRus" := strip (nth 0 (fst m) [])]> d)
         | None => <["nameRus" := full_name_text]> d
         end
     | None => d
     end, inr tt).
Proof.
  unfold extract_name_rus. run_tree.
  destruct (select_in item css_name_rus) as [a |]; [| reflexivity].
  run_tree. destruct (re_match re_name_year _) as [m |]; run_tree; reflexivity.
Qed.

Lemma extract_name_eng_tree (item : located) (d : dict) :
  extract_name_eng item d
  = (match find_in item (lit "div") (Some (lit "nameEng")) with
     | Some el =>
         let v := strip (text_of el) in
         if pystr_eqb v [160%N] then <["nameEng" := []]> (<["nameEng" := v]> d)
         else <["nameEng" := v]> d
     | None => d
     end, inr tt).
Proof.
  unfold extract_name_eng. run_tree.
  destruct (find_in item _ _) as [el |]; [| reflexivity].
  run_tree. unfold dict_get. rewrite lookup_insert_eq. calm.
  destruct (pystr_eqb _ _); run_tree; reflexivity.
Qed.

Lemma extract_duration_tree (item : located) (d : dict) :
  exists d', extract_duration item d = (d', inr tt).
Proof.
  unfold extract_duration. run_tree.
  destruct (find_in item _ _) as [rd |]; [| eexists; reflexivity].
  rewrite bind_run, call_run, tree_find_re. cbv beta iota.
  destruct (List.find _ _) as [sp |]; [| eexists; reflexivity].
  run_tree. destruct (re_search re_number _); run_tree; eexists; reflexivity.
Qed.

Lemma extract_type_tree (item : located) (d : dict) :
  extract_type item d
  = (match select_in item css_type with
     | Some el =>
         match node_attr (l_node el) (lit "type") with
         | Some v => <["type" := v]> d
         | None => <["type" := lit "film"]> d
         end
     | None => <["type" := lit "film"]> d
     end, inr tt).
Proof.
  unfold extract_type. run_tree.
  destruct (select_in item css_type) as [el |]; [| reflexivity].
  run_tree. rewrite tree_has_attr by reflexivity. cbv beta iota.
  rewrite tree_get_attr.
  destruct (node_attr (l_node el) (lit "type")) as [v |]; simpl; run_tree; reflexivity.
Qed.

(** [strptime] raises nothing but [ValueError]. *)
Lemma strptime_raises s e : strptime s = inl e -> e = ValueError.
Proof.
  unfold strptime. intros H.
  repeat match type of H with
         | match ?x with _ => _ end = _ => destruct x
         | (if ?x then _ else _) = _ => destruct x
         end; congruence.
Qed.

Lemma extract_date_tree (item : located) (d : dict) :
  extract_date item d
  = (match find_in item (lit "div") (Some (lit "date")) with
     | Some el =>
         let date_str := strip (text_of el) in
         match strptime date_str with
         | inr date_obj => <["date_rated" := strftime_ymd date_obj]> d
         | inl _ => <["date_rated" := date_str]> d
         end
     | None => d
     end, inr tt).
Proof.
  unfold extract_date. run_tree.
  destruct (find_in item _ _) as [el |]; [| reflexivity].
  run_tree. unfold try_except. run_tree.
  destruct (strptime _) as [e |] eqn:Hs; run_tree; [| reflexivity].
  rewrite (strptime_raises _ _ Hs). reflexivity.
Qed.

(** ** The record of a fragment of the tree, field by field *)

Lemma run_steps_ok (ss : list (list string * M dict unit)) :
  Forall step_ok ss ->
  Forall (fun s => only_sets s.1 s.2) ss ->
  (forall k, k ∈ concat (List.map fst ss) -> k ∈ fieldnames) ->
  forall d, dom d = keys ->
    exists d', run_steps (List.map snd ss) d = (d', inr tt)
               /\ sets (concat (List.map fst ss)) d d' /\ dom d' = keys.
Proof.
  induction ss as [| [fs p] ss IH]; intros Hok Hsets Hsub d Hd; simpl.
  - exists d. split; [reflexivity |]. split; [apply sets_refl | exact Hd].
  - apply Forall_cons in Hok as [Hp Hok]. apply Forall_cons in Hsets as [Hps Hsets].
    simpl in Hsub.
    destruct (Hp d Hd) as [d1 Hd1]. simpl in Hd1.
    pose proof (Hps d) as Hs1. simpl in Hs1. rewrite Hd1 in Hs1. simpl in Hs1.
    assert (Hdom1 : dom d1 = keys).
    { rewrite (sets_dom _ _ _ Hs1); [exact Hd |].
      intros k Hk. rewrite Hd. apply fieldnames_keys, Hsub. set_solver. }
    destruct (IH Hok Hsets (fun k Hk => Hsub k ltac:(set_solver)) d1 Hdom1)
      as [d' (Hrun & Hs' & Hdom')].
    exists d'. rewrite bind_run, Hd1. split; [exact Hrun |]. split; [| exact Hdom'].
    apply sets_trans with d1.
    + eapply sets_mono; [| exact Hs1]. set_solver.
    + eapply sets_mono; [| exact Hs']. set_solver.
Qed.

Section Fields.
Context {tag : Type} `{!Soup tag}.
Variable item : tag.
Hypothesis all_ok : Forall step_ok (steps item).

(** When no block raises, the value of a field in the record is the value
    its block leaves, and the block starts from the empty string. *)
Lemma record_field done fs p todo :
  steps item = done ++ (fs, p) :: todo ->
  exists d1 d2,
    p d1 = (d2, inr tt)
    /\ dom d1 = keys
    /\ (forall k, k ∈ fs -> d1 !! k = Some [])
    /\ (forall k, k ∈ fs -> record_of item !! k = d2 !! k).
Proof.
  intros Hsteps.
  pose proof (steps_sets item) as Hs. pose proof (steps_nodup item) as Hnd.
  pose proof (all_fields item) as Hall. pose proof all_ok as Hok.
  rewrite Hsteps in Hs, Hnd, Hall, Hok.
  rewrite List.map_app, concat_app in Hnd, Hall. simpl in Hnd, Hall.
  apply Forall_app in Hs as [Hs1 Hs2]. apply Forall_cons in Hs2 as [Hs2 Hs3].
  apply Forall_app in Hok as [Hok1 Hok2]. apply Forall_cons in Hok2 as [Hok2 Hok3].
  apply NoDup_app in Hnd as (_ & Hdis1 & Hnd2).
  apply NoDup_app in Hnd2 as (_ & Hdis2 & _).
  destruct (run_steps_ok done Hok1 Hs1) with (d := empty_result)
    as [d1 (Hrun1 & Hsets1 & Hdom1)].
  { intros k Hk. rewrite <- Hall. set_solver. }
  { apply dom_empty_result. }
  destruct (Hok2 d1 Hdom1) as [d2 Hp]. simpl in Hp.
  pose proof (Hs2 d1) as Hsets2. simpl in Hsets2. rewrite Hp in Hsets2. simpl in Hsets2.
  assert (Hdom2 : dom d2 = keys).
  { rewrite (sets_dom _ _ _ Hsets2); [exact Hdom1 |].
    intros k Hk. rewrite Hdom1. apply fieldnames_keys. rewrite <- Hall. set_solver. }
  destruct (run_steps_ok todo Hok3 Hs3) with (d := d2) as [d3 (Hrun3 & Hsets3 & Hdom3)].
  { intros k Hk. rewrite <- Hall. set_solver. }
  { exact Hdom2. }
  exists d1, d2. split; [exact Hp |]. split; [exact Hdom1 |]. split.
  - intros k Hk. rewrite (sets_frame _ _ _ k Hsets1).
    + apply empty_result_lookup. rewrite <- Hall. set_solver.
    + intros Hk'. apply (Hdis1 k Hk'). set_solver.
  - intros k Hk.
    assert (Hrec : record_of item = d3).
    { unfold record_of, try_except.
      rewrite extract_fields_steps, Hsteps, List.map_app, bind_run, run_steps_app.
      rewrite bind_run, Hrun1. simpl. rewrite bind_run, Hp, Hrun3. reflexivity. }
    rewrite Hrec. apply (sets_frame _ _ _ k Hsets3).
    intros Hk'. apply (Hdis2 k Hk), Hk'.
Qed.
End Fields.

(** The rating block ends normally from any dict that has the key. *)
Lemma extract_rating_ok (item : located) (d : dict) :
  is_Some (d !! "rating") -> exists d', extract_rating item d = (d', inr tt).
Proof.
  intros [r0 Hr]. unfold extract_rating.
  rewrite bind_run, call_run, tree_find. cbv beta iota.
  assert (Hlast : forall d1, is_Some (d1 !! "rating") ->
            exists d', (r ← getitem "rating";
                        if negb (truthy r) then
                          rate_now_div ← call (tag_select_one item css_rate_now);
                          match rate_now_div with
                          | Some el =>
                              has ← call (tag_has_attr el (lit "vote"));
                              if (has : bool)
                              then v ← call (tag_get_attr el (lit "vote")); setitem "rating" v
                              else mret tt
                          | None => mret tt
                          end
                        else mret tt) d1 = (d', inr tt)).
  { intros d1 [r1 Hr1]. rewrite bind_run, getitem_run. unfold dict_get. rewrite Hr1. calm.
    destruct (truthy r1); calm; [eexists; reflexivity |].
    rewrite vote_attribute_step. eexists; reflexivity. }
  destruct (find_in item _ _) as [w |].
  - rewrite bind_run, bind_run, call_run, tree_find_all. cbv beta iota.
    rewrite bind_run, my_vote_loop_tree. cbv beta iota.
    set (d1 := match first_some my_vote_text _ with Some v => _ | None => d end).
    assert (H1 : is_Some (d1 !! "rating")).
    { unfold d1. destruct (first_some my_vote_text _); [rewrite lookup_insert_eq |];
        eauto. }
    destruct H1 as [r1 Hr1].
    rewrite bind_run, getitem_run. unfold dict_get at 1. rewrite Hr1. calm.
    destruct (truthy r1); calm.
    + rewrite ret_run. cbv beta iota. apply Hlast. eauto.
    + rewrite bind_run, call_run, tree_find_all. cbv beta iota.
      rewrite script_loop_tree. cbv beta iota. apply Hlast.
      destruct (first_some payload_rating _); [rewrite lookup_insert_eq |]; eauto.
  - rewrite bind_run, ret_run. cbv beta iota. apply Hlast. eauto.
Qed.

(** On the tree every block ends normally. *)
Lemma tree_steps_ok (item : located) : Forall step_ok (steps item).
Proof.
  unfold steps. repeat (apply Forall_cons; split); [.. | constructor];
    unfold step_ok; intros d Hd; simpl.
  - rewrite extract_num_tree. eexists; reflexivity.
  - rewrite extract_name_rus_tree. eexists; reflexivity.
  - rewrite extract_name_eng_tree. eexists; reflexivity.
  - apply extract_rating_ok, elem_of_dom. rewrite Hd.
    apply fieldnames_keys. unfold fieldnames. set_solver.
  - apply extract_duration_tree.
  - rewrite extract_type_tree. eexists; reflexivity.
  - rewrite extract_date_tree. eexists; reflexivity.
Qed.

(** The rating of the record, on the tree. *)
Lemma record_rating_tree (item : located) :
  record_of item !! "rating" = Some (rating_by_strategies item).
Proof.
  destruct (record_field item (tree_steps_ok item)
              [(["num"], extract_num item);
               (["nameRus"; "year"], extract_name_rus item);
               (["nameEng"], extract_name_eng item)]%string
              ["rating"]%string (extract_rating item)
              [(["duration"], extract_duration item);
               (["type"], extract_type item);
               (["date_rated"], extract_date item)]%string eq_refl)
    as (d1 & d2 & Hp & _ & Hin & Hout).
  rewrite Hout by set_solver.
  destruct (extract_rating_tree item d1) as (d' & Hp' & Hr); [apply Hin; set_solver |].
  rewrite Hp in Hp'. inversion Hp'; subst. exact Hr.
Qed.

(** C4 (as the code has it): on every fragment, [parse_rating_item]
    returns a record whose rating is what the first successful strategy
    gives, the strategies being, in order: (1) the text of the first
    element of the vote widget whose class names hold both "myVote" and
    "show_vote_"; (2) when the fragment has a vote widget, the digits of
    the first script payload matching [rating: '<digits>']; (3) the [vote]
    attribute of the first [div.rateNow[vote]].  A strategy succeeds when it
    gives a non-empty string; when none does the rating is the empty
    string, and nothing is raised. *)
Theorem rating_is_first_successful_strategy (item : located) :
  parse_rating_item item = inr (record_of item)
  /\ record_of item !! "rating"
     = Some (first_success
               [vote_display item;
                match vote_widget_of item with
                | Some _ => script_payload item
                | None => None
                end;
                vote_attribute item])
  /\ (vote_display item = None -> script_payload item = None ->
      vote_attribute item = None -> record_of item !! "rating" = Some []).
Proof.
  split; [apply parse_rating_item_returns |].
  split; [apply record_rating_tree |].
  intros H1 H2 H3. rewrite record_rating_tree. unfold rating_by_strategies.
  rewrite H1, H2, H3. destruct (vote_widget_of item); reflexivity.
Qed.

(** C4 as the specification words it fails: in a fragment with no vote
    widget, a script payload with rating '7' and a [vote] attribute 3, the
    three strategies in order give 7 (the second is the first to succeed);
    the record has 3. *)
Lemma script_payload_not_second_without_widget :
  vote_display fragment_script_and_vote = None
  /\ script_payload fragment_script_and_vote = Some (lit "7")
  /\ rating_as_specified fragment_script_and_vote = lit "7"
  /\ parse_rating_item fragment_script_and_vote
     = inr (record_of fragment_script_and_vote)
  /\ record_of fragment_script_and_vote !! "rating" = Some (lit "3")
  /\ record_of fragment_script_and_vote !! "rating"
     <> Some (rating_as_specified fragment_script_and_vote).
Proof.
  repeat split; try (vm_compute; reflexivity).
  vm_compute. discriminate.
Qed.

(** C9: in a fragment with no vote-widget container, the rating of the
    record is the [vote] attribute of the first [div.rateNow[vote]], or the
    empty string when there is none: the script payloads of the fragment
    have no part in it. *)
Theorem no_widget_rating_is_vote_attribute (item : located) :
  vote_widget_of item = None ->
  record_of item !! "rating" = Some (default [] (vote_attribute item)).
Proof.
  intros Hw. rewrite record_rating_tree.
  unfold rating_by_strategies, vote_display. rewrite Hw. simpl.
  destruct (vote_attribute item) as [[| c v] |]; reflexivity.
Qed.

Lemma no_widget_rating_is_vote_attribute_witness :
  vote_widget_of fragment_script_and_vote = None
  /\ script_payload fragment_script_and_vote = Some (lit "7")
  /\ record_of fragment_script_and_vote !! "rating"
     = Some (default [] (vote_attribute fragment_script_and_vote)).
Proof.
  split; [vm_compute; reflexivity |].
  split; [vm_compute; reflexivity |].
  apply (no_widget_rating_is_vote_attribute fragment_script_and_vote).
  vm_compute. reflexivity.
Defined.

Lemma rating_is_first_successful_strategy_witness :
  vote_display fragment_empty = None
  /\ script_payload fragment_empty = None
  /\ vote_attribute fragment_empty = None
  /\ record_of fragment_empty !! "rating" = Some [].
Proof.
  destruct (rating_is_first_successful_strategy fragment_empty) as (_ & _ & H).
  split; [vm_compute; reflexivity |].
  split; [vm_compute; reflexivity |].
  split; [vm_compute; reflexivity |].
  apply H; vm_compute; reflexivity.
Defined.

(** The date of the record, on the tree. *)
Lemma record_date_tree (item : located) :
  record_of item !! "date_rated"
  = Some match find_in item (lit "div") (Some (lit "date")) with
         | Some el =>
             let date_str := strip (text_of el) in
             match strptime date_str with
             | inr date_obj => strftime_ymd date_obj
             | inl _ => date_str
             end
         | None => []
         end.
Proof.
  destruct (record_field item (tree_steps_ok item)
              [(["num"], extract_num item);
               (["nameRus"; "year"], extract_name_rus item);
               (["nameEng"], extract_name_eng item);
               (["rating"], extract_rating item);
               (["duration"], extract_duration item);
               (["type"], extract_type item)]%string
              ["date_rated"]%string (extract_date item) [] eq_refl)
    as (d1 & d2 & Hp & _ & Hin & Hout).
  rewrite Hout by set_solver.
  rewrite extract_date_tree in Hp. inversion Hp as [Hd2]. clear Hp.
  destruct (find_in item _ _) as [el |]; [| apply Hin; set_solver].
  simpl. destruct (strptime _); apply lookup_insert_eq.
Qed.

(** C6 (as the code has it): the text of the date element is first
    trimmed of the white space around it.  When the trimmed text parses
    against day.month.year, hour:minute, the date of the record is
    year-month-day ("15.03.2021, 14:30" gives "2021-03-15"); when it does
    not, the date of the record is the trimmed text as it is.  The field is
    in the record in both cases and nothing is raised. *)
Theorem date_is_reformatted_or_trimmed_text (item el : located) :
  find_in item (lit "div") (Some (lit "date")) = Some el ->
  parse_rating_item item = inr (record_of item)
  /\ (forall date_obj, strptime (strip (text_of el)) = inr date_obj ->
        record_of item !! "date_rated"
        = Some (str_of_N (Z.to_N (dt_year date_obj)) ++ lit "-"
                ++ zfill 2 (str_of_N (Z.to_N (dt_month date_obj))) ++ lit "-"
                ++ zfill 2 (str_of_N (Z.to_N (dt_day date_obj)))))
  /\ (forall e, strptime (strip (text_of el)) = inl e ->
        record_of item !! "date_rated" = Some (strip (text_of el)))
  /\ strptime (lit "15.03.2021, 14:30") = inr (mk_datetime 2021 3 15 14 30)
  /\ strftime_ymd (mk_datetime 2021 3 15 14 30) = lit "2021-03-15".
Proof.
  intros Hel. split; [apply parse_rating_item_returns |].
  pose proof (record_date_tree item) as Hd. rewrite Hel in Hd. simpl in Hd.
  split; [| split; [| split]].
  - intros date_obj Hs. rewrite Hs in Hd. exact Hd.
  - intros e Hs. rewrite Hs in Hd. exact Hd.
  - vm_compute. reflexivity.
  - vm_compute. reflexivity.
Qed.

Lemma date_is_reformatted_or_trimmed_text_witness :
  exists el,
    find_in fragment_full (lit "div") (Some (lit "date")) = Some el
    /\ text_of el = lit "15.03.2021, 14:30"
    /\ record_of fragment_full !! "date_rated" = Some (lit "2021-03-15").
Proof.
  eexists. split; [vm_compute; reflexivity |]. split; [vm_compute; reflexivity |].
  destruct (date_is_reformatted_or_trimmed_text fragment_full _ eq_refl)
    as (_ & H & _).
  rewrite (H (mk_datetime 2021 3 15 14 30)); vm_compute; reflexivity.
Defined.

(** C6 as the specification words it fails: the text of the date element
    " n/a " does not parse, and the date of the record is "n/a", not the
    text of the element unchanged. *)
Lemma unparsed_date_is_trimmed :
  exists el,
    find_in fragment_padded_date (lit "div") (Some (lit "date")) = Some el
    /\ text_of el = lit " n/a "
    /\ strptime (text_of el) = inl ValueError
    /\ parse_rating_item fragment_padded_date = inr (record_of fragment_padded_date)
    /\ record_of fragment_padded_date !! "date_rated" = Some (lit "n/a")
    /\ record_of fragment_padded_date !! "date_rated" <> Some (text_of el).
Proof.
  eexists. split; [vm_compute; reflexivity |].
  repeat split; try (vm_compute; reflexivity).
  vm_compute. discriminate.
Qed.

(** ** What the patterns capture *)

Section MatcherFacts.
Context {R : Type}.
Implicit Types (k : @kont R) (pre s : pystr) (caps : list pystr).

Lemma rmatch_cat r1 r2 pre s caps k :
  rmatch (Cat r1 r2) pre s caps k
  = rmatch r1 pre s caps (fun pre' s' caps' => rmatch r2 pre' s' caps' k).
Proof. reflexivity. Qed.

Lemma lit_inv c pre s caps k x :
  rmatch (Lit c) pre s caps k = Some x ->
  exists s', s = c :: s' /\ k (c :: pre) s' caps = Some x.
Proof.
  simpl. destruct s as [| c' s']; [discriminate |].
  destruct (N.eqb_spec c c') as [-> |]; [| discriminate].
  intros H. exists s'. split; [reflexivity | exact H].
Qed.

(** A star takes a run of characters of its class. *)
Lemma star_loop_inv greedy p caps k pre s x :
  star_loop greedy p caps k pre s = Some x ->
  exists w s', s = w ++ s' /\ forallb p w = true /\ k (rev w ++ pre) s' caps = Some x.
Proof.
  revert pre. induction s as [| c s IH]; intros pre; simpl.
  - intros H. exists [], []. repeat split. exact H.
  - assert (Hstop : k pre (c :: s) caps = Some x ->
              exists w s', c :: s = w ++ s' /\ forallb p w = true
                           /\ k (rev w ++ pre) s' caps = Some x).
    { intros H. exists [], (c :: s). repeat split. exact H. }
    assert (Hmore : star_loop greedy p caps k (c :: pre) s = Some x -> p c = true ->
              exists w s', c :: s = w ++ s' /\ forallb p w = true
                           /\ k (rev w ++ pre) s' caps = Some x).
    { intros H Hc. destruct (IH _ H) as (w & s' & -> & Hw & Hk).
      exists (c :: w), s'. simpl. rewrite Hc, Hw, <- app_assoc.
      repeat split. exact Hk. }
    destruct (p c) eqn:Hc; [| exact Hstop].
    destruct greedy; unfold orelse.
    + destruct (star_loop true p caps k (c :: pre) s) eqn:Hl.
      * intros Hx. inversion Hx; subst. apply Hmore; [reflexivity | reflexivity].
      * exact Hstop.
    + destruct (k pre (c :: s) caps) eqn:Hk.
      * intros Hx. inversion Hx; subst. apply Hstop. reflexivity.
      * intros H. apply Hmore; [exact H | reflexivity].
Qed.

(** A group around [c+] captures a non-empty run of characters of [c]. *)
Lemma grp_plus_inv p pre s caps k x :
  rmatch (Grp (plus p)) pre s caps k = Some x ->
  exists w s',
    w <> [] /\ s = w ++ s' /\ forallb p w = true
    /\ k (rev w ++ pre) s' (caps ++ [w]) = Some x.
Proof.
  simpl. destruct s as [| c s]; [discriminate |].
  destruct (p c) eqn:Hc; [| discriminate].
  intros H. apply star_loop_inv in H as (w & s' & -> & Hw & Hk).
  exists (c :: w), s'. split; [discriminate |]. split; [reflexivity |].
  split; [simpl; rewrite Hc; exact Hw |].
  replace (rev (c :: w) ++ pre) with (rev w ++ c :: pre)
    by (simpl; rewrite <- app_assoc; reflexivity).
  assert (Hcap : rev (take (length (rev w ++ c :: pre) - length pre) (rev w ++ c :: pre))
                 = c :: w).
  { replace (rev w ++ c :: pre) with (rev (c :: w) ++ pre)
      by (simpl; rewrite <- app_assoc; reflexivity).
    rewrite length_app, Nat.add_sub, take_app_length. apply rev_involutive. }
  rewrite Hcap in Hk. exact Hk.
Qed.
End MatcherFacts.

Lemma search_from_inv r pre s m :
  search_from r pre s = Some m ->
  exists pre' s', rmatch r pre' s' [] accept = Some m.
Proof.
  revert pre. induction s as [| c s IH]; intros pre; simpl.
  - destruct (rmatch r pre [] [] accept) eqn:H; [| discriminate].
    intros Hm. inversion Hm; subst. eauto.
  - destruct (rmatch r pre (c :: s) [] accept) eqn:H.
    + intros Hm. inversion Hm; subst. eauto.
    + apply IH.
Qed.

Lemma re_number_group t m : re_search re_number t = Some m -> digits (group1 m).
Proof.
  intros H. apply search_from_inv in H as (pre & s & H).
  unfold re_number in H. apply grp_plus_inv in H as (w & s' & Hne & _ & Hw & Hk).
  inversion Hk; subst. split; assumption.
Qed.

Lemma re_pages_from_to_group t m :
  re_search re_pages_from_to t = Some m -> digits (group1 m).
Proof.
  intros H. apply search_from_inv in H as (pre & s & H).
  unfold re_pages_from_to, cats, lits, cyr_iz in H.
  rewrite !rmatch_cat in H.
  apply lit_inv in H as (s1 & _ & H). apply lit_inv in H as (s2 & _ & H).
  change (star_loop true is_space []
            (fun pre' s' caps' => rmatch (Grp (plus is_decimal)) pre' s' caps' accept)
            (1079%N :: 1080%N :: pre) s2 = Some m) in H.
  apply star_loop_inv in H as (w0 & s3 & _ & _ & H).
  apply grp_plus_inv in H as (w & s' & Hne & _ & Hw & Hk).
  inversion Hk; subst. split; assumption.
Qed.

(** ** [int] on captured digits *)

Lemma ranges_apart rs1 rs2 c :
  forallb (fun r1 => forallb (apart r1) rs2) rs1 = true ->
  in_ranges rs1 c = true -> in_ranges rs2 c = false.
Proof.
  intros Hall H1. destruct (in_ranges rs2 c) eqn:H2; [| reflexivity]. exfalso.
  unfold in_ranges in *.
  apply existsb_exists in H1 as (r1 & Hin1 & Hb1).
  apply existsb_exists in H2 as (r2 & Hin2 & Hb2).
  rewrite forallb_forall in Hall. specialize (Hall r1 Hin1).
  rewrite forallb_forall in Hall. specialize (Hall r2 Hin2).
  unfold apart in Hall.
  apply andb_true_iff in Hb1 as [Ha1 Hb1]. apply andb_true_iff in Hb2 as [Ha2 Hb2].
  apply N.leb_le in Ha1, Hb1, Ha2, Hb2.
  apply orb_true_iff in Hall as [Hlt | Hlt]; apply N.ltb_lt in Hlt; lia.
Qed.

Lemma decimal_not_space c : is_decimal c = true -> is_space c = false.
Proof. apply ranges_apart. vm_compute. reflexivity. Qed.

Lemma lstrip_id c s : is_space c = false -> lstrip (c :: s) = c :: s.
Proof. intros H. simpl. rewrite H. reflexivity. Qed.

Lemma strip_digits g : forallb is_decimal g = true -> strip g = g.
Proof.
  intros Hg. assert (Hall : forall c, In c g -> is_space c = false).
  { intros c Hc. apply decimal_not_space. rewrite forallb_forall in Hg. auto. }
  unfold strip, rstrip.
  assert (Hl : lstrip g = g).
  { destruct g as [| c g]; [reflexivity |]. apply lstrip_id, Hall. left. reflexivity. }
  rewrite Hl. destruct (rev g) as [| c r] eqn:Hr.
  - apply (f_equal (@rev N)) in Hr. rewrite rev_involutive in Hr. subst. reflexivity.
  - rewrite lstrip_id, <- Hr; [apply rev_involutive |].
    apply Hall, in_rev. rewrite Hr. left. reflexivity.
Qed.

Lemma py_int_digits g :
  digits g ->
  py_int g = if Z.of_nat (length g) <=? int_max_str_digits
             then inr (int_digits g) else inl ValueError.
Proof.
  intros [Hne Hg]. unfold py_int. rewrite (strip_digits g Hg), Hg.
  destruct g; [contradiction | reflexivity].
Qed.

(** ** The page count, on the tree *)

Lemma pages_of_indicator_tree (found : option located) (pattern : regex) (log : io) :
  (forall t m, re_search pattern t = Some m -> digits (group1 m)) ->
  pages_of_indicator found pattern log
  = (log, match indicator_digits found pattern with
          | Some g =>
              if Z.of_nat (length g) <=? int_max_str_digits
              then inr (Some ((int_digits g + 49) / 50))
              else inl ValueError
          | None => inr None
          end).
Proof.
  intros Hdig. unfold pages_of_indicator, indicator_digits.
  destruct found as [el |]; [| reflexivity].
  rewrite bind_run, call_run, tree_text. cbv beta iota.
  destruct (re_search pattern (text_of el)) as [m |] eqn:Hm; [| reflexivity].
  cbn [fmap option_fmap option_map].
  rewrite bind_run, call_run, (py_int_digits _ (Hdig _ _ Hm)).
  destruct (Z.of_nat (length (group1 m)) <=? int_max_str_digits); reflexivity.
Qed.

Lemma get_total_pages_tree net (self : KinopoiskScraper) (log : io) (soup : located) :
  net (length (gets log)) (page_url self 1) = inr soup ->
  get_total_pages net self log
  = (log ++ [Get (page_url self 1)],
     inr match count_digits soup with
         | Some g =>
             if Z.of_nat (length g) <=? int_max_str_digits
             then (int_digits g + 49) / 50 else 0
         | None => 1
         end).
Proof.
  intros Hnet. unfold get_total_pages, try_except, count_digits.
  rewrite bind_run, http_get_run, Hnet. cbv beta iota.
  rewrite bind_run, call_run, tree_find. cbv beta iota.
  rewrite bind_run, (pages_of_indicator_tree _ _ _ re_pages_from_to_group).
  destruct (indicator_digits (find_in soup _ _) re_pages_from_to) as [g |].
  { destruct (Z.of_nat (length g) <=? int_max_str_digits); reflexivity. }
  cbv beta iota.
  rewrite bind_run, call_run, tree_find. cbv beta iota.
  rewrite bind_run, (pages_of_indicator_tree _ _ _ re_number_group).
  destruct (indicator_digits (find_in soup _ _) re_number) as [g |]; [| reflexivity].
  destruct (Z.of_nat (length g) <=? int_max_str_digits); reflexivity.
Qed.

(** C1 (as the code has it): when the first listing page is fetched and a
    count indicator shows the total T in no more digits than [int] reads
    (4300), [get_total_pages] returns the ceiling of T/50, the least number
    of pages of 50 that hold T records (10 for 458, 9 for 450, and 0 for
    0); when the indicator shows more digits than that, [int] raises and
    [get_total_pages] returns 0; when no indicator shows a total it
    returns 1. *)
Theorem page_count_is_ceiling (net : nat -> pystr -> py located)
    (self : KinopoiskScraper) (log : io) (soup : located) :
  net (length (gets log)) (page_url self 1) = inr soup ->
  (forall total, count_indicator soup = Some total ->
     exists pages,
       get_total_pages net self log = (log ++ [Get (page_url self 1)], inr pages)
       /\ pages = (total + 49) / 50
       /\ 50 * (pages - 1) < total <= 50 * pages
       /\ (total = 458 -> pages = 10) /\ (total = 450 -> pages = 9)
       /\ (total = 0 -> pages = 0))
  /\ (forall g, count_digits soup = Some g ->
        int_max_str_digits < Z.of_nat (length g) ->
        get_total_pages net self log = (log ++ [Get (page_url self 1)], inr 0))
  /\ (count_digits soup = None ->
      get_total_pages net self log = (log ++ [Get (page_url self 1)], inr 1)).
Proof.
  intros Hnet. pose proof (get_total_pages_tree net self log soup Hnet) as H.
  split; [| split].
  - intros total Ht. unfold count_indicator in Ht.
    destruct (count_digits soup) as [g |]; [| discriminate].
    destruct (Z.of_nat (length g) <=? int_max_str_digits); [| discriminate].
    inversion Ht as [Hg]. subst total. exists ((int_digits g + 49) / 50).
    split; [exact H |]. split; [reflexivity |].
    pose proof (Z.div_mod (int_digits g + 49) 50 ltac:(lia)) as Hdm.
    pose proof (Z.mod_pos_bound (int_digits g + 49) 50 ltac:(lia)) as Hb.
    split; [lia |]. repeat split; intros ->; reflexivity.
  - intros g Hg Hlong. rewrite Hg in H.
    apply Z.leb_gt in Hlong. rewrite Hlong in H. exact H.
  - intros Hn. rewrite Hn in H. exact H.
Qed.

Lemma page_count_is_ceiling_witness :
  count_indicator (page_with_total "458") = Some 458
  /\ get_total_pages (net_of (page_with_total "458")) scraper_42 []
     = ([Get (page_url scraper_42 1)], inr 10)
  /\ get_total_pages (net_of page_with_long_total) scraper_42 []
     = ([Get (page_url scraper_42 1)], inr 0)
  /\ count_digits page_without_indicator = None
  /\ get_total_pages (net_of page_without_indicator) scraper_42 []
     = ([Get (page_url scraper_42 1)], inr 1).
Proof.
  destruct (page_count_is_ceiling (net_of (page_with_total "458")) scraper_42 []
              (page_with_total "458") eq_refl) as (H & _ & _).
  destruct (H 458 ltac:(vm_compute; reflexivity)) as (pages & Hrun & _ & _ & H458 & _).
  destruct (page_count_is_ceiling (net_of page_with_long_total) scraper_42 []
              page_with_long_total eq_refl) as (_ & H0 & _).
  destruct (page_count_is_ceiling (net_of page_without_indicator) scraper_42 []
              page_without_indicator eq_refl) as (_ & _ & H1).
  split; [vm_compute; reflexivity |].
  split; [rewrite Hrun, (H458 eq_refl); reflexivity |].
  split; [exact (H0 (repeat 57%N 4301) eq_refl eq_refl) |].
  split; [vm_compute; reflexivity |].
  apply H1. vm_compute. reflexivity.
Defined.

(** C1 as the specification words it fails: on a first page whose count
    indicator shows the total 0, [get_total_pages] returns 0, not the
    fallback 1. *)
Lemma total_zero_gives_zero_pages :
  count_indicator (page_with_total "0") = Some 0
  /\ get_total_pages (net_of (page_with_total "0")) scraper_42 []
     = ([Get (page_url scraper_42 1)], inr 0)
  /\ get_total_pages (net_of (page_with_total "0")) scraper_42 []
     <> ([Get (page_url scraper_42 1)], inr 1).
Proof.
  split; [vm_compute; reflexivity |].
  split; [vm_compute; reflexivity |].
  vm_compute. discriminate.
Qed.

(** ** Defaults of the fields, on the tree *)

Lemma record_field_nth (item : located) (i : nat) fs p :
  steps item !! i = Some (fs, p) ->
  exists d1 d2,
    p d1 = (d2, inr tt)
    /\ (forall k, k ∈ fs -> d1 !! k = Some [])
    /\ (forall k, k ∈ fs -> record_of item !! k = d2 !! k).
Proof.
  intros Hi. apply take_drop_middle in Hi.
  destruct (record_field item (tree_steps_ok item) _ _ _ _ (eq_sym Hi))
    as (d1 & d2 & Hp & _ & Hin & Hout).
  exists d1, d2. auto.
Qed.

Lemma extract_duration_absent (item : located) (d : dict) :
  find_in item (lit "div") (Some (lit "rating")) = None ->
  extract_duration item d = (d, inr tt).
Proof. intros H. unfold extract_duration. run_tree. rewrite H. reflexivity. Qed.

Lemma record_defaults_tree (item : located) :
  (find_in item (lit "div") (Some (lit "num")) = None ->
   record_of item !! "num" = Some [])
  /\ (select_in item css_name_rus = None ->
      record_of item !! "nameRus" = Some [] /\ record_of item !! "year" = Some [])
  /\ (find_in item (lit "div") (Some (lit "nameEng")) = None ->
      record_of item !! "nameEng" = Some [])
  /\ (vote_display item = None -> script_payload item = None ->
      vote_attribute item = None -> record_of item !! "rating" = Some [])
  /\ (find_in item (lit "div") (Some (lit "rating")) = None ->
      record_of item !! "duration" = Some [])
  /\ (find_in item (lit "div") (Some (lit "date")) = None ->
      record_of item !! "date_rated" = Some [])
  /\ (select_in item css_type = None ->
      record_of item !! "type" = Some (lit "film")).
Proof.
  split.
  { intros H. destruct (record_field_nth item 0 _ _ eq_refl) as (d1 & d2 & Hp & Hin & Hout).
    rewrite Hout by set_solver. rewrite extract_num_tree, H in Hp.
    inversion Hp; subst. apply Hin. set_solver. }
  split.
  { intros H. destruct (record_field_nth item 1 _ _ eq_refl) as (d1 & d2 & Hp & Hin & Hout).
    rewrite !Hout by set_solver. rewrite extract_name_rus_tree, H in Hp.
    inversion Hp; subst. split; apply Hin; set_solver. }
  split.
  { intros H. destruct (record_field_nth item 2 _ _ eq_refl) as (d1 & d2 & Hp & Hin & Hout).
    rewrite Hout by set_solver. rewrite extract_name_eng_tree, H in Hp.
    inversion Hp; subst. apply Hin. set_solver. }
  split.
  { intros H1 H2 H3. rewrite record_rating_tree. unfold rating_by_strategies.
    rewrite H1, H2, H3. destruct (vote_widget_of item); reflexivity. }
  split.
  { intros H. destruct (record_field_nth item 4 _ _ eq_refl) as (d1 & d2 & Hp & Hin & Hout).
    rewrite Hout by set_solver. rewrite (extract_duration_absent _ _ H) in Hp.
    inversion Hp; subst. apply Hin. set_solver. }
  split.
  { intros H. rewrite record_date_tree, H. reflexivity. }
  intros H. destruct (record_field_nth item 5 _ _ eq_refl) as (d1 & d2 & Hp & Hin & Hout).
  rewrite Hout by set_solver. rewrite extract_type_tree, H in Hp.
  inversion Hp; subst. apply lookup_insert_eq.
Qed.




(** ** The runs of the sample sites *)

Lemma count_fetch_failure_aborts_run_witness :
  net_down 0%nat (page_url scraper_42 1) = inl RequestException
  /\ get_total_pages net_down scraper_42 [] = ([Get (page_url scraper_42 1)], inr 0)
  /\ run_export net_down (fun _ => true) scraper_42 (lit "kinopoisk_ratings.csv")
     = (mk_run [Get (page_url scraper_42 1)] [], inr false).
Proof.
  destruct (count_fetch_failure_aborts_run net_down (fun _ => true) scraper_42
              (lit "kinopoisk_ratings.csv") RequestException eq_refl)
    as (H1 & H2 & _).
  split; [reflexivity |]. split; [exact H1 | exact H2].
Defined.

Lemma failed_page_is_skipped_witness :
  let r := mk_run [Get (page_url scraper_42 1)] [] in
  net_first_page_fails (length (gets (out r))) (page_url scraper_42 1)
  = inl RequestException
  /\ fetch_ratings_page net_first_page_fails scraper_42 1 (out r)
     = (out r ++ [Get (page_url scraper_42 1)], inr [])
  /\ page_loop net_first_page_fails scraper_42 2 [1; 2] r
     = page_loop net_first_page_fails scraper_42 2 [2]
         (mk_run (out r ++ [Get (page_url scraper_42 1)]) []).
Proof.
  intros r.
  destruct (failed_page_is_skipped net_first_page_fails scraper_42 2 1 [2] r
              RequestException eq_refl) as (H1 & H2 & _).
  split; [reflexivity |]. split; [exact H1 | exact H2].
Defined.

Lemma parse_rating_item_never_raises_witness :
  parse_rating_item (Soup0 := broken_soup) fragment_full
  = inr (record_of (Soup0 := broken_soup) fragment_full)
  /\ record_of (Soup0 := broken_soup) fragment_full !! "nameRus" = Some (lit "Movie Name")
  /\ record_of (Soup0 := broken_soup) fragment_full !! "duration" = Some []
  /\ record_of (Soup0 := broken_soup) fragment_full !! "type" = Some []
  /\ record_of (Soup0 := broken_soup) fragment_full !! "date_rated" = Some [].
Proof.
  destruct (parse_rating_item_never_raises (Soup0 := broken_soup) fragment_full)
    as (Hret & _ & Hpart).
  destruct (Hpart
               [(["num"], extract_num (Soup0 := broken_soup) fragment_full);
                (["nameRus"; "year"], extract_name_rus (Soup0 := broken_soup) fragment_full);
                (["nameEng"], extract_name_eng (Soup0 := broken_soup) fragment_full)]%string
               ["rating"]%string
               (extract_rating (Soup0 := broken_soup) fragment_full)
               [(["duration"], extract_duration (Soup0 := broken_soup) fragment_full);
                (["type"], extract_type (Soup0 := broken_soup) fragment_full);
                (["date_rated"], extract_date (Soup0 := broken_soup) fragment_full)]%string
               RuntimeError record_before_rating record_before_rating)
    as [Hrec Hrest].
  - reflexivity.
  - vm_compute. reflexivity.
  - vm_compute. reflexivity.
  - split; [exact Hret |].
    split; [rewrite Hrec; vm_compute; reflexivity |].
    apply Forall_cons in Hrest as [H1 Hrest]. apply Forall_cons in Hrest as [H2 Hrest].
    apply Forall_cons in Hrest as [H3 _].
    apply Forall_cons in H1 as [H1 _]. apply Forall_cons in H2 as [H2 _].
    apply Forall_cons in H3 as [H3 _].
    rewrite Hrec. split; [exact H1 |]. split; [exact H2 | exact H3].
Defined.

(** ** The title pattern *)

Section TitlePattern.
Context {R : Type}.
Implicit Types (k : @kont R) (pre s : pystr) (caps : list pystr).

Lemma cls_inv p pre s caps k x :
  rmatch (Cls p) pre s caps k = Some x ->
  exists c s', s = c :: s' /\ p c = true /\ k (c :: pre) s' caps = Some x.
Proof.
  simpl. destruct s as [| c s']; [discriminate |].
  destruct (p c) eqn:Hc; [| discriminate]. intros H. exists c, s'. auto.
Qed.

Lemma eol_inv pre s caps k x :
  rmatch Eol pre s caps k = Some x ->
  (s = [] \/ s = [10%N]) /\ k pre s caps = Some x.
Proof.
  simpl. destruct s as [| c [| c' s']]; [auto | | discriminate].
  destruct (N.eqb_spec c 10) as [-> |]; [auto | discriminate].
Qed.

Lemma star_greedy_cons p caps k pre c s :
  p c = true ->
  star_loop true p caps k pre (c :: s)
  = orelse (star_loop true p caps k (c :: pre) s) (k pre (c :: s) caps).
Proof. intros H. simpl. rewrite H. reflexivity. Qed.

Lemma lit_match c pre s caps k :
  rmatch (Lit c) pre (c :: s) caps k = k (c :: pre) s caps.
Proof. simpl. rewrite N.eqb_refl. reflexivity. Qed.

(** A group of four characters of a class captures them. *)
Lemma grp4_match p a b c d pre s caps k :
  p a = true -> p b = true -> p c = true -> p d = true ->
  rmatch (Grp (cats [Cls p; Cls p; Cls p; Cls p])) pre (a :: b :: c :: d :: s) caps k
  = k (d :: c :: b :: a :: pre) s (caps ++ [[a; b; c; d]]).
Proof.
  intros Ha Hb Hc Hd. simpl. rewrite Ha, Hb, Hc, Hd.
  replace (S (S (S (S (length pre)))) - length pre)%nat with 4%nat by lia.
  reflexivity.
Qed.

Lemma grp4_inv p pre s caps k x :
  rmatch (Grp (cats [Cls p; Cls p; Cls p; Cls p])) pre s caps k = Some x ->
  exists a b c d s',
    s = a :: b :: c :: d :: s' /\ forallb p [a; b; c; d] = true
    /\ k (d :: c :: b :: a :: pre) s' (caps ++ [[a; b; c; d]]) = Some x.
Proof.
  intros H.
  destruct s as [| a [| b [| c [| d s']]]]; simpl in H;
    repeat match type of H with
           | (if ?q then _ else _) = _ => destruct q eqn:?; [| discriminate]
           end; try discriminate.
  exists a, b, c, d, s'. split; [reflexivity |].
  split; [simpl; repeat match goal with Hq : p _ = true |- _ => rewrite Hq; clear Hq end;
          reflexivity |].
  replace (S (S (S (S (length pre)))) - length pre)%nat with 4%nat in H by lia.
  exact H.
Qed.

Lemma year_tail_run pre s caps k :
  rmatch re_year_tail pre s caps k
  = star_loop true is_space caps
      (fun pre' s' caps' =>
         rmatch (cats [Lit 40;
                       Grp (cats [Cls is_decimal; Cls is_decimal; Cls is_decimal;
                                  Cls is_decimal]);
                       Lit 41; Eol]) pre' s' caps' k) pre s.
Proof. reflexivity. Qed.

(** What the tail of the title pattern matches. *)
Lemma year_tail_inv pre s caps k x :
  rmatch re_year_tail pre s caps k = Some x ->
  exists ws y tail,
    s = year_suffix ws y ++ tail /\ (tail = [] \/ tail = [10%N])
    /\ forallb is_space ws = true /\ four_digits y
    /\ k (rev (year_suffix ws y) ++ pre) tail (caps ++ [y]) = Some x.
Proof.
  rewrite year_tail_run. intros H.
  apply star_loop_inv in H as (ws & s1 & -> & Hws & H).
  unfold cats in H. rewrite rmatch_cat in H.
  apply lit_inv in H as (s2 & -> & H). rewrite rmatch_cat in H.
  apply grp4_inv in H as (a & b & c & d & s3 & -> & Hy & H).
  rewrite rmatch_cat in H. apply lit_inv in H as (s4 & -> & H).
  apply eol_inv in H as (Htail & H).
  exists ws, [a; b; c; d], s4. split.
  { unfold year_suffix. rewrite <- !app_assoc. reflexivity. }
  split; [exact Htail |]. split; [exact Hws |]. split; [split; [reflexivity | exact Hy] |].
  replace (rev (year_suffix ws [a; b; c; d]) ++ pre)
    with (41%N :: d :: c :: b :: a :: 40%N :: rev ws ++ pre); [exact H |].
  unfold year_suffix. rewrite !rev_app_distr. simpl. rewrite <- ?app_assoc. reflexivity.
Qed.

(** The tail of the title pattern matches white space and a year. *)
Lemma year_tail_match pre ws y caps k x :
  forallb is_space ws = true -> four_digits y ->
  k (rev (year_suffix ws y) ++ pre) [] (caps ++ [y]) = Some x ->
  rmatch re_year_tail pre (year_suffix ws y) caps k = Some x.
Proof.
  intros Hws [Hlen Hy].
  destruct y as [| a [| b [| c [| d [| ? ?]]]]]; try discriminate Hlen.
  simpl in Hy. rewrite !andb_true_iff in Hy. destruct Hy as (Ha & Hb & Hc & Hd & _).
  revert pre. induction ws as [| w ws IH]; intros pre Hk.
  - rewrite year_tail_run. unfold year_suffix. simpl app.
    unfold star_loop. change (is_space 40) with false. cbv iota.
    unfold cats. rewrite rmatch_cat, lit_match, rmatch_cat.
    rewrite (grp4_match is_decimal a b c d) by assumption.
    rewrite rmatch_cat, lit_match. exact Hk.
  - simpl in Hws. apply andb_true_iff in Hws as [Hw Hws].
    rewrite year_tail_run.
    change (year_suffix (w :: ws) [a; b; c; d]) with (w :: year_suffix ws [a; b; c; d]).
    rewrite star_greedy_cons by exact Hw.
    rewrite <- year_tail_run. rewrite (IH Hws (w :: pre)); [reflexivity |].
    replace (rev (year_suffix ws [a; b; c; d]) ++ w :: pre)
      with (rev (year_suffix (w :: ws) [a; b; c; d]) ++ pre); [exact Hk |].
    unfold year_suffix. simpl. rewrite <- app_assoc. reflexivity.
Qed.

(** A lazy star stops where the rest of the pattern matches... *)
Lemma lazy_stop p caps k pre s x :
  k pre s caps = Some x -> star_loop false p caps k pre s = Some x.
Proof.
  intros H. destruct s as [| c s]; simpl; [exact H |].
  destruct (p c); [rewrite H; reflexivity | exact H].
Qed.

(** ... and goes on over the characters of its class where it does not. *)
Lemma lazy_skip p caps k pre w s :
  forallb p w = true ->
  (forall w1 w2, w = w1 ++ w2 -> w2 <> [] -> k (rev w1 ++ pre) (w2 ++ s) caps = None) ->
  star_loop false p caps k pre (w ++ s) = star_loop false p caps k (rev w ++ pre) s.
Proof.
  revert pre. induction w as [| c w IH]; intros pre Hw Hfail; [reflexivity |].
  simpl in Hw. apply andb_true_iff in Hw as [Hc Hw].
  pose proof (Hfail [] (c :: w) eq_refl ltac:(discriminate)) as H0. simpl in H0.
  simpl. rewrite Hc, H0. simpl. rewrite <- app_assoc. simpl. apply IH; [exact Hw |].
  intros w1 w2 -> Hne.
  specialize (Hfail (c :: w1) w2 eq_refl Hne).
  simpl in Hfail. rewrite <- app_assoc in Hfail. exact Hfail.
Qed.
End TitlePattern.

Lemma name_year_run t :
  re_match re_name_year t
  = star_loop false dot []
      (fun pre' s' caps' =>
         rmatch re_year_tail pre' s'
           (caps' ++ [rev (take (length pre' - 0) pre')]) accept) [] t.
Proof. reflexivity. Qed.

(** What the title pattern matches: a name, white space, a 4-digit year in
    parentheses, at the end of the text or before its last line feed. *)
Lemma name_year_inv t m :
  re_match re_name_year t = Some m ->
  exists name ws y tail,
    t = name ++ year_suffix ws y ++ tail /\ (tail = [] \/ tail = [10%N])
    /\ forallb dot name = true /\ forallb is_space ws = true /\ four_digits y
    /\ m = ([name; y], tail).
Proof.
  rewrite name_year_run. intros H.
  apply star_loop_inv in H as (name & s & -> & Hname & H).
  apply year_tail_inv in H as (ws & y & tail & -> & Htail & Hws & Hy & H).
  exists name, ws, y, tail. repeat (split; [assumption || reflexivity |]).
  unfold accept in H. inversion H. f_equal.
  rewrite app_nil_r, Nat.sub_0_r, firstn_all, rev_involutive. reflexivity.
Qed.

(** The title pattern matches a name with no line feed in it that does not
    end in white space, followed by white space and a 4-digit year in
    parentheses; the groups are the name and the year. *)
Lemma name_year_match name ws y :
  forallb dot name = true ->
  (forall c, last name = Some c -> is_space c = false) ->
  forallb is_space ws = true -> four_digits y ->
  re_match re_name_year (name ++ year_suffix ws y) = Some ([name; y], []).
Proof.
  intros Hname Hlast Hws Hy. rewrite name_year_run.
  rewrite lazy_skip; [| exact Hname |].
  - apply lazy_stop. apply year_tail_match; [exact Hws | exact Hy |].
    unfold accept.
    rewrite app_nil_r, Nat.sub_0_r, firstn_all, rev_involutive. reflexivity.
  - intros w1 w2 -> Hne.
    destruct (rmatch re_year_tail _ _ _ accept) as [x |] eqn:H; [| reflexivity].
    exfalso.
    apply year_tail_inv in H as (ws' & y' & tail & Heq & Htail & Hws' & Hy' & _).
    destruct Htail as [-> | ->].
    + rewrite app_nil_r in Heq. unfold year_suffix in Heq.
      rewrite (app_assoc w2) in Heq.
      apply app_inj_2 in Heq as [Heq _];
        [| rewrite !length_app; simpl; destruct Hy as [-> _], Hy' as [-> _]; reflexivity].
      rewrite <- Heq, forallb_app in Hws'. apply andb_true_iff in Hws' as [Hw2 _].
      destruct (proj2 (last_is_Some w2) Hne) as [c Hc].
      assert (Hsp : is_space c = true).
      { rewrite forallb_forall in Hw2. apply Hw2, list_elem_of_In, last_Some_elem_of, Hc. }
      rewrite (Hlast c) in Hsp; [discriminate |].
      rewrite last_app, Hc. reflexivity.
    + apply (f_equal last) in Heq. unfold year_suffix in Heq.
      rewrite !app_assoc, !last_snoc in Heq. discriminate.
Qed.

Lemma record_name_rus_tree (item a : located) :
  select_in item css_name_rus = Some a ->
  match re_match re_name_year (strip (text_of a)) with
  | Some m =>
      record_of item !! "year" = Some (nth 1 (fst m) [])
      /\ record_of item !! "nameRus" = Some (strip (nth 0 (fst m) []))
  | None =>
      record_of item !! "year" = Some []
      /\ record_of item !! "nameRus" = Some (strip (text_of a))
  end.
Proof.
  intros Ha.
  destruct (record_field_nth item 1 _ _ eq_refl) as (d1 & d2 & Hp & Hin & Hout).
  rewrite extract_name_rus_tree, Ha in Hp. simpl in Hp.
  rewrite !Hout by set_solver.
  destruct (re_match re_name_year _) as [m |]; inversion Hp; subst.
  - split; [apply lookup_insert_eq |].
    rewrite lookup_insert_ne by discriminate. apply lookup_insert_eq.
  - split; [| apply lookup_insert_eq].
    rewrite lookup_insert_ne by discriminate. apply Hin. set_solver.
Qed.

(** A title of one line that ends in a parenthesized 4-digit year is split
    into the year and the name without it. *)
Lemma one_line_title_is_split (item a : located) (name ws y : pystr) :
  select_in item css_name_rus = Some a ->
  strip (text_of a) = name ++ year_suffix ws y ->
  forallb dot name = true ->
  (forall c, last name = Some c -> is_space c = false) ->
  forallb is_space ws = true -> four_digits y ->
  record_of item !! "year" = Some y
  /\ record_of item !! "nameRus" = Some (strip name).
Proof.
  intros Ha Ht Hname Hlast Hws Hy.
  pose proof (record_name_rus_tree item a Ha) as H.
  rewrite Ht, (name_year_match name ws y Hname Hlast Hws Hy) in H. exact H.
Qed.

(** A title that does not end in a parenthesized 4-digit year is kept
    whole, with the empty year. *)
Lemma title_without_year_is_kept (item a : located) :
  select_in item css_name_rus = Some a ->
  (forall name ws y tail,
     four_digits y -> strip (text_of a) <> name ++ year_suffix ws y ++ tail) ->
  record_of item !! "year" = Some []
  /\ record_of item !! "nameRus" = Some (strip (text_of a)).
Proof.
  intros Ha Hno. pose proof (record_name_rus_tree item a Ha) as H.
  destruct (re_match re_name_year _) as [m |] eqn:Hm; [| exact H].
  apply name_year_inv in Hm as (name & ws & y & tail & Ht & _ & _ & _ & Hy & _).
  contradiction (Hno name ws y tail Hy Ht).
Qed.

(** ** A title on two lines *)

(** C5 fails on the code: the text "Movie<LF>Name (1999)" of the title
    link ends in a parenthesized 4-digit year, yet the record has the empty
    year and the whole text as [nameRus]; the same title on one line gives
    the year 1999 and the name without it. *)
Theorem two_line_title_is_not_split :
  (text_of <$> select_in fragment_two_line_title css_name_rus) = Some two_line_title
  /\ two_line_title = (lit "Movie" ++ [10%N] ++ lit "Name") ++ lit " (1999)"
  /\ strip two_line_title = two_line_title
  /\ re_match re_name_year two_line_title = None
  /\ parse_rating_item fragment_two_line_title = inr (record_of fragment_two_line_title)
  /\ record_of fragment_two_line_title !! "year" = Some []
  /\ record_of fragment_two_line_title !! "nameRus" = Some two_line_title
  /\ record_of fragment_one_line_title !! "year" = Some (lit "1999")
  /\ record_of fragment_one_line_title !! "nameRus" = Some (lit "Movie Name").
Proof. repeat split; vm_compute; reflexivity. Qed.

(** * Further properties of the run *)

Section RunFacts.
Context {tag : Type} `{!Soup tag}.
Variable net : nat -> pystr -> py tag.
Variable disk_ok : pystr -> bool.

Lemma fetch_ratings_page_run self page log :
  fetch_ratings_page net self page log
  = (log ++ [Get (page_url self page)],
     inr (page_items net self (length (gets log)) page)).
Proof.
  unfold fetch_ratings_page, try_except, page_items.
  rewrite bind_run, http_get_run.
  destruct (net _ _) as [e | soup]; [reflexivity |].
  rewrite bind_run, call_run.
  destruct (tag_find_all soup _ _) as [e | items]; reflexivity.
Qed.

(** The loop over the pages, as a whole. *)
Lemma page_loop_run self total pages r :
  page_loop net self total pages r
  = (mk_run (out r ++ pages_events net self total (length (gets (out r))) pages)
            (all_ratings r ++ pages_records net self (length (gets (out r))) pages),
     inr tt).
Proof.
  revert r. induction pages as [| page rest IH]; intros [log all]; simpl.
  - rewrite !app_nil_r. reflexivity.
  - rewrite bind_run. unfold on_io at 1. simpl out. rewrite fetch_ratings_page_run.
    simpl all_ratings. unfold page_records, pause_after.
    destruct (page_items net self (length (gets log)) page) as [| item items] eqn:Hit.
    + rewrite IH. simpl. rewrite gets_app, length_app, Nat.add_1_r. simpl.
      rewrite <- app_assoc. reflexivity.
    + rewrite bind_run. unfold on_ratings at 1. simpl all_ratings. simpl out.
      rewrite item_loop_spec. rewrite bind_run.
      destruct (page <? total).
      * unfold on_io at 1, sleep, emit. simpl out. simpl all_ratings.
        rewrite IH. simpl out. simpl all_ratings.
        rewrite !gets_app, !length_app. simpl. rewrite Nat.add_0_r, Nat.add_1_r.
        rewrite <- !app_assoc. reflexivity.
      * rewrite ret_run. rewrite IH. simpl out. simpl all_ratings.
        rewrite gets_app, length_app, Nat.add_1_r. simpl.
        rewrite <- !app_assoc. reflexivity.
Qed.
End RunFacts.

Lemma digit_value_nonneg c : 0 <= digit_value c.
Proof. unfold digit_value. destruct (List.find _ _); [apply N2Z.is_nonneg | lia]. Qed.

Lemma int_digits_nonneg s : 0 <= int_digits s.
Proof.
  unfold int_digits. assert (H : forall acc, 0 <= acc ->
    0 <= fold_left (fun acc c => 10 * acc + digit_value c) s acc).
  { induction s as [| c s IH]; intros acc Hacc; simpl; [exact Hacc |].
    apply IH. pose proof (digit_value_nonneg c). lia. }
  apply H. lia.
Qed.

Lemma py_int_nonneg s n : py_int s = inr n -> 0 <= n.
Proof.
  unfold py_int. destruct (truthy _ && forallb _ _ && _); [| discriminate].
  intros H. inversion H. apply int_digits_nonneg.
Qed.

Lemma py_range_upto n : py_range 1 (n + 1) = pages_upto n.
Proof.
  unfold py_range, pages_upto. replace (n + 1 - 1) with n by lia.
  rewrite <- seq_shift, List.map_map. apply List.map_ext. intros i. lia.
Qed.

Section ExportFacts.
Context {tag : Type} `{!Soup tag}.
Variable net : nat -> pystr -> py tag.
Variable disk_ok : pystr -> bool.

Lemma pages_of_indicator_nonneg found pattern (log log' : io) p :
  pages_of_indicator found pattern log = (log', inr (Some p)) -> 0 <= p.
Proof.
  unfold pages_of_indicator. destruct found as [el |]; [| discriminate].
  rewrite bind_run, call_run. destruct (tag_text el) as [e | t]; [discriminate |].
  destruct (re_search pattern t) as [m |]; [| discriminate].
  rewrite bind_run, call_run. destruct (py_int _) as [e | total] eqn:Hi; [discriminate |].
  intros H. inversion H. apply py_int_nonneg in Hi.
  apply Z.div_pos; lia.
Qed.

(** [get_total_pages] makes one request, returns, and what it returns is
    not negative. *)
Lemma get_total_pages_run self log :
  exists n,
    get_total_pages net self log = (log ++ [Get (page_url self 1)], inr n) /\ 0 <= n.
Proof.
  unfold get_total_pages, try_except.
  rewrite bind_run, http_get_run.
  destruct (net _ _) as [e | soup]; [exists 0; split; [reflexivity | lia] |].
  rewrite bind_run, call_run.
  destruct (tag_find soup _ _ _) as [e | found]; [exists 0; split; [reflexivity | lia] |].
  rewrite bind_run.
  destruct (pages_of_indicator_run found re_pages_from_to (log ++ [Get (page_url self 1)]))
    as [x Hx].
  rewrite Hx. destruct x as [e | [pages |]].
  - exists 0. split; [reflexivity | lia].
  - exists pages. split; [reflexivity |]. eapply pages_of_indicator_nonneg, Hx.
  - rewrite bind_run, call_run.
    destruct (tag_find soup _ _ _) as [e | found']; [exists 0; split; [reflexivity | lia] |].
    rewrite bind_run.
    destruct (pages_of_indicator_run found' re_number (log ++ [Get (page_url self 1)]))
      as [x' Hx'].
    rewrite Hx'. destruct x' as [e | [pages |]].
    + exists 0. split; [reflexivity | lia].
    + exists pages. split; [reflexivity |]. eapply pages_of_indicator_nonneg, Hx'.
    + exists 1. split; [reflexivity | lia].
Qed.

Lemma page_records_ok self n page :
  Forall (fun d => dom d = keys /\ named d = true) (page_records net self n page).
Proof.
  unfold page_records. apply List.Forall_forall. intros d Hd.
  apply List.filter_In in Hd as [Hin Hn]. apply List.in_map_iff in Hin as (item & <- & _).
  split; [apply record_of_dom | exact Hn].
Qed.

Lemma pages_records_ok self n pages :
  Forall (fun d => dom d = keys /\ named d = true) (pages_records net self n pages).
Proof.
  revert n. induction pages as [| page rest IH]; intros n; simpl; [constructor |].
  apply Forall_app. split; [apply page_records_ok | apply IH].
Qed.

Lemma csv_rows_ok (l : list dict) :
  Forall (fun d => dom d = keys /\ named d = true) l ->
  csv_rows l = inr (List.map row_of l).
Proof.
  induction 1 as [| d l [Hd _] _ IH]; simpl; [reflexivity |].
  rewrite IH. unfold csv_row. rewrite Hd. unfold keys.
  rewrite bool_decide_eq_true_2 by reflexivity. reflexivity.
Qed.

(** The whole run, from the page count it starts with. *)
Lemma run_export_run self filename n :
  get_total_pages net self [] = ([Get (page_url self 1)], inr n) ->
  run_export net disk_ok self filename
  = if n =? 0 then (mk_run [Get (page_url self 1)] [], inr false)
    else
      let recs := pages_records net self 1 (pages_upto n) in
      (mk_run ([Get (page_url self 1)] ++ pages_events net self n 1 (pages_upto n)
               ++ (if disk_ok filename
                   then [Written filename (List.map lit fieldnames :: List.map row_of recs)]
                   else [Interrupted filename]))
              recs,
       inr (disk_ok filename)).
Proof.
  intros Hc. unfold run_export, export_to_csv.
  rewrite bind_run. unfold on_io at 1. simpl out. rewrite Hc. simpl all_ratings.
  destruct (n =? 0); [reflexivity |].
  rewrite bind_run. unfold on_ratings at 1, put. cbv beta iota. simpl out.
  rewrite bind_run, page_loop_run, py_range_upto. simpl out. simpl all_ratings.
  rewrite bind_run. unfold on_ratings at 1, get. cbv beta iota.
  simpl out. simpl all_ratings.
  unfold on_io, try_except, write_csv. simpl out. simpl all_ratings.
  destruct (disk_ok filename).
  - rewrite (csv_rows_ok _ (pages_records_ok self 1 (pages_upto n))).
    rewrite bind_run. unfold emit. rewrite <- ?app_assoc. reflexivity.
  - rewrite !bind_run. unfold emit, raise. rewrite <- ?app_assoc. reflexivity.
Qed.
End ExportFacts.

Section Trace.
Context {tag : Type} `{!Soup tag}.
Variable net : nat -> pystr -> py tag.
Variable disk_ok : pystr -> bool.

(** Request [i] asks for page [i], request [i+1] for page [i+1], ... *)
Lemma pages_events_seq self total i m :
  pages_events net self total i (List.map Z.of_nat (seq i m))
  = flat_map (fun k => Get (page_url self (Z.of_nat k))
                       :: (if pause_after net self total k (Z.of_nat k) then [Sleep] else []))
      (seq i m).
Proof.
  revert i. induction m as [| m IH]; intros i; simpl; [reflexivity |].
  rewrite IH. reflexivity.
Qed.

Lemma pages_records_seq self i m :
  pages_records net self i (List.map Z.of_nat (seq i m))
  = flat_map (fun k => page_records net self k (Z.of_nat k)) (seq i m).
Proof.
  revert i. induction m as [| m IH]; intros i; simpl; [reflexivity |].
  rewrite IH. reflexivity.
Qed.

Lemma gets_page_events self total (ks : list nat) :
  gets (flat_map (fun k => Get (page_url self (Z.of_nat k))
                           :: (if pause_after net self total k (Z.of_nat k)
                               then [Sleep] else [])) ks)
  = List.map (fun k => Get (page_url self (Z.of_nat k))) ks.
Proof.
  induction ks as [| k ks IH]; simpl; [reflexivity |].
  rewrite gets_app. destruct (pause_after _ _ _ _ _); simpl; rewrite IH; reflexivity.
Qed.

Lemma sleeps_page_events self total (ks : list nat) :
  List.filter is_sleep
    (flat_map (fun k => Get (page_url self (Z.of_nat k))
                        :: (if pause_after net self total k (Z.of_nat k)
                            then [Sleep] else [])) ks)
  = List.map (fun _ => Sleep)
      (List.filter (fun k => pause_after net self total k (Z.of_nat k)) ks).
Proof.
  induction ks as [| k ks IH]; simpl; [reflexivity |].
  rewrite List.filter_app. destruct (pause_after _ _ _ _ _); simpl; rewrite IH; reflexivity.
Qed.

Lemma disk_page_events self total (ks : list nat) :
  List.filter is_disk
    (flat_map (fun k => Get (page_url self (Z.of_nat k))
                        :: (if pause_after net self total k (Z.of_nat k)
                            then [Sleep] else [])) ks)
  = [].
Proof.
  induction ks as [| k ks IH]; simpl; [reflexivity |].
  rewrite List.filter_app. destruct (pause_after _ _ _ _ _); simpl; exact IH.
Qed.

Lemma gets_file_events filename n records :
  gets (file_events disk_ok filename n records) = [].
Proof. unfold file_events. destruct (n =? 0), (disk_ok filename); reflexivity. Qed.

Lemma sleeps_file_events filename n records :
  List.filter is_sleep (file_events disk_ok filename n records) = [].
Proof. unfold file_events. destruct (n =? 0), (disk_ok filename); reflexivity. Qed.

(** The run in terms of the page numbers 1, ..., n. *)
Lemma run_export_trace self filename :
  exists n r,
    0 <= n
    /\ get_total_pages net self [] = ([Get (page_url self 1)], inr n)
    /\ run_export net disk_ok self filename
       = (r, inr (negb (n =? 0) && disk_ok filename))
    /\ out r
       = [Get (page_url self 1)]
         ++ flat_map (fun k => Get (page_url self (Z.of_nat k))
                               :: (if pause_after net self n k (Z.of_nat k)
                                   then [Sleep] else []))
              (seq 1 (Z.to_nat n))
         ++ file_events disk_ok filename n (all_ratings r)
    /\ all_ratings r
       = flat_map (fun k => page_records net self k (Z.of_nat k)) (seq 1 (Z.to_nat n)).
Proof.
  destruct (get_total_pages_run net self []) as (n & Hc & Hn). simpl in Hc.
  pose proof (run_export_run net disk_ok self filename n Hc) as Hrun.
  unfold file_events. destruct (Z.eqb_spec n 0) as [-> | Hne].
  - exists 0. eexists. split; [exact Hn |]. split; [exact Hc |].
    split; [exact Hrun |]. split; reflexivity.
  - cbv zeta in Hrun. exists n. eexists. split; [exact Hn |]. split; [exact Hc |].
    rewrite (proj2 (Z.eqb_neq n 0) Hne). cbn [negb andb].
    split; [exact Hrun |]. cbn [out all_ratings]. unfold pages_upto.
    rewrite pages_events_seq, pages_records_seq. split; reflexivity.
Qed.

(** X2: the requests of a run are the request for the page count and then
    one request for each page 1, ..., n, in this order, n being the count:
    a failed or empty page is neither asked again nor the end of the run,
    and page 1 is asked for twice (the count is read from it). *)
Theorem export_requests_each_page_once (self : KinopoiskScraper) (filename : pystr) :
  exists (n : Z) (r : run) (b : bool),
    get_total_pages net self [] = ([Get (page_url self 1)], inr n)
    /\ run_export net disk_ok self filename = (r, inr b)
    /\ gets (out r)
       = Get (page_url self 1)
         :: List.map (fun k => Get (page_url self (Z.of_nat k))) (seq 1 (Z.to_nat n))
    /\ length (gets (out r)) = S (Z.to_nat n).
Proof.
  destruct (run_export_trace self filename) as (n & r & Hn & Hc & Hrun & Hout & Hall).
  exists n, r. eexists. split; [exact Hc |]. split; [exact Hrun |].
  assert (Hg : gets (out r)
               = Get (page_url self 1)
                 :: List.map (fun k => Get (page_url self (Z.of_nat k)))
                      (seq 1 (Z.to_nat n))).
  { rewrite Hout, !gets_app, gets_page_events, gets_file_events.
    simpl. rewrite app_nil_r. reflexivity. }
  split; [exact Hg |].
  rewrite Hg. simpl. rewrite length_map, length_seq. reflexivity.
Qed.

(** What a page adds is what [extract_from_html] gives on its soup. *)
Lemma page_records_extract self k page :
  page_records net self k page
  = match net k (page_url self page) with
    | inr soup => match extract_from_html soup with inr rs => rs | inl _ => [] end
    | inl _ => []
    end.
Proof.
  unfold page_records, page_items, extract_from_html.
  destruct (net k (page_url self page)) as [e | soup]; [reflexivity |].
  destruct (tag_find_all soup _ _) as [e | items]; [reflexivity |].
  rewrite extract_loop_spec. reflexivity.
Qed.

(** X3: the records of a run are gathered page by page, pages in
    increasing order: each page adds, in order, what [extract_from_html]
    returns on its soup; a page whose request fails, or on whose soup
    [extract_from_html] raises, adds none. *)
Theorem export_gathers_records_in_page_order (self : KinopoiskScraper)
    (filename : pystr) :
  exists (n : Z) (r : run) (b : bool),
    get_total_pages net self [] = ([Get (page_url self 1)], inr n)
    /\ run_export net disk_ok self filename = (r, inr b)
    /\ all_ratings r
       = flat_map (fun k => match net k (page_url self (Z.of_nat k)) with
                            | inr soup =>
                                match extract_from_html soup with
                                | inr records => records
                                | inl _ => []
                                end
                            | inl _ => []
                            end)
           (seq 1 (Z.to_nat n)).
Proof.
  destruct (run_export_trace self filename) as (n & r & Hn & Hc & Hrun & Hout & Hall).
  exists n, r. eexists. split; [exact Hc |]. split; [exact Hrun |].
  rewrite Hall. apply List.flat_map_ext. intros k. apply page_records_extract.
Qed.

(** X4: every record the run gathers has exactly the eight keys and a
    non-empty [nameRus] or [nameEng]. *)
Theorem export_records_are_complete (self : KinopoiskScraper) (filename : pystr) :
  exists (r : run) (b : bool),
    run_export net disk_ok self filename = (r, inr b)
    /\ Forall (fun d => dom d = list_to_set fieldnames
                        /\ (d !! "nameRus" <> Some [] \/ d !! "nameEng" <> Some []))
         (all_ratings r).
Proof.
  destruct (run_export_trace self filename) as (n & r & Hn & Hc & Hrun & Hout & Hall).
  exists r. eexists. split; [exact Hrun |]. rewrite Hall.
  apply List.Forall_forall. intros d Hd.
  apply List.in_flat_map in Hd as (k & _ & Hd).
  unfold page_records in Hd.
  apply List.filter_In in Hd as [Hin Hnamed].
  apply List.in_map_iff in Hin as (item & <- & _).
  split; [apply record_of_dom |].
  destruct (record_of item !! "nameRus") as [[| c a] |] eqn:Ha;
    [| left; discriminate | left; discriminate].
  right. intros Hb. pose proof (proj2 (named_iff item) (conj Ha Hb)) as Hf.
  rewrite Hf in Hnamed. discriminate.
Qed.
End Trace.

Section Outside.
Context {tag : Type} `{!Soup tag}.
Variable net : nat -> pystr -> py tag.
Variable disk_ok : pystr -> bool.

Lemma filter_last_false (P : nat -> bool) (m : nat) :
  P m = false -> (length (List.filter P (seq 1 m)) <= m - 1)%nat.
Proof.
  destruct m as [| m]; [simpl; lia |]. intros Hm.
  rewrite seq_S, List.filter_app. simpl. rewrite Hm. simpl. rewrite app_nil_r.
  pose proof (List.filter_length_le P (seq 1 m)) as Hle. rewrite length_seq in Hle. lia.
Qed.

(** The pause after a page, spelt out. *)
Lemma pause_events self n k :
  (if pause_after net self n k (Z.of_nat k) then [Sleep] else [])
  = match page_items net self k (Z.of_nat k) with
    | [] => []
    | _ :: _ => if Z.of_nat k <? n then [Sleep] else []
    end.
Proof. unfold pause_after. destruct (page_items _ _ _ _); reflexivity. Qed.

(** X5: what the run does outside is the request for the count and then,
    page by page, the request for the page followed by one pause when the
    page gave fragments and is not the last page; what comes after the
    pages holds no pause.  So no pause follows a failed or empty page or
    the last page, each pause stands right after the request of its page,
    and a run of n pages pauses at most n - 1 times. *)
Theorem export_pauses_between_pages (self : KinopoiskScraper) (filename : pystr) :
  exists (n : Z) (r : run) (b : bool) (rest : list event),
    get_total_pages net self [] = ([Get (page_url self 1)], inr n)
    /\ run_export net disk_ok self filename = (r, inr b)
    /\ out r
       = Get (page_url self 1)
         :: flat_map (fun k => Get (page_url self (Z.of_nat k))
                               :: match page_items net self k (Z.of_nat k) with
                                  | [] => []
                                  | _ :: _ => if Z.of_nat k <? n then [Sleep] else []
                                  end)
              (seq 1 (Z.to_nat n))
         ++ rest
    /\ List.filter is_sleep rest = []
    /\ gets rest = []
    /\ (length (List.filter is_sleep (out r)) <= Z.to_nat n - 1)%nat.
Proof.
  destruct (run_export_trace net disk_ok self filename)
    as (n & r & Hn & Hc & Hrun & Hout & Hall).
  exists n, r. eexists. exists (file_events disk_ok filename n (all_ratings r)).
  split; [exact Hc |]. split; [exact Hrun |]. split.
  { rewrite Hout. cbn [app]. f_equal. f_equal.
    apply List.flat_map_ext. intros k. f_equal. apply pause_events. }
  split; [apply sleeps_file_events |]. split; [apply gets_file_events |].
  rewrite Hout, !List.filter_app, sleeps_page_events, sleeps_file_events.
  simpl. rewrite app_nil_r, length_map.
  apply filter_last_false. unfold pause_after.
  destruct (page_items _ _ _ _); [reflexivity |].
  apply Z.ltb_ge. lia.
Qed.

(** X6: a run that returns [True] ends by writing the whole file and
    touches the file nowhere before: the header row of the eight column
    names and then one row of eight values for each record gathered, in
    order.  A run that returns [False] has written no whole file: when its
    page count is 0 it has not touched the file; otherwise it ends with an
    interrupted write, which may leave the file created or truncated. *)
Theorem export_writes_header_and_rows (self : KinopoiskScraper) (filename : pystr) :
  exists (n : Z) (r : run) (b : bool),
    get_total_pages net self [] = ([Get (page_url self 1)], inr n)
    /\ run_export net disk_ok self filename = (r, inr b)
    /\ (if b
        then exists log,
               out r = log ++ [Written filename
                                 (List.map lit fieldnames
                                  :: List.map row_of (all_ratings r))]
               /\ List.filter is_disk log = []
        else if n =? 0
             then List.filter is_disk (out r) = []
             else exists log,
                    out r = log ++ [Interrupted filename]
                    /\ List.filter is_disk log = [])
    /\ Forall (fun row => length row = 8%nat) (List.map row_of (all_ratings r)).
Proof.
  destruct (run_export_trace net disk_ok self filename)
    as (n & r & Hn & Hc & Hrun & Hout & Hall).
  exists n, r. eexists. split; [exact Hc |]. split; [exact Hrun |]. split.
  - rewrite Hout. unfold file_events.
    destruct (n =? 0); cbn [negb andb].
    + rewrite app_nil_r, List.filter_app, disk_page_events. reflexivity.
    + destruct (disk_ok filename); eexists; rewrite app_assoc;
        (split; [reflexivity |]);
        rewrite List.filter_app, disk_page_events; reflexivity.
  - apply List.Forall_forall. intros row Hrow.
    apply List.in_map_iff in Hrow as (d & <- & _). reflexivity.
Qed.
End Outside.

(** * Further properties of the fields *)

(** ** White space around a text *)

Lemma lstrip_split s : exists w, s = w ++ lstrip s /\ forallb is_space w = true.
Proof.
  induction s as [| c s (w & Hs & Hw)]; [exists []; split; reflexivity |].
  simpl. destruct (is_space c) eqn:Hc.
  - exists (c :: w). simpl. rewrite Hc, Hw, <- Hs. split; reflexivity.
  - exists []. split; reflexivity.
Qed.

Lemma lstrip_head s c : hd_error (lstrip s) = Some c -> is_space c = false.
Proof.
  induction s as [| a s IH]; simpl; [discriminate |].
  destruct (is_space a) eqn:Ha; [exact IH |].
  simpl. intros H. inversion H; subst. exact Ha.
Qed.

Lemma last_rev (l : pystr) : last (rev l) = hd_error l.
Proof. destruct l as [| a l]; [reflexivity |]. simpl. apply last_snoc. Qed.

Lemma rstrip_last s c : last (rstrip s) = Some c -> is_space c = false.
Proof. unfold rstrip. rewrite last_rev. apply lstrip_head. Qed.

Lemma rstrip_split s : exists w, s = rstrip s ++ w /\ forallb is_space w = true.
Proof.
  destruct (lstrip_split (rev s)) as (w & Hs & Hw). exists (rev w). split.
  - unfold rstrip. rewrite <- rev_app_distr, <- Hs. symmetry. apply rev_involutive.
  - apply forallb_forall. intros c Hc. rewrite forallb_forall in Hw.
    apply Hw, in_rev, Hc.
Qed.

Lemma strip_trimmed s : trimmed (strip s).
Proof.
  split; intros c Hc.
  - unfold strip in Hc. destruct (rstrip_split (lstrip s)) as (w & Hs & _).
    apply (lstrip_head s c). rewrite Hs.
    destruct (rstrip (lstrip s)); [discriminate | exact Hc].
  - exact (rstrip_last _ _ Hc).
Qed.

Lemma trimmed_nil : trimmed [].
Proof. split; intros c Hc; discriminate. Qed.

Lemma strip_id s : trimmed s -> strip s = s.
Proof.
  intros [Hh Hl]. unfold strip.
  assert (Hs : lstrip s = s).
  { destruct s as [| c s]; [reflexivity |]. apply lstrip_id, Hh. reflexivity. }
  rewrite Hs. unfold rstrip. destruct (rev s) as [| c r] eqn:Hr.
  - apply (f_equal (@rev N)) in Hr. rewrite rev_involutive in Hr. subst. reflexivity.
  - rewrite lstrip_id, <- Hr; [apply rev_involutive |].
    apply Hl. rewrite <- (rev_involutive s), Hr. simpl. apply last_snoc.
Qed.

Lemma strip_spaces s : forallb is_space s = true -> strip s = [].
Proof.
  intros H. unfold strip.
  assert (Hs : lstrip s = []).
  { induction s as [| c s IH]; [reflexivity |].
    simpl in *. apply andb_true_iff in H as [Hc H]. rewrite Hc. apply IH, H. }
  rewrite Hs. reflexivity.
Qed.

(** The trimmed text is the text without the white space at its ends. *)
Lemma strip_split s :
  exists w1 w2, s = w1 ++ strip s ++ w2
                /\ forallb is_space w1 = true /\ forallb is_space w2 = true.
Proof.
  destruct (lstrip_split s) as (w1 & Hs & Hw1).
  destruct (rstrip_split (lstrip s)) as (w2 & Hs2 & Hw2).
  exists w1, w2. unfold strip. rewrite <- Hs2. auto.
Qed.

(** A string whose first character is no white space loses none at the
    right end only. *)
Lemma strip_prefix_trimmed name rest :
  trimmed (name ++ rest) -> name <> [] ->
  exists w, name = strip name ++ w /\ forallb is_space w = true.
Proof.
  intros [Hh _] Hne. destruct name as [| c name]; [contradiction |].
  unfold strip. rewrite lstrip_id by (apply Hh; reflexivity).
  apply rstrip_split.
Qed.

(** ** The text fields of the record *)

Lemma record_num_tree (item : located) :
  record_of item !! "num"
  = Some match find_in item (lit "div") (Some (lit "num")) with
         | Some el => strip (text_of el)
         | None => []
         end.
Proof.
  destruct (record_field_nth item 0 _ _ eq_refl) as (d1 & d2 & Hp & Hin & Hout).
  rewrite Hout by set_solver. rewrite extract_num_tree in Hp. inversion Hp as [Hd2].
  destruct (find_in item _ _) as [el |]; [apply lookup_insert_eq | apply Hin; set_solver].
Qed.

Lemma not_placeholder s : pystr_eqb (strip s) [160%N] = false.
Proof.
  unfold pystr_eqb. apply bool_decide_eq_false_2. intros Heq.
  destruct (strip_trimmed s) as [Hh _]. rewrite Heq in Hh.
  specialize (Hh 160%N eq_refl). vm_compute in Hh. discriminate.
Qed.

Lemma record_name_eng_tree (item : located) :
  record_of item !! "nameEng"
  = Some match find_in item (lit "div") (Some (lit "nameEng")) with
         | Some el => strip (text_of el)
         | None => []
         end.
Proof.
  destruct (record_field_nth item 2 _ _ eq_refl) as (d1 & d2 & Hp & Hin & Hout).
  rewrite Hout by set_solver. rewrite extract_name_eng_tree in Hp.
  destruct (find_in item _ _) as [el |].
  - cbv zeta in Hp. rewrite not_placeholder in Hp. inversion Hp. apply lookup_insert_eq.
  - inversion Hp; subst. apply Hin. set_solver.
Qed.

(** What the title link gives: the name, and the year with the white
    space before it. *)
Lemma title_parts (t : pystr) (m : rx_match) :
  trimmed t -> re_match re_name_year t = Some m ->
  exists ws,
    forallb is_space ws = true /\ four_digits (nth 1 (fst m) [])
    /\ t = strip (nth 0 (fst m) []) ++ year_suffix ws (nth 1 (fst m) [])
    /\ forallb dot (strip (nth 0 (fst m) [])) = true.
Proof.
  intros Ht Hm.
  apply name_year_inv in Hm as (name & ws & y & tail & Heq & Htail & Hname & Hws & Hy & ->).
  simpl.
  assert (Hnil : tail = []).
  { destruct Htail as [-> | ->]; [reflexivity |]. exfalso.
    destruct Ht as [_ Hl]. specialize (Hl 10%N).
    rewrite Heq in Hl. unfold year_suffix in Hl. rewrite !app_assoc, last_snoc in Hl.
    specialize (Hl eq_refl). vm_compute in Hl. discriminate. }
  subst tail. rewrite app_nil_r in Heq.
  destruct name as [| c name].
  - exists ws. split; [exact Hws |]. split; [exact Hy |]. split; [exact Heq | reflexivity].
  - rewrite Heq in Ht.
    destruct (strip_prefix_trimmed (c :: name) _ Ht ltac:(discriminate)) as (w & Hw & Hsp).
    exists (w ++ ws). split; [rewrite forallb_app, Hsp, Hws; reflexivity |].
    split; [exact Hy |]. split.
    + rewrite Heq. rewrite Hw at 1. unfold year_suffix. rewrite <- !app_assoc. reflexivity.
    + rewrite Hw, forallb_app in Hname. apply andb_true_iff in Hname as [H _]. exact H.
Qed.

(** X7: the English name of the record is the text of the [div.nameEng]
    without the white space around it.  A no-break space is white space, so
    the placeholder text of a fragment with no English name is trimmed to
    the empty string, and the name is never the no-break space itself. *)
Theorem name_eng_is_trimmed_text (item el : located) :
  find_in item (lit "div") (Some (lit "nameEng")) = Some el ->
  record_of item !! "nameEng" = Some (strip (text_of el))
  /\ record_of item !! "nameEng" <> Some [160%N]
  /\ (forallb is_space (text_of el) = true -> record_of item !! "nameEng" = Some []).
Proof.
  intros Hel. pose proof (record_name_eng_tree item) as H. rewrite Hel in H.
  split; [exact H |]. split.
  - rewrite H. intros Heq. inversion Heq as [Hs].
    pose proof (not_placeholder (text_of el)) as Hn.
    unfold pystr_eqb in Hn. rewrite Hs in Hn. vm_compute in Hn. discriminate.
  - intros Hsp. rewrite H, (strip_spaces _ Hsp). reflexivity.
Qed.

Lemma name_eng_is_trimmed_text_witness :
  exists el,
    find_in fragment_placeholder_name (lit "div") (Some (lit "nameEng")) = Some el
    /\ text_of el = [160%N]
    /\ record_of fragment_placeholder_name !! "nameEng" = Some [].
Proof.
  eexists. split; [vm_compute; reflexivity |]. split; [vm_compute; reflexivity |].
  destruct (name_eng_is_trimmed_text fragment_placeholder_name _ eq_refl) as (_ & _ & H).
  apply H. vm_compute. reflexivity.
Defined.

(** X8: the number, the Russian name and the English name of a record have
    no white space at either end, whatever the fragment. *)
Theorem text_fields_are_trimmed (item : located) :
  exists num name_rus name_eng,
    record_of item !! "num" = Some num
    /\ record_of item !! "nameRus" = Some name_rus
    /\ record_of item !! "nameEng" = Some name_eng
    /\ trimmed num /\ trimmed name_rus /\ trimmed name_eng.
Proof.
  assert (Hrus : exists name_rus,
             record_of item !! "nameRus" = Some name_rus /\ trimmed name_rus).
  { destruct (select_in item css_name_rus) as [a |] eqn:Ha.
    - pose proof (record_name_rus_tree item a Ha) as H.
      destruct (re_match re_name_year _) as [m |]; destruct H as [_ H];
        eexists; (split; [exact H | apply strip_trimmed]).
    - destruct (record_defaults_tree item) as (_ & H & _).
      destruct (H Ha) as [Hr _]. exists []. split; [exact Hr | apply trimmed_nil]. }
  destruct Hrus as (name_rus & Hr & Htr).
  eexists. exists name_rus. eexists.
  split; [apply record_num_tree |]. split; [exact Hr |].
  split; [apply record_name_eng_tree |].
  split; [| split; [exact Htr |]].
  - destruct (find_in item _ (Some (lit "num"))); [apply strip_trimmed | apply trimmed_nil].
  - destruct (find_in item _ (Some (lit "nameEng")));
      [apply strip_trimmed | apply trimmed_nil].
Qed.

(** X9: nothing of the title is lost.  The year of a record is the empty
    string or four decimal digits.  When it is empty the Russian name is
    the whole trimmed text of the title link; when it is not, the trimmed
    text is the Russian name, white space and the year in parentheses, and
    the name has no line feed in it. *)
Theorem title_is_name_then_year (item a : located) :
  select_in item css_name_rus = Some a ->
  exists name y,
    record_of item !! "nameRus" = Some name
    /\ record_of item !! "year" = Some y
    /\ ((y = [] /\ strip (text_of a) = name)
        \/ (four_digits y /\ forallb dot name = true
            /\ exists ws, forallb is_space ws = true
                          /\ strip (text_of a) = name ++ year_suffix ws y)).
Proof.
  intros Ha. pose proof (record_name_rus_tree item a Ha) as H.
  destruct (re_match re_name_year (strip (text_of a))) as [m |] eqn:Hm.
  - destruct H as [Hy Hn].
    destruct (title_parts _ m (strip_trimmed _) Hm) as (ws & Hws & Hfour & Heq & Hdot).
    eexists. eexists. split; [exact Hn |]. split; [exact Hy |].
    right. split; [exact Hfour |]. split; [exact Hdot |].
    exists ws. split; [exact Hws | exact Heq].
  - destruct H as [Hy Hn].
    eexists. eexists. split; [exact Hn |]. split; [exact Hy |].
    left. split; reflexivity.
Qed.

Lemma title_is_name_then_year_witness :
  exists a name y,
    select_in fragment_full css_name_rus = Some a
    /\ record_of fragment_full !! "nameRus" = Some name
    /\ record_of fragment_full !! "year" = Some y
    /\ ((y = [] /\ strip (text_of a) = name)
        \/ (four_digits y /\ forallb dot name = true
            /\ exists ws, forallb is_space ws = true
                          /\ strip (text_of a) = name ++ year_suffix ws y)).
Proof.
  eexists.
  destruct (title_is_name_then_year fragment_full _ eq_refl) as (name & y & H).
  exists name, y. split; [vm_compute; reflexivity | exact H].
Defined.

(** X10: a title that is a name with no line feed in it, white space and
    a 4-digit year in parentheses is always split: the year of the record
    is that year and its Russian name is the name without the white space
    around it. *)
Theorem title_with_year_is_split (item a : located) (name ws y : pystr) :
  select_in item css_name_rus = Some a ->
  strip (text_of a) = name ++ year_suffix ws y ->
  forallb dot name = true ->
  forallb is_space ws = true ->
  four_digits y ->
  record_of item !! "year" = Some y
  /\ record_of item !! "nameRus" = Some (strip name).
Proof.
  intros Ha Ht Hname Hws Hy.
  destruct name as [| c name].
  { apply (one_line_title_is_split item a [] ws y Ha Ht Hname); [| exact Hws | exact Hy].
    intros c Hc. discriminate. }
  pose proof (strip_trimmed (text_of a)) as Htr. rewrite Ht in Htr.
  destruct (strip_prefix_trimmed (c :: name) _ Htr ltac:(discriminate)) as (w & Hw & Hsp).
  rewrite <- (strip_id (strip (c :: name)) (strip_trimmed _)).
  apply (one_line_title_is_split item a (strip (c :: name)) (w ++ ws) y Ha).
  - rewrite Ht. rewrite Hw at 1. unfold year_suffix. rewrite <- !app_assoc. reflexivity.
  - rewrite Hw, forallb_app in Hname. apply andb_true_iff in Hname as [H _]. exact H.
  - apply strip_trimmed.
  - rewrite forallb_app, Hsp, Hws. reflexivity.
  - exact Hy.
Qed.

Lemma title_with_year_is_split_witness :
  record_of fragment_one_line_title !! "year" = Some (lit "1999")
  /\ record_of fragment_one_line_title !! "nameRus" = Some (strip (lit "Movie Name")).
Proof.
  eapply (title_with_year_is_split fragment_one_line_title _
            (lit "Movie Name") (lit " ") (lit "1999")).
  - vm_compute. reflexivity.
  - vm_compute. reflexivity.
  - vm_compute. reflexivity.
  - vm_compute. reflexivity.
  - split; vm_compute; reflexivity.
Defined.

(** ** Runs of digits *)

Section GreedyFacts.
Context {R : Type}.
Implicit Types (k : @kont R) (pre s : pystr) (caps : list pystr).

Lemma rmatch_star greedy p pre s caps k :
  rmatch (Star greedy p) pre s caps k = star_loop greedy p caps k pre s.
Proof. reflexivity. Qed.

(** Before a continuation that never fails, a greedy star takes the whole
    run of its class. *)
Lemma star_greedy_total p caps k pre s :
  (forall pre' s' caps', is_Some (k pre' s' caps')) ->
  star_loop true p caps k pre s
  = k (rev (run_of p s) ++ pre) (drop (length (run_of p s)) s) caps.
Proof.
  intros Hk. revert pre. induction s as [| c s IH]; intros pre; simpl; [reflexivity |].
  destruct (p c); [| reflexivity].
  rewrite IH. simpl. rewrite <- app_assoc. simpl.
  destruct (Hk (rev (run_of p s) ++ c :: pre) (drop (length (run_of p s)) s) caps)
    as [x Hx].
  rewrite Hx. reflexivity.
Qed.

Lemma lits_inv w pre s caps k x :
  rmatch (lits w) pre s caps k = Some x ->
  exists s', s = w ++ s' /\ k (rev w ++ pre) s' caps = Some x.
Proof.
  revert pre s. induction w as [| c w IH]; intros pre s H.
  - exists s. split; [reflexivity | exact H].
  - destruct w as [| c2 w].
    + apply lit_inv in H as (s' & -> & H). exists s'. split; [reflexivity | exact H].
    + change (lits (c :: c2 :: w)) with (Cat (Lit c) (lits (c2 :: w))) in H.
      rewrite rmatch_cat in H. apply lit_inv in H as (s1 & -> & H).
      apply IH in H as (s' & -> & H). exists s'. split; [reflexivity |].
      simpl in *. rewrite <- !app_assoc in *. exact H.
Qed.
End GreedyFacts.

Lemma run_of_all p s : forallb p (run_of p s) = true.
Proof.
  induction s as [| c s IH]; simpl; [reflexivity |].
  destruct (p c) eqn:Hc; [simpl; rewrite Hc; exact IH | reflexivity].
Qed.

(** The pattern [(\d+)] at one position. *)
Lemma re_number_at pre s :
  rmatch re_number pre s [] accept
  = match s with
    | c :: _ =>
        if is_decimal c
        then Some ([run_of is_decimal s], drop (length (run_of is_decimal s)) s)
        else None
    | [] => None
    end.
Proof.
  unfold re_number, plus. destruct s as [| c s]; [reflexivity |].
  simpl rmatch. destruct (is_decimal c) eqn:Hc; [| reflexivity].
  rewrite star_greedy_total by (intros; eexists; reflexivity).
  unfold accept. cbn [run_of]. rewrite Hc. cbn [length drop app].
  f_equal. f_equal. f_equal.
  replace (rev (run_of is_decimal s) ++ c :: pre)
    with (rev (c :: run_of is_decimal s) ++ pre)
    by (simpl; rewrite <- app_assoc; reflexivity).
  rewrite length_app, Nat.add_sub, take_app_length. apply rev_involutive.
Qed.

(** [re.search] of [(\d+)] finds the first run of digits of the text. *)
Lemma re_number_search pre s :
  group1 <$> search_from re_number pre s = first_digits s.
Proof.
  revert pre. induction s as [| c s IH]; intros pre.
  - reflexivity.
  - cbn [search_from first_digits]. rewrite re_number_at.
    destruct (is_decimal c); [reflexivity | apply IH].
Qed.

Lemma first_digits_digits s g : first_digits s = Some g -> digits g.
Proof.
  induction s as [| c s IH]; simpl; [discriminate |].
  destruct (is_decimal c) eqn:Hc; [| exact IH].
  intros H. inversion H. split; [discriminate |].
  simpl. rewrite Hc. apply run_of_all.
Qed.

Lemma first_digits_some w c t :
  is_decimal c = true -> is_Some (first_digits (w ++ c :: t)).
Proof.
  intros Hc. induction w as [| a w IH]; simpl.
  - rewrite Hc. eexists; reflexivity.
  - destruct (is_decimal a); [eexists; reflexivity | exact IH].
Qed.

(** A match found by [re.search] starts somewhere in the text. *)
Lemma search_from_suffix r pre s m :
  search_from r pre s = Some m ->
  exists w s', s = w ++ s' /\ rmatch r (rev w ++ pre) s' [] accept = Some m.
Proof.
  revert pre. induction s as [| c s IH]; intros pre; simpl.
  - destruct (rmatch r pre [] [] accept) eqn:H; [| discriminate].
    intros Hm. inversion Hm; subst. exists [], []. split; [reflexivity | exact H].
  - destruct (rmatch r pre (c :: s) [] accept) eqn:H.
    + intros Hm. inversion Hm; subst. exists [], (c :: s). split; [reflexivity | exact H].
    + intros Hm. apply IH in Hm as (w & s' & -> & Hm).
      exists (c :: w), s'. split; [reflexivity |].
      simpl. rewrite <- app_assoc. exact Hm.
Qed.

(** A text in which the pattern of a duration is found has a digit. *)
Lemma re_duration_digit s m :
  re_search re_duration s = Some m -> is_Some (first_digits s).
Proof.
  intros H. apply search_from_suffix in H as (w & s' & -> & H).
  unfold re_duration, cats, plus in H. rewrite !rmatch_cat in H.
  apply cls_inv in H as (c & s1 & -> & Hc & _).
  apply first_digits_some, Hc.
Qed.

(** The strings below a tag that has a [.string] are that one string: the
    text of the tag is the string, or empty when the string is of a class
    the tag is not interested in. *)
Lemma string_or_no_text_below (types : string_class -> bool) :
  forall (n : node) (anc : list head) (s : pystr),
    node_string n = Some s ->
    concat (List.map (own_string types) (descendants anc n)) = s
    \/ concat (List.map (own_string types) (descendants anc n)) = [].
Proof.
  fix IH 1. intros [s0 | s0 | s0 | nm c a kids] anc s.
  - clear IH. right. reflexivity.
  - clear IH. right. reflexivity.
  - clear IH. right. reflexivity.
  - destruct kids as [| k [| k' ks]].
    + clear IH. discriminate.
    + intros H. change (node_string k = Some s) in H.
      pose proof (IH k (mk_head nm c a :: anc) s H) as IHk. clear IH.
      cbn [descendants]. rewrite app_nil_r. cbn [List.map concat].
      destruct k as [s0 | s0 | s0 | nm' c' a' kids'].
      * injection H as ->. cbn.
        destruct (types _); [left; apply app_nil_r | right; reflexivity].
      * injection H as ->. cbn.
        destruct (types _); [left; apply app_nil_r | right; reflexivity].
      * injection H as ->. cbn.
        destruct (types _); [left; apply app_nil_r | right; reflexivity].
      * exact IHk.
    + clear IH. discriminate.
Qed.

Lemma string_or_no_text (t : located) (s : pystr) :
  node_string (l_node t) = Some s -> text_of t = s \/ text_of t = [] \/ l_node t = Text s
  \/ l_node t = CData s \/ l_node t = Comment s.
Proof.
  intros H. unfold text_of, node_text, below.
  destruct (l_node t) as [s0 | s0 | s0 | nm c a kids] eqn:Hn.
  - left. inversion H. reflexivity.
  - left. inversion H. reflexivity.
  - left. inversion H. reflexivity.
  - destruct (string_or_no_text_below (interesting_string_types nm) _ (l_ancestors t) s H)
      as [Hs | Hs]; rewrite Hs; auto.
Qed.

Lemma extract_duration_run (item : located) (d : dict) :
  extract_duration item d
  = (match duration_span item with
     | Some sp =>
         match first_digits (text_of sp) with
         | Some g => <["duration" := g]> d
         | None => d
         end
     | None => d
     end, inr tt).
Proof.
  unfold extract_duration, duration_span. run_tree.
  destruct (find_in item _ _) as [rd |]; [| reflexivity].
  rewrite bind_run, call_run, tree_find_re. cbv beta iota.
  destruct (List.find _ _) as [sp |]; [| reflexivity].
  run_tree. rewrite <- (re_number_search [] (text_of sp)). unfold re_search.
  destruct (search_from re_number [] (text_of sp)) as [m |]; run_tree; reflexivity.
Qed.

Lemma record_duration_tree (item : located) :
  record_of item !! "duration"
  = Some match duration_span item with
         | Some sp => default [] (first_digits (text_of sp))
         | None => []
         end.
Proof.
  destruct (record_field_nth item 4 _ _ eq_refl) as (d1 & d2 & Hp & Hin & Hout).
  rewrite Hout by set_solver. rewrite extract_duration_run in Hp. inversion Hp as [Hd2].
  destruct (duration_span item) as [sp |]; [| apply Hin; set_solver].
  destruct (first_digits (text_of sp)); [apply lookup_insert_eq | apply Hin; set_solver].
Qed.

(** The duration element has a digit in its text, or no text. *)
Lemma duration_span_digits (item sp : located) :
  duration_span item = Some sp ->
  is_Some (first_digits (text_of sp)) \/ text_of sp = [].
Proof.
  unfold duration_span. destruct (find_in item _ _) as [rd |]; [| discriminate].
  intros H. apply List.find_some in H as [_ H].
  unfold find_filter in H.
  destruct (l_node sp) as [t | t | t | nm c a kids] eqn:Hn; try discriminate.
  apply andb_true_iff in H as [_ H]. unfold string_matches in H.
  destruct (node_string (Elem nm c a kids)) as [s |] eqn:Hs; [| discriminate].
  apply bool_decide_eq_true_1 in H as [m Hm].
  rewrite <- Hn in Hs.
  destruct (string_or_no_text sp s Hs) as [Ht | [Ht | [Ht | [Ht | Ht]]]];
    try (rewrite Hn in Ht; discriminate).
  - left. rewrite Ht. apply (re_duration_digit s m Hm).
  - right. exact Ht.
Qed.

(** X11: the duration of a record is the first run of decimal digits in
    the text of the duration element (the first [span.text-grey] of the
    rating section whose string holds digits followed by the minutes
    mark), and the empty string when the fragment has no such element.
    The string that made the element match is its whole text, unless it is
    hidden from the text (a string inside a nested script or style, or a
    comment): the duration read from a duration element is a non-empty run
    of digits, or the text of the element is empty. *)
Theorem duration_is_first_digit_run (item : located) :
  exists v,
    record_of item !! "duration" = Some v
    /\ match duration_span item with
       | Some sp =>
           v = default [] (first_digits (text_of sp))
           /\ (digits v \/ text_of sp = [])
       | None => v = []
       end.
Proof.
  eexists. split; [apply record_duration_tree |].
  destruct (duration_span item) as [sp |] eqn:Hsp; [| reflexivity].
  split; [reflexivity |].
  destruct (duration_span_digits item sp Hsp) as [[g Hg] | Ht]; [| right; exact Ht].
  left. rewrite Hg. apply (first_digits_digits _ _ Hg).
Qed.

(** Strings inside a nested [script], and comments, are no part of the
    text the fields are read from: the fragment whose title link holds
    "Movie " and a script "(1999)", whose English name holds "Name" and a
    script, whose vote display holds a script only, whose duration element
    holds its string in a script, and whose date holds a script and a
    comment after "15.03.2021, 14:30". *)
Example nested_scripts_are_no_text :
  record_of fragment_nested_scripts !! "nameRus" = Some (lit "Movie")
  /\ record_of fragment_nested_scripts !! "year" = Some []
  /\ record_of fragment_nested_scripts !! "nameEng" = Some (lit "Name")
  /\ record_of fragment_nested_scripts !! "rating" = Some (lit "3")
  /\ (is_Some (duration_span fragment_nested_scripts)
      /\ record_of fragment_nested_scripts !! "duration" = Some [])
  /\ record_of fragment_nested_scripts !! "date_rated" = Some (lit "2021-03-15").
Proof.
  repeat split; try (vm_compute; reflexivity).
  vm_compute. eexists. reflexivity.
Qed.

(** ** The rating of a script payload *)

Lemma re_rating_group t m : re_search re_rating t = Some m -> digits (group1 m).
Proof.
  intros H. apply search_from_inv in H as (pre & s & H).
  unfold re_rating, cats in H. rewrite rmatch_cat in H.
  apply lits_inv in H as (s1 & _ & H).
  rewrite rmatch_cat, rmatch_star in H.
  apply star_loop_inv in H as (w0 & s2 & _ & _ & H).
  rewrite rmatch_cat in H. apply lit_inv in H as (s3 & _ & H).
  rewrite rmatch_cat in H.
  apply grp_plus_inv in H as (w & s4 & Hne & _ & Hw & H).
  apply lit_inv in H as (s5 & _ & H).
  inversion H; subst. split; assumption.
Qed.

Lemma first_some_elem {A B} (f : A -> option B) (l : list A) (y : B) :
  first_some f l = Some y -> exists x, In x l /\ f x = Some y.
Proof.
  induction l as [| a l IH]; simpl; [discriminate |].
  destruct (f a) as [b |] eqn:Hb.
  - intros H. inversion H; subst. exists a. auto.
  - intros H. destruct (IH H) as (x & Hx & Hf). exists x. auto.
Qed.

Lemma script_payload_digits (item : located) (v : pystr) :
  script_payload item = Some v -> digits v.
Proof.
  intros H. apply first_some_elem in H as (script & _ & H).
  unfold payload_rating in H.
  destruct (node_string (l_node script)) as [s |]; [| discriminate].
  destruct (truthy s && contains (lit "rating:") s); [| discriminate].
  destruct (re_search re_rating s) as [m |] eqn:Hm; [| discriminate].
  inversion H. apply (re_rating_group s m Hm).
Qed.

(** X12: in a fragment with a vote widget that shows no vote, the rating
    of the record is that of the first script payload matching
    [rating: '<digits>'], whatever the [vote] attribute holds, and it is a
    non-empty run of decimal digits. *)
Theorem script_rating_is_digits (item w : located) (v : pystr) :
  vote_widget_of item = Some w ->
  default [] (vote_display item) = [] ->
  script_payload item = Some v ->
  record_of item !! "rating" = Some v /\ digits v.
Proof.
  intros Hw Hd Hs. pose proof (script_payload_digits item v Hs) as Hv.
  split; [| exact Hv].
  rewrite record_rating_tree. unfold rating_by_strategies. rewrite Hw, Hs.
  destruct Hv as [Hne _]. destruct v as [| c v]; [contradiction |].
  destruct (vote_display item) as [[| c1 v1] |]; [reflexivity | discriminate | reflexivity].
Qed.

Lemma script_rating_is_digits_witness :
  vote_attribute fragment_widget_and_script = Some (lit "3")
  /\ record_of fragment_widget_and_script !! "rating" = Some (lit "7")
  /\ digits (lit "7").
Proof.
  split; [vm_compute; reflexivity |].
  eapply (script_rating_is_digits fragment_widget_and_script _ (lit "7")).
  - vm_compute. reflexivity.
  - vm_compute. reflexivity.
  - vm_compute. reflexivity.
Defined.

(** ** The type of the record *)

(** An element the selector [div[class*='MyKP_Folder_Select_'][type]]
    matches has the attribute [type]. *)
Lemma css_type_has_attr (t : located) :
  select_filter css_type t = true -> is_Some (node_attr (l_node t) (lit "type")).
Proof.
  unfold select_filter, css_type. cbn [rev app].
  destruct (l_node t) as [s | s | s | nm c a kids]; try discriminate.
  cbn [node_head]. intros H. apply andb_true_iff in H as [H _].
  unfold compound_ok in H. cbn [sel_has_attr h_cls h_attrs forallb] in H.
  rewrite !andb_true_iff in H. destruct H as (((_ & _) & (H & _)) & _).
  apply bool_decide_eq_true_1 in H. exact H.
Qed.

(** X13: the type of a record is the [type] attribute of the first [div]
    whose class holds "MyKP_Folder_Select_" and that has the attribute, and
    "film" when the fragment has no such element; the default is never
    taken for an element the selector found. *)
Theorem type_is_attribute_or_film (item : located) :
  exists v,
    record_of item !! "type" = Some v
    /\ match select_in item css_type with
       | Some el => node_attr (l_node el) (lit "type") = Some v
       | None => v = lit "film"
       end.
Proof.
  destruct (record_field_nth item 5 _ _ eq_refl) as (d1 & d2 & Hp & Hin & Hout).
  rewrite Hout by set_solver. rewrite extract_type_tree in Hp. inversion Hp as [Hd2].
  destruct (select_in item css_type) as [el |] eqn:Hel.
  - apply List.find_some in Hel as [_ Hel].
    destruct (css_type_has_attr el Hel) as [v Hv]. rewrite Hv.
    exists v. split; [apply lookup_insert_eq | reflexivity].
  - exists (lit "film"). split; [apply lookup_insert_eq | reflexivity].
Qed.

(** * Further properties of the requests *)

(** ** [str] of a page number *)

Lemma value_of_from s a :
  fold_left (fun acc c => (10 * acc + (c - 48))%N) s a
  = (a * 10 ^ N.of_nat (length s) + value_of s)%N.
Proof.
  unfold value_of. revert a. induction s as [| c s IH]; intros a.
  - simpl. lia.
  - cbn [fold_left length]. rewrite IH, (IH (10 * 0 + (c - 48))%N).
    rewrite Nat2N.inj_succ, N.pow_succ_r'. lia.
Qed.

Lemma digits_fuel_value fuel n acc :
  (n < 10 ^ N.of_nat fuel)%N ->
  value_of (digits_fuel fuel n acc)
  = (n * 10 ^ N.of_nat (length acc) + value_of acc)%N.
Proof.
  revert n acc. induction fuel as [| f IH]; intros n acc Hn.
  - simpl in Hn. assert (n = 0%N) as -> by lia. simpl. lia.
  - cbn [digits_fuel].
    assert (Hacc : value_of ((48 + n mod 10)%N :: acc)
                   = (n mod 10 * 10 ^ N.of_nat (length acc) + value_of acc)%N).
    { unfold value_of at 1. cbn [fold_left]. rewrite value_of_from. f_equal. f_equal.
      clear. generalize (n mod 10)%N. intros m. lia. }
    destruct (N.ltb_spec n 10) as [Hlt | Hge].
    + rewrite Hacc, N.mod_small by exact Hlt. reflexivity.
    + rewrite IH.
      * rewrite Hacc. cbn [length]. rewrite Nat2N.inj_succ, N.pow_succ_r'.
        pose proof (N.div_mod n 10 ltac:(lia)) as Hdm.
        set (P := (10 ^ N.of_nat (length acc))%N) in *.
        set (q := (n / 10)%N) in *. set (m := (n mod 10)%N) in *. nia.
      * rewrite Nat2N.inj_succ, N.pow_succ_r' in Hn.
        apply N.Div0.div_lt_upper_bound. exact Hn.
Qed.

(** [str] loses nothing of a number. *)
Lemma value_str_of_N n : value_of (str_of_N n) = n.
Proof.
  unfold str_of_N. rewrite digits_fuel_value.
  { unfold value_of. cbn [length fold_left N.of_nat]. rewrite N.pow_0_r. lia. }
  rewrite Nat2N.inj_succ, N2Nat.id.
  destruct (N.eq_dec n 0%N) as [-> | Hne]; [reflexivity |].
  destruct (N.log2_spec n ltac:(lia)) as [_ Hlt].
  eapply N.lt_le_trans; [exact Hlt |].
  apply N.pow_le_mono_l. lia.
Qed.

Lemma page_url_inj (self : KinopoiskScraper) (p q : Z) :
  0 <= p -> 0 <= q -> page_url self p = page_url self q -> p = q.
Proof.
  intros Hp Hq H. unfold page_url, str_of_Z in H.
  rewrite (proj2 (Z.ltb_ge p 0) Hp), (proj2 (Z.ltb_ge q 0) Hq) in H.
  do 3 apply app_inv_head in H. apply app_inv_tail in H.
  apply (f_equal value_of) in H. rewrite !value_str_of_N in H.
  apply Z2N.inj; assumption.
Qed.

Lemma NoDup_map_inj {A B} (f : A -> B) (l : list A) :
  (forall x y, f x = f y -> x = y) -> NoDup l -> NoDup (List.map f l).
Proof.
  intros Hinj. induction l as [| a l IH]; simpl; intros Hnd; [constructor |].
  apply NoDup_cons in Hnd as [Ha Hnd]. apply NoDup_cons. split; [| apply IH, Hnd].
  rewrite list_elem_of_In. intros Hin. apply in_map_iff in Hin as (y & Hy & Hin).
  apply Hinj in Hy. subst y. apply Ha, list_elem_of_In, Hin.
Qed.

Section Requests.
Context {tag : Type} `{!Soup tag}.
Variable net : nat -> pystr -> py tag.
Variable disk_ok : pystr -> bool.

(** The requests of a run. *)
Lemma run_export_gets self filename :
  exists n r,
    0 <= n
    /\ get_total_pages net self [] = ([Get (page_url self 1)], inr n)
    /\ run_export net disk_ok self filename = (r, inr (negb (n =? 0) && disk_ok filename))
    /\ gets (out r)
       = Get (page_url self 1)
         :: List.map (fun k => Get (page_url self (Z.of_nat k))) (seq 1 (Z.to_nat n))
    /\ (n = 0 -> r = mk_run [Get (page_url self 1)] []).
Proof.
  destruct (run_export_trace net disk_ok self filename)
    as (n & r & Hn & Hc & Hrun & Hout & Hall).
  exists n, r. split; [exact Hn |]. split; [exact Hc |]. split; [exact Hrun |].
  split.
  - rewrite Hout, !gets_app, gets_page_events, gets_file_events.
    simpl. rewrite app_nil_r. reflexivity.
  - intros ->. destruct r as [o l]. cbn [out all_ratings] in *.
    rewrite Hout, Hall. reflexivity.
Qed.

(** X14: no page is asked for twice among the requests that follow the
    request for the count: the URLs of different pages differ. *)
Theorem export_never_repeats_a_page (self : KinopoiskScraper) (filename : pystr) :
  exists (r : run) (b : bool) (reqs : list event),
    run_export net disk_ok self filename = (r, inr b)
    /\ gets (out r) = Get (page_url self 1) :: reqs
    /\ NoDup reqs.
Proof.
  destruct (run_export_gets self filename) as (n & r & _ & _ & Hrun & Hg & _).
  exists r. eexists. eexists. split; [exact Hrun |]. split; [exact Hg |].
  apply NoDup_map_inj; [| apply NoDup_seq].
  intros i j Hij.
  apply (f_equal (fun e => match e with Get u => u | _ => [] end)) in Hij.
  apply page_url_inj in Hij; lia.
Qed.
End Requests.

Lemma count_indicator_nonneg (soup : located) (T : Z) :
  count_indicator soup = Some T -> 0 <= T.
Proof.
  unfold count_indicator. destruct (count_digits soup) as [g |]; [| discriminate].
  destruct (Z.of_nat (length g) <=? int_max_str_digits); [| discriminate].
  intros H. inversion H. apply int_digits_nonneg.
Qed.

(** X15: when the first listing page shows the total T, in no more
    digits than [int] reads, the run makes 1 + ceil(T/50) requests and
    returns [True] exactly when T is not 0 and the file could be written;
    a user with no ratings gets [False] after the one request, with no
    file.  When the page shows more digits than [int] reads, the run
    returns [False] after the one request as well. *)
Theorem export_requests_follow_total (net : nat -> pystr -> py located)
    (disk_ok : pystr -> bool) (self : KinopoiskScraper) (filename : pystr)
    (soup : located) :
  net 0%nat (page_url self 1) = inr soup ->
  (forall T, count_indicator soup = Some T ->
     exists r,
       run_export net disk_ok self filename
       = (r, inr (negb (T =? 0) && disk_ok filename))
       /\ length (gets (out r)) = S (Z.to_nat ((T + 49) / 50))
       /\ (T = 0 -> r = mk_run [Get (page_url self 1)] []))
  /\ (forall g, count_digits soup = Some g ->
        int_max_str_digits < Z.of_nat (length g) ->
        run_export net disk_ok self filename
        = (mk_run [Get (page_url self 1)] [], inr false)).
Proof.
  intros Hnet. pose proof (get_total_pages_tree net self [] soup Hnet) as Hc.
  simpl app in Hc. split.
  - intros T HT. pose proof (count_indicator_nonneg soup T HT) as Hpos.
    unfold count_indicator in HT.
    destruct (count_digits soup) as [g |]; [| discriminate].
    destruct (Z.of_nat (length g) <=? int_max_str_digits); [| discriminate].
    injection HT as HT'. rewrite HT' in Hc.
    destruct (run_export_gets net disk_ok self filename)
      as (n & r & _ & Hc' & Hrun & Hg & Hzero).
    rewrite Hc in Hc'. inversion Hc' as [Hn]. clear Hc'.
    assert (Hiff : (n =? 0) = (T =? 0)).
    { destruct (Z.eqb_spec T 0) as [-> | Hne].
      - subst n. reflexivity.
      - apply Z.eqb_neq. subst n. intros H0.
        pose proof (Z.div_mod (T + 49) 50 ltac:(lia)) as Hdm.
        pose proof (Z.mod_pos_bound (T + 49) 50 ltac:(lia)) as Hm.
        rewrite H0 in Hdm. lia. }
    exists r. rewrite <- Hiff. split; [exact Hrun |]. split.
    + rewrite Hg, Hn. simpl. rewrite length_map, length_seq. reflexivity.
    + intros ->. apply Hzero. subst n. reflexivity.
  - intros g Hg Hlong. rewrite Hg in Hc.
    apply Z.leb_gt in Hlong. rewrite Hlong in Hc.
    rewrite (run_export_run net disk_ok self filename 0 Hc). reflexivity.
Qed.

Lemma export_requests_follow_total_witness :
  run_export (net_of (page_with_total "0")) (fun _ => true) scraper_42
    (lit "kinopoisk_ratings.csv")
  = (mk_run [Get (page_url scraper_42 1)] [], inr false).
Proof.
  destruct (export_requests_follow_total (net_of (page_with_total "0")) (fun _ => true)
              scraper_42 (lit "kinopoisk_ratings.csv") (page_with_total "0") eq_refl)
    as [H _].
  destruct (H 0) as (r & Hrun & _ & Hr); [vm_compute; reflexivity |].
  rewrite Hrun, (Hr eq_refl). reflexivity.
Defined.
